(** * Binlog event decoding: pymysqlreplication/event.py

    A shallow embedding of the event classes of [event.py] and of the
    function [iter_bytes_to_string], together with the properties the
    specification states about them.

    Conventions of the embedding.
    - A Python byte string is a [list byte].  What a loop over it
      yields depends on the interpreter: strings of one character on
      Python 2, integers on Python 3.
    - Text is a [string], held as its UTF-8 encoding.
    - A Python [dict] is an object on a heap, named by a location; the
      values stored in a dict (and in an attribute) are of type [value],
      where [VDict l] is a reference to the dict object at [l].  Two
      references to one location are two names of the same object.
    - Code with effects runs in the monad [M]: it may change the packet
      cursor and the heap, and it may raise. *)

From Stdlib Require Import ZArith Lia Strings.String Strings.Ascii Strings.Byte.
From Stdlib Require DecimalString HexadecimalString.
From stdpp Require Import gmap strings list.

Open Scope Z_scope.

(** ** Exceptions *)

(** The exceptions the code can meet.  [PacketError] is the failure of the
    packet cursor.  [MalformedPayload] is the error kind the specification
    names for inconsistent declared lengths; no statement of [event.py]
    raises it. *)
Inductive exn :=
| KeyError
| TypeError
| UnicodeDecodeError
| StructError
| AttributeError
| RecursionError
| PacketError
| MalformedPayload.

Inductive result (A : Type) :=
| Ok (a : A)
| Err (e : exn).
Arguments Ok {A} a.
Arguments Err {A} e.

Definition is_malformed_payload (e : exn) : bool :=
  match e with MalformedPayload => true | _ => false end.

(** ** Bytes, integers and text *)

(** The numeric value of a byte. *)
Definition ord (c : byte) : N := Byte.to_N c.

(** [struct.unpack] of an unsigned little-endian integer: the value of a
    byte string read least significant byte first. *)
Fixpoint le_int (bs : list byte) : Z :=
  match bs with
  | [] => 0
  | b :: bs' => Z.of_N (ord b) + 256 * le_int bs'
  end.

Definition unpack_Q (bs : list byte) : result Z :=
  if decide (length bs = 8%nat) then Ok (le_int bs) else Err StructError.

(** [pymysql.util.byte2int] on a byte string: the value of its single
    byte. *)
Definition byte2int (bs : list byte) : result Z :=
  match bs with
  | [b] => Ok (Z.of_N (ord b))
  | _ => Err StructError
  end.

(** ["{0:02x}".format(n)]: lowercase hexadecimal, padded with a zero to at
    least two digits. *)
Definition format_02x (n : N) : string :=
  let s := HexadecimalString.NilZero.string_of_uint (N.to_hex_uint n) in
  if decide (String.length s < 2)%nat then String "0" s else s.

(** ["%d" % z]. *)
Definition format_d (z : Z) : string :=
  DecimalString.NilZero.string_of_int (Z.to_int z).

(** The interpreter's settings the code depends on: the codec of a
    [decode] call that names none, the UTF-8 codec, whether a loop over
    a byte string yields integers (Python 3) or strings of one character
    (Python 2), and the number of nested calls the stack still admits
    below the call at hand.  A codec returns [None] where Python raises
    [UnicodeDecodeError]. *)
Record interp := {
  default_codec : list byte -> option string;
  utf8_codec : list byte -> option string;
  bytes_iter_ints : bool;
  recursion_limit : nat
}.

(** *** A concrete UTF-8 codec *)

Definition is_cont (b : byte) : bool :=
  (128 <=? ord b)%N && (ord b <=? 191)%N.

Definition in_range (lo hi : N) (b : byte) : bool :=
  (lo <=? ord b)%N && (ord b <=? hi)%N.

(** Well-formed UTF-8: shortest forms only, no surrogates, nothing above
    U+10FFFF. *)
Fixpoint utf8_valid (bs : list byte) : bool :=
  match bs with
  | [] => true
  | b0 :: r0 =>
    if (ord b0 <? 128)%N then utf8_valid r0
    else
      match r0 with
      | [] => false
      | b1 :: r1 =>
        if in_range 194 223 b0 then is_cont b1 && utf8_valid r1
        else
          match r1 with
          | [] => false
          | b2 :: r2 =>
            if in_range 224 239 b0 then
              (if (ord b0 =? 224)%N then in_range 160 191 b1
               else if (ord b0 =? 237)%N then in_range 128 159 b1
               else is_cont b1)
              && is_cont b2 && utf8_valid r2
            else
              match r2 with
              | [] => false
              | b3 :: r3 =>
                if in_range 240 244 b0 then
                  (if (ord b0 =? 240)%N then in_range 144 191 b1
                   else if (ord b0 =? 244)%N then in_range 128 143 b1
                   else is_cont b1)
                  && is_cont b2 && is_cont b3 && utf8_valid r3
                else false
              end
          end
      end
  end.

Definition utf8_decode (bs : list byte) : option string :=
  if utf8_valid bs then Some (string_of_list_byte bs) else None.

(** The ASCII codec: bytes below 128 only. *)
Definition ascii_decode (bs : list byte) : option string :=
  if forallb (fun b => (ord b <? 128)%N) bs then Some (string_of_list_byte bs)
  else None.

(** Python 3 with its usual settings, for a call made from the top level
    of a module: of the 1000 frames of the default recursion limit, 997
    are left for calls nested in that call (CPython 3.11 returns on a
    chain of 998 mappings nested in one another and raises on 999). *)
Definition python3 : interp :=
  {| default_codec := utf8_decode;
     utf8_codec := utf8_decode;
     bytes_iter_ints := true;
     recursion_limit := 997 |}.

(** Python 2 with its usual settings: [decode] without a codec is ASCII,
    and a loop over a byte string yields strings of one character.  The
    recursion limit is as above. *)
Definition python2 : interp :=
  {| default_codec := ascii_decode;
     utf8_codec := utf8_decode;
     bytes_iter_ints := false;
     recursion_limit := 997 |}.

(** ** Values, dict objects and the packet cursor *)

Definition loc := positive.

Inductive value :=
| VNone
| VInt (n : Z)
| VBool (b : bool)
| VText (s : string)
| VBytes (bs : list byte)
| VDict (l : loc).

Definition is_dict (v : value) : bool :=
  match v with VDict _ => true | _ => false end.

(** Modelled from the spec: the packet cursor (the class of
    [self.packet], which is not part of [event.py]).  It is a sequential
    reader over the packet's bytes that tracks the total number of bytes
    consumed and carries the header fields the framing layer parsed.
    [data] is what has not been read yet. *)
Module Packet.
Record t := {
  event_type : Z;
  timestamp : Z;
  log_pos : Z;
  flags : Z;
  read_bytes : Z;
  data : list byte
}.

Definition consume (n : Z) (p : t) : t :=
  {| event_type := event_type p;
     timestamp := timestamp p;
     log_pos := log_pos p;
     flags := flags p;
     read_bytes := read_bytes p + n;
     data := drop (Z.to_nat n) (data p) |}.
End Packet.

(** The state a call runs in: the packet the event was built from, and
    the heap of dict objects. *)
Record state := {
  packet : Packet.t;
  heap : gmap loc (gmap string value)
}.

Definition set_packet (p : Packet.t) (s : state) : state :=
  {| packet := p; heap := heap s |}.

Definition set_heap (h : gmap loc (gmap string value)) (s : state) : state :=
  {| packet := packet s; heap := h |}.

(** ** The monad of effects *)

Definition M (A : Type) : Type := state -> result A * state.

Definition ret {A} (a : A) : M A := fun s => (Ok a, s).

Definition raise {A} (e : exn) : M A := fun s => (Err e, s).

Definition bind {A B} (m : M A) (f : A -> M B) : M B :=
  fun s =>
    match m s with
    | (Ok a, s') => f a s'
    | (Err e, s') => (Err e, s')
    end.

Definition lift {A} (r : result A) : M A := fun s => (r, s).

(** [try: m except: pass] with a bare [except]: whatever [m] raised is
    dropped; what [m] did to the state before raising stays. *)
Definition try_except (m : M unit) : M unit :=
  fun s =>
    match m s with
    | (Ok _, s') => (Ok tt, s')
    | (Err _, s') => (Ok tt, s')
    end.

Declare Scope py_scope.
Delimit Scope py_scope with py.
Notation "x <- m ;; k" := (bind m (fun x => k))
  (at level 100, m at next level, right associativity) : py_scope.
Notation "m ;;; k" := (bind m (fun _ => k))
  (at level 100, right associativity) : py_scope.
Open Scope py_scope.

Fixpoint for_each {A} (xs : list A) (body : A -> M unit) : M unit :=
  match xs with
  | [] => ret tt
  | x :: xs' => body x ;;; for_each xs' body
  end.

(** *** The cursor's operations *)

Definition get_packet : M Packet.t := fun s => (Ok (packet s), s).

(** Modelled from the spec: [packet.read(n)], a bounds-checked raw read.
    It returns exactly [n] bytes and advances past them, or fails when
    the request cannot be met: the packet is shorter than required (or
    the length is negative).  A failed read leaves the cursor as it
    was. *)
Definition read (n : Z) : M (list byte) :=
  fun s =>
    let p := packet s in
    if decide (0 <= n <= Z.of_nat (length (Packet.data p))) then
      (Ok (take (Z.to_nat n) (Packet.data p)), set_packet (Packet.consume n p) s)
    else (Err PacketError, s).

(** Modelled from the spec: [packet.advance(n)], the positional skip,
    bounds-checked like [read]. *)
Definition advance (n : Z) : M unit :=
  fun s =>
    let p := packet s in
    if decide (0 <= n <= Z.of_nat (length (Packet.data p))) then
      (Ok tt, set_packet (Packet.consume n p) s)
    else (Err PacketError, s).

(** Modelled from the spec: the fixed-width little-endian reads. *)
Definition read_uint16 : M Z := bs <- read 2 ;; ret (le_int bs).

Definition read_uint32 : M Z := bs <- read 4 ;; ret (le_int bs).

(** *** Operations on dict objects *)

(** [{}]: a new, empty dict object. *)
Definition new_dict : M value :=
  fun s =>
    let l := fresh (dom (heap s)) in
    (Ok (VDict l), set_heap (<[l := ∅]> (heap s)) s).

(** The object a value refers to.  Only a dict has items; a location
    outside the heap names no object. *)
Definition deref (o : value) : M (gmap string value) :=
  fun s =>
    match o with
    | VDict l =>
      match heap s !! l with
      | Some d => (Ok d, s)
      | None => (Err TypeError, s)
      end
    | _ => (Err TypeError, s)
    end.

(** [o[key]]. *)
Definition getitem (o : value) (key : string) : M value :=
  d <- deref o ;;
  match d !! key with
  | Some v => ret v
  | None => raise KeyError
  end.

(** [o[key] = v]: the object is changed in place. *)
Definition setitem (o : value) (key : string) (v : value) : M unit :=
  d <- deref o ;;
  match o with
  | VDict l => fun s => (Ok tt, set_heap (<[l := <[key := v]> d]> (heap s)) s)
  | _ => raise TypeError
  end.

(** [o.keys()], in the order the map enumerates them. *)
Definition keys (o : value) : M (list string) :=
  d <- deref o ;; ret ((map_to_list d).*1).

(** [o.update(h)]: every item of [h] is stored into [o]. *)
Definition update (o h : value) : M unit :=
  dh <- deref h ;;
  d <- deref o ;;
  match o with
  | VDict l => fun s => (Ok tt, set_heap (<[l := dh ∪ d]> (heap s)) s)
  | _ => raise TypeError
  end.

(** The truth value of [if h:]. *)
Definition truthy (v : value) : M bool :=
  match v with
  | VNone => ret false
  | VInt n => ret (negb (n =? 0))
  | VBool b => ret b
  | VText s => ret (negb (String.eqb s ""))
  | VBytes bs => ret (negb (Nat.eqb (length bs) 0))
  | VDict _ => d <- deref v ;; ret (negb (Nat.eqb (size d) 0))
  end.

(** ** Decoding text *)

Definition decode_with (codec : list byte -> option string) (bs : list byte)
  : result string :=
  match codec bs with
  | Some t => Ok t
  | None => Err UnicodeDecodeError
  end.

(** [tuple(f(x) for x in xs)]: the results in order; the first
    exception ends the loop. *)
Fixpoint map_result {A B} (f : A -> result B) (xs : list A) : result (list B) :=
  match xs with
  | [] => Ok []
  | x :: xs' =>
    match f x with
    | Ok y =>
      match map_result f xs' with
      | Ok ys => Ok (y :: ys)
      | Err e => Err e
      end
    | Err e => Err e
    end
  end.

(** The builtin [ord(c)]: the code of a string of one character, and
    [TypeError] for any other value, an integer among them. *)
Definition py_ord (c : value) : result N :=
  match c with
  | VBytes [b] => Ok (ord b)
  | VText (String a EmptyString) => Ok (N_of_ascii a)
  | _ => Err TypeError
  end.

Section Events.

Context (py : interp).

(** The items a [for] loop over a byte string yields. *)
Definition iter_bytes (bs : list byte) : list value :=
  if bytes_iter_ints py then map (fun b => VInt (Z.of_N (ord b))) bs
  else map (fun b => VBytes [b]) bs.

(** [bytes.decode(v)]: a method of [bytes] called on any value. *)
Definition bytes_decode (v : value) : result string :=
  match v with
  | VBytes bs => decode_with (default_codec py) bs
  | _ => Err TypeError
  end.

(** ** iter_bytes_to_string *)

(** [depth] is the number of nested calls the stack admits below this
    one. *)
Fixpoint iter_bytes_to_string_at (depth : nat) (hash : value) : M value :=
  if is_dict hash then
    ks <- keys hash ;;
    for_each ks (fun key =>
      v <- getitem hash key ;;
      if negb (is_dict v) then
        try_except (
          v' <- getitem hash key ;;
          t <- lift (bytes_decode v') ;;
          setitem hash key (VText t))
      else
        v' <- getitem hash key ;;
        match depth with
        | O => raise RecursionError
        | S depth' => iter_bytes_to_string_at depth' v' ;;; ret tt
        end) ;;;
    ret hash
  else ret hash.

Definition iter_bytes_to_string (hash : value) : M value :=
  iter_bytes_to_string_at (recursion_limit py) hash.

(** ** The event classes *)

Inductive class :=
| GtidEvent
| RotateEvent
| FormatDescriptionEvent
| StopEvent
| XidEvent
| QueryEvent
| NotImplementedEvent.

Global Instance class_eq_dec : EqDecision class.
Proof. solve_decision. Defined.

(** [self.__class__.__name__]. *)
Definition class_name (c : class) : string :=
  match c with
  | GtidEvent => "GtidEvent"
  | RotateEvent => "RotateEvent"
  | FormatDescriptionEvent => "FormatDescriptionEvent"
  | StopEvent => "StopEvent"
  | XidEvent => "XidEvent"
  | QueryEvent => "QueryEvent"
  | NotImplementedEvent => "NotImplementedEvent"
  end.

(** The attributes a subclass adds in its [__init__]; [__hashes] is the
    subclass's private dict. *)
Inductive fields :=
| NoFields
| GtidFields (commit_flag : bool) (sid : list byte) (gno : Z) (__hashes : value)
| RotateFields (position : Z) (next_binlog : string) (__hashes : value)
| XidFields (__only_schemas : value) (xid : Z) (__hashes : value)
| QueryFields (__only_schemas : value)
    (slave_proxy_id execution_time schema_length error_code status_vars_length : Z)
    (status_vars schema : list byte) (query : string) (__hashes : value).

(** An event object.  [self.packet] is the packet of the state. *)
Record BinLogEvent := {
  cls : class;
  table_map : value;
  event_type : Z;
  timestamp : Z;
  event_size : Z;
  log_pos : Z;
  _ctl_connection : value;
  _processed : bool;
  hashes : value;
  body : fields
}.

Definition set_body (f : fields) (self : BinLogEvent) : BinLogEvent :=
  {| cls := cls self; table_map := table_map self;
     event_type := event_type self; timestamp := timestamp self;
     event_size := event_size self; log_pos := log_pos self;
     _ctl_connection := _ctl_connection self; _processed := _processed self;
     hashes := hashes self; body := f |}.

Definition set_hashes (h : value) (self : BinLogEvent) : BinLogEvent :=
  {| cls := cls self; table_map := table_map self;
     event_type := event_type self; timestamp := timestamp self;
     event_size := event_size self; log_pos := log_pos self;
     _ctl_connection := _ctl_connection self; _processed := _processed self;
     hashes := h; body := body self |}.

(** The keyword parameters [BinLogEvent.__init__] declares; a call with
    any other keyword is a [TypeError]. *)
Definition init_keywords : gset string :=
  {[ "only_tables"; "only_schemas"; "freeze_schema" ]}.

Definition BinLogEvent_init (c : class) (event_size : Z)
    (table_map ctl_connection : value) (kwargs : gmap string value)
  : M BinLogEvent :=
  if decide (dom kwargs ⊆ init_keywords) then
    p <- get_packet ;;
    h <- new_dict ;;
    ret {| cls := c; table_map := table_map;
           event_type := Packet.event_type p;
           timestamp := Packet.timestamp p;
           event_size := event_size;
           log_pos := Packet.log_pos p;
           _ctl_connection := ctl_connection;
           _processed := true;
           hashes := h;
           body := NoFields |}
  else raise TypeError.

(** [kwargs[key]]. *)
Definition kwarg (kwargs : gmap string value) (key : string) : M value :=
  match kwargs !! key with
  | Some v => ret v
  | None => raise KeyError
  end.

Definition GtidEvent_init (event_size : Z) (table_map ctl_connection : value)
    (kwargs : gmap string value) : M BinLogEvent :=
  self <- BinLogEvent_init GtidEvent event_size table_map ctl_connection kwargs ;;
  b <- read 1 ;;
  n <- lift (byte2int b) ;;
  sid <- read 16 ;;
  g <- read 8 ;;
  gno <- lift (unpack_Q g) ;;
  h <- new_dict ;;
  ret (set_body (GtidFields (n =? 1) sid gno h) self).

Definition RotateEvent_init (event_size : Z) (table_map ctl_connection : value)
    (kwargs : gmap string value) : M BinLogEvent :=
  self <- BinLogEvent_init RotateEvent event_size table_map ctl_connection kwargs ;;
  b <- read 8 ;;
  position <- lift (unpack_Q b) ;;
  name <- read (event_size - 8) ;;
  next_binlog <- lift (decode_with (default_codec py) name) ;;
  h <- new_dict ;;
  ret (set_body (RotateFields position next_binlog h) self).

Definition XidEvent_init (event_size : Z) (table_map ctl_connection : value)
    (kwargs : gmap string value) : M BinLogEvent :=
  self <- BinLogEvent_init XidEvent event_size table_map ctl_connection kwargs ;;
  only_schemas <- kwarg kwargs "only_schemas" ;;
  b <- read 8 ;;
  xid <- lift (unpack_Q b) ;;
  h <- new_dict ;;
  ret (set_body (XidFields only_schemas xid h) self).

Definition QueryEvent_init (event_size : Z) (table_map ctl_connection : value)
    (kwargs : gmap string value) : M BinLogEvent :=
  self <- BinLogEvent_init QueryEvent event_size table_map ctl_connection kwargs ;;
  only_schemas <- kwarg kwargs "only_schemas" ;;
  slave_proxy_id <- read_uint32 ;;
  execution_time <- read_uint32 ;;
  b <- read 1 ;;
  schema_length <- lift (byte2int b) ;;
  error_code <- read_uint16 ;;
  status_vars_length <- read_uint16 ;;
  status_vars <- read status_vars_length ;;
  schema <- read schema_length ;;
  advance 1 ;;;
  q <- read (event_size - 13 - status_vars_length - schema_length - 1) ;;
  query <- lift (decode_with (utf8_codec py) q) ;;
  h <- new_dict ;;
  ret (set_body (QueryFields only_schemas slave_proxy_id execution_time
                   schema_length error_code status_vars_length
                   status_vars schema query h) self).

Definition NotImplementedEvent_init (event_size : Z)
    (table_map ctl_connection : value) (kwargs : gmap string value)
  : M BinLogEvent :=
  self <- BinLogEvent_init NotImplementedEvent event_size table_map
            ctl_connection kwargs ;;
  advance event_size ;;;
  ret self.

(** Calling a class: [c(from_packet, event_size, table_map,
    ctl_connection, **kwargs)].  [FormatDescriptionEvent] and [StopEvent]
    define no [__init__] and inherit that of [BinLogEvent]. *)
Definition new (c : class) (event_size : Z) (table_map ctl_connection : value)
    (kwargs : gmap string value) : M BinLogEvent :=
  match c with
  | GtidEvent => GtidEvent_init event_size table_map ctl_connection kwargs
  | RotateEvent => RotateEvent_init event_size table_map ctl_connection kwargs
  | FormatDescriptionEvent =>
    BinLogEvent_init FormatDescriptionEvent event_size table_map
      ctl_connection kwargs
  | StopEvent =>
    BinLogEvent_init StopEvent event_size table_map ctl_connection kwargs
  | XidEvent => XidEvent_init event_size table_map ctl_connection kwargs
  | QueryEvent => QueryEvent_init event_size table_map ctl_connection kwargs
  | NotImplementedEvent =>
    NotImplementedEvent_init event_size table_map ctl_connection kwargs
  end.

(** *** GtidEvent.gtid *)

(** The format ["%s%s%s%s-%s%s-%s%s-%s%s-%s%s%s%s%s%s"] applied to a tuple:
    it takes sixteen arguments, no more and no fewer. *)
Definition gtid_format (args : list string) : result string :=
  match args with
  | [a0; a1; a2; a3; a4; a5; a6; a7; a8; a9; a10; a11; a12; a13; a14; a15] =>
    Ok (a0 +:+ a1 +:+ a2 +:+ a3 +:+ "-" +:+ a4 +:+ a5 +:+ "-" +:+ a6 +:+ a7
        +:+ "-" +:+ a8 +:+ a9
        +:+ "-" +:+ a10 +:+ a11 +:+ a12 +:+ a13 +:+ a14 +:+ a15)
  | _ => Err TypeError
  end.

(** The [gtid] property.  The tuple is built first, by [ord] on each
    item of the loop over [self.sid]; then it is formatted. *)
Definition gtid (sid : list byte) (gno : Z) : result string :=
  match map_result (fun c => match py_ord c with
                             | Ok n => Ok (format_02x n)
                             | Err e => Err e
                             end) (iter_bytes sid) with
  | Ok args =>
    match gtid_format args with
    | Ok s => Ok (s +:+ ":" +:+ format_d gno)
    | Err e => Err e
    end
  | Err e => Err e
  end.

(** *** _dump and dump *)

(** [_dump]: the base class returns [None]; [GtidEvent], [XidEvent] and
    [QueryEvent] fill their private dict and return it. *)
Definition _dump (self : BinLogEvent) : M value :=
  match cls self, body self with
  | GtidEvent, GtidFields commit_flag sid gno h =>
    setitem h "commit_flag" (VBool commit_flag) ;;;
    g <- lift (gtid sid gno) ;;
    setitem h "gtid" (VText g) ;;;
    ret h
  | XidEvent, XidFields _ xid h =>
    setitem h "xid" (VInt xid) ;;;
    ret h
  | QueryEvent, QueryFields _ _ execution_time _ _ _ _ schema query h =>
    s <- lift (bytes_decode (VBytes schema)) ;;
    setitem h "schema" (VText s) ;;;
    setitem h "execution_time" (VInt execution_time) ;;;
    setitem h "query" (VText query) ;;;
    ret h
  | _, _ => ret VNone
  end.

(** [BinLogEvent.dump].  The call returns a value and leaves the event
    with its [hashes] attribute assigned anew. *)
Definition BinLogEvent_dump (self : BinLogEvent) : M (value * BinLogEvent) :=
  setitem (hashes self) "class" (VText (class_name (cls self))) ;;;
  setitem (hashes self) "timestamp" (VInt (timestamp self)) ;;;
  p <- get_packet ;;
  setitem (hashes self) "log_pos" (VInt (Packet.log_pos p)) ;;;
  setitem (hashes self) "event_size" (VInt (event_size self)) ;;;
  p <- get_packet ;;
  setitem (hashes self) "read_bytes" (VInt (Packet.read_bytes p)) ;;;
  p <- get_packet ;;
  setitem (hashes self) "flags" (VInt (Packet.flags p)) ;;;
  h <- _dump self ;;
  t <- truthy h ;;
  (if t then update (hashes self) h else ret tt) ;;;
  r <- iter_bytes_to_string (hashes self) ;;
  ret (r, set_hashes r self).

(** [RotateEvent.dump], which overrides the one above. *)
Definition RotateEvent_dump (self : BinLogEvent) : M (value * BinLogEvent) :=
  match body self with
  | RotateFields position next_binlog h =>
    setitem h "class" (VText (class_name (cls self))) ;;;
    setitem h "position" (VInt position) ;;;
    setitem h "next_binlog" (VText next_binlog) ;;;
    setitem h "timestamp" (VInt (timestamp self)) ;;;
    ret (h, self)
  | _ => raise AttributeError
  end.

(** [self.dump()], by the class of [self]. *)
Definition dump (self : BinLogEvent) : M (value * BinLogEvent) :=
  match cls self with
  | RotateEvent => RotateEvent_dump self
  | _ => BinLogEvent_dump self
  end.

(** ** Definitions used to state the properties *)

(** *** The GTID text *)

Definition hex_digit (n : N) : ascii :=
  ascii_of_N (if (n <? 10)%N then 48 + n else 87 + n).

(** A byte as two lowercase hexadecimal digits, high digit first. *)
Definition hex_pair (b : byte) : string :=
  String (hex_digit (ord b / 16)) (String (hex_digit (ord b mod 16)) "").

Fixpoint hex_pairs (bs : list byte) : string :=
  match bs with
  | [] => ""
  | b :: bs' => hex_pair b +:+ hex_pairs bs'
  end.

(** The sixteen bytes in order, grouped 4-2-2-2-6 (8-4-4-4-12 digits),
    then a colon and the decimal number. *)
Definition gtid_text (sid : list byte) (gno : Z) : string :=
  hex_pairs (take 4 sid) +:+ "-" +:+
  hex_pairs (take 2 (drop 4 sid)) +:+ "-" +:+
  hex_pairs (take 2 (drop 6 sid)) +:+ "-" +:+
  hex_pairs (take 2 (drop 8 sid)) +:+ "-" +:+
  hex_pairs (take 6 (drop 10 sid)) +:+ ":" +:+ format_d gno.

Definition is_lower_hex (c : ascii) : bool :=
  let n := N_of_ascii c in
  ((48 <=? n) && (n <=? 57) || (97 <=? n) && (n <=? 102))%N.

Definition is_decimal (c : ascii) : bool :=
  let n := N_of_ascii c in ((48 <=? n) && (n <=? 57))%N.

Fixpoint all_chars (f : ascii -> bool) (s : string) : bool :=
  match s with
  | EmptyString => true
  | String c s' => f c && all_chars f s'
  end.

(** [take_hex n s]: [s] without its first [n] characters, when these are
    lowercase hexadecimal digits. *)
Fixpoint take_hex (n : nat) (s : string) : option string :=
  match n with
  | O => Some s
  | S n' =>
    match s with
    | String c s' => if is_lower_hex c then take_hex n' s' else None
    | EmptyString => None
    end
  end.

Definition expect (c : ascii) (s : string) : option string :=
  match s with
  | String c' s' => if Ascii.eqb c c' then Some s' else None
  | EmptyString => None
  end.

Inductive piece :=
| Hex (n : nat)
| Lit (c : ascii).

(** [strip ps s]: [s] without the prefix the pieces [ps] describe. *)
Fixpoint strip (ps : list piece) (s : string) : option string :=
  match ps with
  | [] => Some s
  | Hex n :: ps' =>
    match take_hex n s with
    | Some s' => strip ps' s'
    | None => None
    end
  | Lit c :: ps' =>
    match expect c s with
    | Some s' => strip ps' s'
    | None => None
    end
  end.

(** The recogniser of
    [^[0-9a-f]{8}-[0-9a-f]{4}-[0-9a-f]{4}-[0-9a-f]{4}-[0-9a-f]{12}:\d+$]
    (with ASCII digits for [\d]). *)
Definition matches_gtid_pattern (s : string) : bool :=
  match
    strip [Hex 8; Lit "-"; Hex 4; Lit "-"; Hex 4; Lit "-"; Hex 4; Lit "-";
           Hex 12; Lit ":"] s
  with
  | Some (String c rest) => is_decimal c && all_chars is_decimal rest
  | _ => false
  end.

(** *** The effect of iter_bytes_to_string *)

(** What the [try] statement of [iter_bytes_to_string] makes of a value:
    its decoded text when [bytes.decode] returns, the value itself when
    [bytes.decode] raises. *)
Definition conv (v : value) : value :=
  match bytes_decode v with
  | Ok t => VText t
  | Err _ => v
  end.

(** The mapping at [l] exists, and so does every mapping nested in it, at
    most [n] levels deep.  A mapping nested in itself is nested within no
    [n]. *)
Fixpoint nested_within (h : gmap loc (gmap string value)) (n : nat) (l : loc)
  : Prop :=
  exists d, h !! l = Some d /\
    forall k l', d !! k = Some (VDict l') ->
      match n with
      | O => False
      | S n' => nested_within h n' l'
      end.

(** [reachable h l l']: the mapping at [l'] is the one at [l] or is nested
    in it, at any depth. *)
Inductive reachable (h : gmap loc (gmap string value)) : loc -> loc -> Prop :=
| reachable_refl (l : loc) : reachable h l l
| reachable_step (l l1 l2 : loc) (d : gmap string value) (k : string) :
    h !! l = Some d -> d !! k = Some (VDict l1) -> reachable h l1 l2 ->
    reachable h l l2.

(** One pass of the loop body of [iter_bytes_to_string] for [key], with
    the nested call abstracted as [call]. *)
Definition item_step (call : value -> M unit) (hash : value) (key : string)
  : M unit :=
  v <- getitem hash key ;;
  if negb (is_dict v) then
    try_except (
      v' <- getitem hash key ;;
      t <- lift (bytes_decode v') ;;
      setitem hash key (VText t))
  else
    v' <- getitem hash key ;;
    call v'.

Definition nested_call (depth : nat) : value -> M unit :=
  match depth with
  | O => fun _ => raise RecursionError
  | S depth' => fun v => iter_bytes_to_string_at depth' v ;;; ret tt
  end.

(** Each cell of [h'] holds what it held in [h], or that value
    converted; the objects are the same. *)
Definition dict_evolves (d d' : gmap string value) : Prop :=
  forall k, d' !! k = d !! k \/ d' !! k = conv <$> d !! k.

Definition evolves (h h' : gmap loc (gmap string value)) : Prop :=
  forall l,
    match h !! l, h' !! l with
    | Some d, Some d' => dict_evolves d d'
    | None, None => True
    | _, _ => False
    end.

(** Nothing is left to convert in the mapping at [l] and in those nested
    in it. *)
Fixpoint settled (h : gmap loc (gmap string value)) (n : nat) (l : loc)
  : Prop :=
  exists d, h !! l = Some d /\
    forall k v, d !! k = Some v ->
      match v with
      | VDict l' =>
        match n with
        | O => False
        | S n' => settled h n' l'
        end
      | _ => conv v = v
      end.

Definition value_settled (h : gmap loc (gmap string value)) (n : nat)
    (v : value) : Prop :=
  match v with
  | VDict l' =>
    match n with
    | O => False
    | S n' => settled h n' l'
    end
  | _ => conv v = v
  end.

Definition cell_settled (h : gmap loc (gmap string value)) (n : nat)
    (l : loc) (k : string) : Prop :=
  exists d v, h !! l = Some d /\ d !! k = Some v /\ value_settled h n v.

(** A run from [s] to [s'] that leaves the packet alone, only converts
    cells, and touches no object outside those reachable from [l]. *)
Definition gentle (l : loc) (s s' : state) : Prop :=
  packet s' = packet s
  /\ evolves (heap s) (heap s')
  /\ forall x, ~ reachable (heap s) l x -> heap s' !! x = heap s !! x.

(** *** The dump of an event *)

(** A mapping that holds no mapping. *)
Definition flat (d : gmap string value) : Prop :=
  forall k v, d !! k = Some v -> is_dict v = false.


(** The six items [BinLogEvent.dump] stores first, stored into [d]. *)
Definition envelope (self : BinLogEvent) (p : Packet.t)
    (d : gmap string value) : gmap string value :=
  <["flags" := VInt (Packet.flags p)]>
    (<["read_bytes" := VInt (Packet.read_bytes p)]>
       (<["event_size" := VInt (event_size self)]>
          (<["log_pos" := VInt (Packet.log_pos p)]>
             (<["timestamp" := VInt (timestamp self)]>
                (<["class" := VText (class_name (cls self))]> d))))).

(** The items the event's own [_dump] stores, in order; none for a class
    that inherits the [_dump] of [BinLogEvent]. *)
Definition own_items (self : BinLogEvent) : result (list (string * value)) :=
  match cls self, body self with
  | GtidEvent, GtidFields commit_flag sid gno _ =>
    match gtid sid gno with
    | Ok g => Ok [("commit_flag", VBool commit_flag); ("gtid", VText g)]
    | Err x => Err x
    end
  | XidEvent, XidFields _ xid _ => Ok [("xid", VInt xid)]
  | QueryEvent, QueryFields _ _ execution_time _ _ _ _ schema query _ =>
    match bytes_decode (VBytes schema) with
    | Ok s => Ok [("schema", VText s);
                  ("execution_time", VInt execution_time);
                  ("query", VText query)]
    | Err x => Err x
    end
  | _, _ => Ok []
  end.

Definition store (items : list (string * value)) (d : gmap string value)
  : gmap string value :=
  foldl (fun d kv => <[kv.1 := kv.2]> d) d items.

(** The private dict of a subclass instance. *)
Definition private (self : BinLogEvent) : option value :=
  match body self with
  | NoFields => None
  | GtidFields _ _ _ h => Some h
  | RotateFields _ _ h => Some h
  | XidFields _ _ h => Some h
  | QueryFields _ _ _ _ _ _ _ _ _ h => Some h
  end.

(** What holds of an event of class [c] in the state its construction
    ends in: the attributes copied from the packet, the new and empty
    dicts, and the widths of the integers read. *)
Definition decoded (c : class) (e : BinLogEvent) (s : state) : Prop :=
  cls e = c
  /\ timestamp e = Packet.timestamp (packet s)
  /\ log_pos e = Packet.log_pos (packet s)
  /\ exists lh, hashes e = VDict lh /\ heap s !! lh = Some ∅
     /\ match c, body e with
        | GtidEvent, GtidFields _ sid gno h =>
          length sid = 16%nat /\ 0 <= gno < 2 ^ 64
          /\ exists lp, h = VDict lp /\ lp <> lh /\ heap s !! lp = Some ∅
        | RotateEvent, RotateFields position _ h =>
          0 <= position < 2 ^ 64
          /\ exists lp, h = VDict lp /\ lp <> lh /\ heap s !! lp = Some ∅
        | XidEvent, XidFields _ xid h =>
          0 <= xid < 2 ^ 64
          /\ exists lp, h = VDict lp /\ lp <> lh /\ heap s !! lp = Some ∅
        | QueryEvent, QueryFields _ _ execution_time _ _ _ _ _ _ h =>
          0 <= execution_time < 2 ^ 32
          /\ exists lp, h = VDict lp /\ lp <> lh /\ heap s !! lp = Some ∅
        | FormatDescriptionEvent, NoFields => True
        | StopEvent, NoFields => True
        | NotImplementedEvent, NoFields => True
        | _, _ => False
        end.

(** The header fields of the packet, which no read changes. *)
Definition same_header (p p' : Packet.t) : Prop :=
  Packet.event_type p' = Packet.event_type p
  /\ Packet.timestamp p' = Packet.timestamp p
  /\ Packet.log_pos p' = Packet.log_pos p
  /\ Packet.flags p' = Packet.flags p.

(** A value that is an integer, a boolean or text. *)
Definition scalar (v : value) : Prop :=
  match v with
  | VInt _ | VBool _ | VText _ => True
  | VNone | VBytes _ | VDict _ => False
  end.

(** The items [RotateEvent.dump] stores, stored into [d]. *)
Definition rotate_items (self : BinLogEvent) (position : Z)
    (next_binlog : string) (d : gmap string value) : gmap string value :=
  <["timestamp" := VInt (timestamp self)]>
    (<["next_binlog" := VText next_binlog]>
       (<["position" := VInt position]>
          (<["class" := VText (class_name (cls self))]> d))).

(** The statements of [BinLogEvent.dump] after the first six. *)
Definition dump_rest (self : BinLogEvent) : M (value * BinLogEvent) :=
  h <- _dump self ;;
  t <- truthy h ;;
  (if t then update (hashes self) h else ret tt) ;;;
  r <- iter_bytes_to_string (hashes self) ;;
  ret (r, set_hashes r self).


(** *** The lengths a QueryEvent payload declares *)

(** [L_schema], the byte at offset 8 of the payload, and [L_status], the
    two bytes at offset 11. *)
Definition declared_schema_length (payload : list byte) : Z :=
  le_int (take 1 (drop 8 payload)).

Definition declared_status_vars_length (payload : list byte) : Z :=
  le_int (take 2 (drop 11 payload)).

(** *** Forgetting the schema filter *)

Definition forget_only_schemas (f : fields) : fields :=
  match f with
  | XidFields _ xid h => XidFields VNone xid h
  | QueryFields _ slave_proxy_id execution_time schema_length error_code
      status_vars_length status_vars schema query h =>
    QueryFields VNone slave_proxy_id execution_time schema_length error_code
      status_vars_length status_vars schema query h
  | _ => f
  end.

(** The outcome of a construction, but for the [__only_schemas]
    attribute of the event. *)
Definition but_only_schemas (r : result BinLogEvent * state)
  : result BinLogEvent * state :=
  match r with
  | (Ok e, s) => (Ok (set_body (forget_only_schemas (body e)) e), s)
  | (Err x, s) => (Err x, s)
  end.

(** *** Example packets *)

(** A packet of the framing layer with its header parsed, 19 bytes
    consumed so far and [payload] left to read; and the state that holds
    it and no dict yet. *)
Definition example_packet (type_code : Z) (payload : list byte) : Packet.t :=
  {| Packet.event_type := type_code;
     Packet.timestamp := 1700000000;
     Packet.log_pos := 120;
     Packet.flags := 0;
     Packet.read_bytes := 19;
     Packet.data := payload |}.

Definition start (type_code : Z) (payload : list byte) : state :=
  {| packet := example_packet type_code payload; heap := ∅ |}.

(** The source identifier 3e11fa47-71ca-11e1-9e33-c80aa9429562. *)
Definition example_sid : list byte :=
  [x3e; x11; xfa; x47; x71; xca; x11; xe1;
   x9e; x33; xc8; x0a; xa9; x42; x95; x62].

(** Commit flag 1, the identifier above, transaction number 23. *)
Definition gtid_payload : list byte :=
  [x01] ++ example_sid ++ [x17; x00; x00; x00; x00; x00; x00; x00].

(** Position 4, then the name of the next file. *)
Definition rotate_payload : list byte :=
  [x04; x00; x00; x00; x00; x00; x00; x00]
  ++ list_byte_of_string "mysql-bin.000002".

(** Transaction identifier 42. *)
Definition xid_payload : list byte :=
  [x2a; x00; x00; x00; x00; x00; x00; x00].

(** Thread 1, execution time 2, [L_schema] 4, error code 0, [L_status]
    0, schema [test], the padding byte and the query text. *)
Definition query_payload : list byte :=
  [x01; x00; x00; x00; x02; x00; x00; x00; x04; x00; x00; x00; x00]
  ++ list_byte_of_string "test" ++ [x00]
  ++ list_byte_of_string "DROP TABLE t".

(** Thirteen bytes that declare five bytes of status variables, which
    the payload does not have. *)
Definition short_query_payload : list byte :=
  [x01; x00; x00; x00; x02; x00; x00; x00; x00; x00; x00; x05; x00].

(** Ten bytes of an event whose type code names no class. *)
Definition unknown_payload : list byte :=
  [x0a; x0b; x0c; x0d; x0e; x0f; x10; x11; x12; x13].

(** A mapping that holds decodable bytes, undecodable bytes, text, an
    integer and a nested mapping, which holds bytes. *)
Definition example_heap : gmap loc (gmap string value) :=
  {[ 1%positive := {[ "name" := VBytes (list_byte_of_string "binlog");
                      "raw" := VBytes [xff; xfe];
                      "text" := VText "kept";
                      "count" := VInt 7;
                      "inner" := VDict 2%positive ]};
     2%positive := {[ "schema" := VBytes (list_byte_of_string "test") ]} ]}.

(** The event a constructor builds from an example packet: its first
    dict is at location 1, and its private dict, if any, at location
    2. *)
Definition example_event (c : class) (type_code size : Z) (f : fields)
  : BinLogEvent :=
  {| cls := c; table_map := VNone; event_type := type_code;
     timestamp := 1700000000; event_size := size; log_pos := 120;
     _ctl_connection := VNone; _processed := true;
     hashes := VDict 1%positive; body := f |}.

(** The state after [n] bytes of the payload have been consumed, with
    heap [h]. *)
Definition example_state (type_code : Z) (payload : list byte) (n : Z)
    (h : gmap loc (gmap string value)) : state :=
  {| packet := Packet.consume n (example_packet type_code payload);
     heap := h |}.

Definition two_dicts : gmap loc (gmap string value) :=
  {[ 1%positive := ∅; 2%positive := ∅ ]}.

Definition decoded_gtid : BinLogEvent :=
  example_event GtidEvent 33 25
    (GtidFields true example_sid 23 (VDict 2%positive)).

Definition decoded_rotate : BinLogEvent :=
  example_event RotateEvent 4 24
    (RotateFields 4 "mysql-bin.000002" (VDict 2%positive)).

Definition decoded_xid : BinLogEvent :=
  example_event XidEvent 16 8 (XidFields VNone 42 (VDict 2%positive)).

Definition decoded_query : BinLogEvent :=
  example_event QueryEvent 2 30
    (QueryFields VNone 1 2 4 0 0 [] (list_byte_of_string "test")
       "DROP TABLE t" (VDict 2%positive)).

(** The dump of [decoded_xid], and the state it leaves. *)
Definition xid_dump : gmap string value :=
  {[ "class" := VText "XidEvent";
     "timestamp" := VInt 1700000000;
     "log_pos" := VInt 120;
     "event_size" := VInt 8;
     "read_bytes" := VInt 27;
     "flags" := VInt 0;
     "xid" := VInt 42 ]}.

Definition xid_dumped : state :=
  example_state 16 xid_payload 8
    {[ 1%positive := xid_dump; 2%positive := {[ "xid" := VInt 42 ]} ]}.

(** The mapping a dump returned, as the state it ended in holds it. *)
Definition dumped {E} (r : result (value * E) * state)
  : option (gmap string value) :=
  match r with
  | (Ok (VDict l, _), s) => heap s !! l
  | _ => None
  end.

(** *** _read_table_id *)

(** [pymysql.util.int2byte]: the byte string of one byte of value [n];
    [struct.error] outside of 0..255. *)
Definition int2byte (n : Z) : result (list byte) :=
  if decide (0 <= n < 256) then
    match Byte.of_N (Z.to_N n) with
    | Some b => Ok [b]
    | None => Err StructError
    end
  else Err StructError.

(** [BinLogEvent._read_table_id]: six bytes of the packet, padded with
    two zero bytes and unpacked as a little-endian unsigned integer. *)
Definition _read_table_id : M Z :=
  b <- read 6 ;;
  z1 <- lift (int2byte 0) ;;
  z2 <- lift (int2byte 0) ;;
  lift (unpack_Q (b ++ z1 ++ z2)).

(** *** The bytes a constructor reads *)

(** The number of payload bytes the constructor of class [c] consumes:
    the fixed widths of the fields it reads, however many bytes
    [event_size] announces, or [event_size] where the reads are sized by
    it. *)
Definition payload_read (c : class) (event_size : Z) : Z :=
  match c with
  | GtidEvent => 25
  | XidEvent => 8
  | FormatDescriptionEvent | StopEvent => 0
  | RotateEvent | QueryEvent | NotImplementedEvent => event_size
  end.

(** *** The dicts of an event *)

(** The dict objects an event created for itself: [hashes], and the
    private dict of a subclass. *)
Definition dicts (self : BinLogEvent) : list value :=
  hashes self :: match private self with Some p => [p] | None => [] end.

(** *** Nesting that does not fit the stack *)

(** Every reference held in a mapping of the heap names an object of the
    heap, as every reference of a Python program does. *)
Definition closed (h : gmap loc (gmap string value)) : Prop :=
  forall l d k l', h !! l = Some d -> d !! k = Some (VDict l') ->
                   is_Some (h !! l').

(** The mapping at [l] holds a chain of more than [n] mappings nested in
    one another: what [nested_within h n l] excludes.  A mapping nested
    in itself is too deep for every [n]. *)
Fixpoint too_deep (h : gmap loc (gmap string value)) (n : nat) (l : loc)
  : Prop :=
  exists d k l', h !! l = Some d /\ d !! k = Some (VDict l') /\
    match n with
    | O => True
    | S n' => too_deep h n' l'
    end.

(** *** GtidEvent.__repr__ *)

(** The double quote, as a string of one character. *)
Definition dquote : string := String "034"%char EmptyString.

(** [GtidEvent.__repr__]: the [gtid] property between ['<GtidEvent "']
    and ['">']. *)
Definition GtidEvent_repr (self : BinLogEvent) : result string :=
  match body self with
  | GtidFields _ sid gno _ =>
    match gtid sid gno with
    | Ok g => Ok ("<GtidEvent " +:+ dquote +:+ g +:+ dquote +:+ ">")
    | Err x => Err x
    end
  | _ => Err AttributeError
  end.

(** *** The packets a constructor accepts *)

(** The bytes a [QueryEvent] decodes as its query text: what follows the
    thirteen bytes of post-header, the status variables, the schema and
    the padding byte, up to the end of the event. *)
Definition query_text_bytes (event_size : Z) (payload : list byte) : list byte :=
  take (Z.to_nat (event_size - 13 - declared_status_vars_length payload
                  - declared_schema_length payload - 1))
    (drop 1
       (drop (Z.to_nat (declared_schema_length payload))
          (drop (Z.to_nat (declared_status_vars_length payload))
             (drop 13 payload)))).

(** What the constructor of class [c] needs in order to return: keywords
    the base class declares, [only_schemas] among them where it is read,
    the bytes it reads, and text that decodes. *)
Definition decodable (c : class) (event_size : Z) (kwargs : gmap string value)
    (payload : list byte) : Prop :=
  dom kwargs ⊆ init_keywords
  /\ match c with
     | GtidEvent => (25 <= length payload)%nat
     | RotateEvent =>
       8 <= event_size <= Z.of_nat (length payload)
       /\ is_Some (default_codec py
                     (take (Z.to_nat (event_size - 8)) (drop 8 payload)))
     | FormatDescriptionEvent | StopEvent => True
     | XidEvent =>
       is_Some (kwargs !! "only_schemas") /\ (8 <= length payload)%nat
     | QueryEvent =>
       is_Some (kwargs !! "only_schemas")
       /\ 13 + declared_status_vars_length payload
          + declared_schema_length payload + 1
          <= event_size <= Z.of_nat (length payload)
       /\ is_Some (utf8_codec py (query_text_bytes event_size payload))
     | NotImplementedEvent => 0 <= event_size <= Z.of_nat (length payload)
     end.

(** *** Further examples *)

(** A mapping that holds itself. *)
Definition self_heap : gmap loc (gmap string value) :=
  {[ 1%positive := {[ "self" := VDict 1%positive ]} ]}.

(** The state in which the construction of a [QueryEvent] from
    [short_query_payload] fails: the post-header consumed, the first
    dict created. *)
Definition short_query_failed : state :=
  example_state 2 short_query_payload 13 {[ 1%positive := ∅ ]}.

(** The state the dump of [decoded_rotate] leaves. *)
Definition rotate_dumped : state :=
  example_state 4 rotate_payload 24
    {[ 1%positive := ∅;
       2%positive := {[ "class" := VText "RotateEvent";
                        "position" := VInt 4;
                        "next_binlog" := VText "mysql-bin.000002";
                        "timestamp" := VInt 1700000000 ]} ]}.

(** The packet of [decoded_xid] after four more bytes have been asked
    of it. *)
Definition xid_packet_later : Packet.t :=
  Packet.consume 4 (Packet.consume 8 (example_packet 16 xid_payload)).

(** A query on a schema whose one byte, [0xff], is no text in any codec
    at hand: thread 1, execution time 2, [L_schema] 1, [L_status] 0, the
    padding byte and the query text. *)
Definition bad_schema_payload : list byte :=
  [x01; x00; x00; x00; x02; x00; x00; x00; x01; x00; x00; x00; x00]
  ++ [xff] ++ [x00] ++ list_byte_of_string "SELECT 1".

Definition decoded_bad_query : BinLogEvent :=
  example_event QueryEvent 2 23
    (QueryFields VNone 1 2 1 0 0 [] [xff] "SELECT 1" (VDict 2%positive)).

(** The six shared items of [decoded_bad_query]. *)
Definition bad_query_envelope : gmap string value :=
  {[ "class" := VText "QueryEvent";
     "timestamp" := VInt 1700000000;
     "log_pos" := VInt 120;
     "event_size" := VInt 23;
     "read_bytes" := VInt 42;
     "flags" := VInt 0 ]}.

(** The six shared items of [decoded_gtid]. *)
Definition gtid_envelope : gmap string value :=
  {[ "class" := VText "GtidEvent";
     "timestamp" := VInt 1700000000;
     "log_pos" := VInt 120;
     "event_size" := VInt 25;
     "read_bytes" := VInt 44;
     "flags" := VInt 0 ]}.

(** ** Properties *)

(** *** Formatting *)

Lemma append_cons (c : ascii) (s1 s2 : string) :
  String c s1 +:+ s2 = String c (s1 +:+ s2).
Proof. reflexivity. Qed.

Lemma append_empty (s : string) : "" +:+ s = s.
Proof. reflexivity. Qed.

Lemma append_assoc (s1 s2 s3 : string) :
  (s1 +:+ s2) +:+ s3 = s1 +:+ (s2 +:+ s3).
Proof.
  induction s1 as [|c s1 IH]; [reflexivity|].
  rewrite !append_cons, IH. reflexivity.
Qed.

Lemma format_02x_ord (b : byte) : format_02x (ord b) = hex_pair b.
Proof. destruct b; reflexivity. Qed.

Lemma hex_pair_lower (b : byte) : all_chars is_lower_hex (hex_pair b) = true.
Proof. destruct b; reflexivity. Qed.

Lemma take_hex_pair (b : byte) (n : nat) (s : string) :
  take_hex (S (S n)) (hex_pair b +:+ s) = take_hex n s.
Proof.
  destruct b; reflexivity.
Qed.

Lemma take_hex_0 (s : string) : take_hex 0 s = Some s.
Proof. reflexivity. Qed.

Lemma expect_cons (c : ascii) (s : string) : expect c (String c s) = Some s.
Proof. unfold expect. rewrite Ascii.eqb_refl. reflexivity. Qed.

Lemma uint_decimal (d : Decimal.uint) :
  all_chars is_decimal (DecimalString.NilEmpty.string_of_uint d) = true.
Proof. induction d; cbn; auto. Qed.

Lemma format_d_decimal (z : Z) :
  0 <= z ->
  exists c rest, format_d z = String c rest
                 /\ is_decimal c = true /\ all_chars is_decimal rest = true.
Proof.
  intros Hz. unfold format_d.
  destruct z as [|p|p]; [| |lia].
  - exists "0"%char, EmptyString. auto.
  - cbn. pose proof (uint_decimal (Pos.to_uint p)) as H.
    unfold DecimalString.NilZero.string_of_uint.
    destruct (Pos.to_uint p) eqn:E;
      try (cbn in *; apply andb_prop in H as [H1 H2]; eauto).
    exists "0"%char, EmptyString. auto.
Qed.

Lemma gtid_of_sid (sid : list byte) (gno : Z) :
  bytes_iter_ints py = false -> length sid = 16%nat ->
  gtid sid gno = Ok (gtid_text sid gno).
Proof.
  intros Hpy Hlen.
  do 17 (destruct sid as [|? sid]; try discriminate).
  unfold gtid, iter_bytes, gtid_format, gtid_text. rewrite Hpy.
  cbn [map map_result py_ord take drop hex_pairs].
  rewrite !format_02x_ord. unfold hex_pair. cbn. reflexivity.
Qed.

Lemma gtid_on_ints (sid : list byte) (gno : Z) :
  bytes_iter_ints py = true -> gtid sid gno = Err TypeError.
Proof.
  intros Hpy. unfold gtid, iter_bytes. rewrite Hpy.
  destruct sid; reflexivity.
Qed.

Lemma map_result_ord_err (vs : list value) (x : exn) :
  map_result (fun c => match py_ord c with
                       | Ok n => Ok (format_02x n)
                       | Err e => Err e
                       end) vs = Err x ->
  x = TypeError.
Proof.
  induction vs as [|v vs IH]; cbn [map_result]; [discriminate|].
  destruct (py_ord v) as [n|e] eqn:E.
  - destruct (map_result _ vs); [discriminate|]. intros [= <-]. by apply IH.
  - intros [= <-]. unfold py_ord in E.
    repeat case_match; simplify_eq; reflexivity.
Qed.

Lemma gtid_err (sid : list byte) (gno : Z) (x : exn) :
  gtid sid gno = Err x -> x = TypeError.
Proof.
  unfold gtid. destruct (map_result _ (iter_bytes sid)) as [args|e] eqn:E.
  - unfold gtid_format. repeat case_match; intros; simplify_eq; reflexivity.
  - intros [= <-]. by apply map_result_ord_err in E.
Qed.

Lemma gtid_text_matches (sid : list byte) (gno : Z) :
  length sid = 16%nat -> 0 <= gno ->
  matches_gtid_pattern (gtid_text sid gno) = true.
Proof.
  intros Hlen Hg.
  do 17 (destruct sid as [|? sid]; try discriminate).
  unfold matches_gtid_pattern, gtid_text.
  destruct (format_d_decimal gno Hg) as (c & rest & -> & Hc & Hrest).
  cbn [take drop hex_pairs].
  cbn [strip].
  rewrite !append_assoc, !append_empty.
  repeat (rewrite ?take_hex_pair, ?take_hex_0, ?append_cons, ?append_empty,
            ?expect_cons; cbv beta iota).
  rewrite Hc, Hrest. reflexivity.
Qed.

(** *** The monad and the primitive operations *)

Lemma bind_ok {A B} (m : M A) (f : A -> M B) (s s' : state) (a : A) :
  m s = (Ok a, s') -> bind m f s = f a s'.
Proof. intros H. unfold bind. rewrite H. reflexivity. Qed.

Lemma bind_err {A B} (m : M A) (f : A -> M B) (s s' : state) (e : exn) :
  m s = (Err e, s') -> bind m f s = (Err e, s').
Proof. intros H. unfold bind. rewrite H. reflexivity. Qed.

Lemma bind_inv {A B} (m : M A) (f : A -> M B) (s s' : state) (b : B) :
  bind m f s = (Ok b, s') ->
  exists a s1, m s = (Ok a, s1) /\ f a s1 = (Ok b, s').
Proof.
  unfold bind. destruct (m s) as [[a|e] s1]; [eauto | discriminate].
Qed.

Lemma bind_ret {A B} (a : A) (f : A -> M B) (s : state) :
  bind (ret a) f s = f a s.
Proof. reflexivity. Qed.

Lemma lift_ok {A} (r : result A) (s : state) : lift r s = (r, s).
Proof. reflexivity. Qed.

Lemma read_ok (n : Z) (s : state) :
  0 <= n <= Z.of_nat (length (Packet.data (packet s))) ->
  read n s = (Ok (take (Z.to_nat n) (Packet.data (packet s))),
              set_packet (Packet.consume n (packet s)) s).
Proof. intros H. unfold read. rewrite decide_True by done. reflexivity. Qed.

Lemma read_err (n : Z) (s : state) :
  ~ (0 <= n <= Z.of_nat (length (Packet.data (packet s)))) ->
  read n s = (Err PacketError, s).
Proof. intros H. unfold read. rewrite decide_False by done. reflexivity. Qed.

Lemma read_inv (n : Z) (s s' : state) (bs : list byte) :
  read n s = (Ok bs, s') ->
  0 <= n <= Z.of_nat (length (Packet.data (packet s)))
  /\ bs = take (Z.to_nat n) (Packet.data (packet s))
  /\ s' = set_packet (Packet.consume n (packet s)) s.
Proof.
  unfold read. case_decide; [|discriminate]. intros [= <- <-]. auto.
Qed.

Lemma advance_ok (n : Z) (s : state) :
  0 <= n <= Z.of_nat (length (Packet.data (packet s))) ->
  advance n s = (Ok tt, set_packet (Packet.consume n (packet s)) s).
Proof. intros H. unfold advance. rewrite decide_True by done. reflexivity. Qed.

Lemma advance_inv (n : Z) (s s' : state) (u : unit) :
  advance n s = (Ok u, s') ->
  0 <= n <= Z.of_nat (length (Packet.data (packet s)))
  /\ s' = set_packet (Packet.consume n (packet s)) s.
Proof.
  unfold advance. case_decide; [|discriminate]. intros [= <-]. auto.
Qed.

Lemma length_read (n : Z) (bs : list byte) :
  0 <= n <= Z.of_nat (length bs) ->
  Z.of_nat (length (take (Z.to_nat n) bs)) = n.
Proof. intros H. rewrite length_take. lia. Qed.

Lemma le_int_bound (bs : list byte) :
  0 <= le_int bs < 256 ^ Z.of_nat (length bs).
Proof.
  induction bs as [|b bs IH]; [cbn; lia|].
  cbn [le_int length]. rewrite Nat2Z.inj_succ, Z.pow_succ_r by lia.
  assert (0 <= Z.of_N (ord b) < 256) by (destruct b; cbn; lia).
  lia.
Qed.

Lemma le_int_4 (bs : list byte) :
  4 <= Z.of_nat (length bs) ->
  0 <= le_int (take (Z.to_nat 4) bs) < 2 ^ 32.
Proof.
  intros H. pose proof (le_int_bound (take (Z.to_nat 4) bs)) as Hb.
  rewrite length_take, Nat.min_l in Hb by lia.
  change (256 ^ Z.of_nat (Z.to_nat 4)) with (2 ^ 32) in Hb. lia.
Qed.

Lemma unpack_Q_ok (bs : list byte) :
  length bs = 8%nat -> unpack_Q bs = Ok (le_int bs).
Proof. intros H. unfold unpack_Q. rewrite decide_True by done. reflexivity. Qed.

Lemma unpack_Q_inv (bs : list byte) (z : Z) :
  unpack_Q bs = Ok z ->
  length bs = 8%nat /\ z = le_int bs /\ 0 <= z < 2 ^ 64.
Proof.
  unfold unpack_Q. case_decide as H; [|discriminate]. intros [= <-].
  pose proof (le_int_bound bs) as Hb. rewrite H in Hb.
  change (256 ^ Z.of_nat 8) with (2 ^ 64) in Hb. auto.
Qed.

Lemma new_dict_ok (s : state) :
  new_dict s = (Ok (VDict (fresh (dom (heap s)))),
                set_heap (<[fresh (dom (heap s)) := ∅]> (heap s)) s).
Proof. reflexivity. Qed.

Lemma fresh_heap (h : gmap loc (gmap string value)) : h !! fresh (dom h) = None.
Proof. apply not_elem_of_dom, is_fresh. Qed.

Lemma deref_ok (l : loc) (d : gmap string value) (s : state) :
  heap s !! l = Some d -> deref (VDict l) s = (Ok d, s).
Proof. intros H. unfold deref. rewrite H. reflexivity. Qed.

Lemma setitem_ok (l : loc) (d : gmap string value) (k : string) (v : value)
    (s : state) :
  heap s !! l = Some d ->
  setitem (VDict l) k v s = (Ok tt, set_heap (<[l := <[k := v]> d]> (heap s)) s).
Proof.
  intros H. unfold setitem. rewrite (bind_ok _ _ _ _ _ (deref_ok _ _ _ H)).
  reflexivity.
Qed.

Lemma getitem_ok (l : loc) (d : gmap string value) (k : string) (v : value)
    (s : state) :
  heap s !! l = Some d -> d !! k = Some v ->
  getitem (VDict l) k s = (Ok v, s).
Proof.
  intros H Hk. unfold getitem. rewrite (bind_ok _ _ _ _ _ (deref_ok _ _ _ H)).
  rewrite Hk. reflexivity.
Qed.

Lemma keys_ok (l : loc) (d : gmap string value) (s : state) :
  heap s !! l = Some d -> keys (VDict l) s = (Ok ((map_to_list d).*1), s).
Proof.
  intros H. unfold keys. rewrite (bind_ok _ _ _ _ _ (deref_ok _ _ _ H)).
  reflexivity.
Qed.

Lemma update_ok (l l' : loc) (d d' : gmap string value) (s : state) :
  heap s !! l = Some d -> heap s !! l' = Some d' ->
  update (VDict l) (VDict l') s
  = (Ok tt, set_heap (<[l := d' ∪ d]> (heap s)) s).
Proof.
  intros H H'. unfold update.
  rewrite (bind_ok _ _ _ _ _ (deref_ok _ _ _ H')).
  rewrite (bind_ok _ _ _ _ _ (deref_ok _ _ _ H)). reflexivity.
Qed.

Lemma truthy_dict (l : loc) (d : gmap string value) (s : state) :
  heap s !! l = Some d ->
  truthy (VDict l) s = (Ok (negb (Nat.eqb (size d) 0)), s).
Proof.
  intros H. unfold truthy. rewrite (bind_ok _ _ _ _ _ (deref_ok _ _ _ H)).
  reflexivity.
Qed.

(** A hypothesis [bind m f s = (Ok b, s')] is split into the run of [m]
    and the run of the rest. *)
Ltac inv_bind H :=
  let a := fresh "a" in
  let s1 := fresh "s" in
  let E := fresh "E" in
  apply bind_inv in H as (a & s1 & E & H).

(** *** Construction *)

Lemma BinLogEvent_init_ok (c : class) (size : Z) (tm ctl : value)
    (kw : gmap string value) (s : state) :
  dom kw ⊆ init_keywords ->
  BinLogEvent_init c size tm ctl kw s
  = (Ok {| cls := c; table_map := tm;
           event_type := Packet.event_type (packet s);
           timestamp := Packet.timestamp (packet s);
           event_size := size;
           log_pos := Packet.log_pos (packet s);
           _ctl_connection := ctl; _processed := true;
           hashes := VDict (fresh (dom (heap s)));
           body := NoFields |},
     set_heap (<[fresh (dom (heap s)) := ∅]> (heap s)) s).
Proof.
  intros H. unfold BinLogEvent_init. rewrite decide_True by done. reflexivity.
Qed.

Lemma BinLogEvent_init_err (c : class) (size : Z) (tm ctl : value)
    (kw : gmap string value) (s : state) :
  ~ dom kw ⊆ init_keywords ->
  BinLogEvent_init c size tm ctl kw s = (Err TypeError, s).
Proof.
  intros H. unfold BinLogEvent_init. rewrite decide_False by done. reflexivity.
Qed.

Lemma BinLogEvent_init_inv (c : class) (size : Z) (tm ctl : value)
    (kw : gmap string value) (s s' : state) (e : BinLogEvent) :
  BinLogEvent_init c size tm ctl kw s = (Ok e, s') ->
  dom kw ⊆ init_keywords
  /\ e = {| cls := c; table_map := tm;
            event_type := Packet.event_type (packet s);
            timestamp := Packet.timestamp (packet s);
            event_size := size;
            log_pos := Packet.log_pos (packet s);
            _ctl_connection := ctl; _processed := true;
            hashes := VDict (fresh (dom (heap s)));
            body := NoFields |}
  /\ s' = set_heap (<[fresh (dom (heap s)) := ∅]> (heap s)) s.
Proof.
  destruct (decide (dom kw ⊆ init_keywords)) as [H|H].
  - rewrite BinLogEvent_init_ok by done. intros [= <- <-]. auto.
  - rewrite BinLogEvent_init_err by done. discriminate.
Qed.

(** *** iter_bytes_to_string *)

Lemma iter_bytes_to_string_at_unfold (n : nat) (hash : value) :
  iter_bytes_to_string_at n hash
  = if is_dict hash then
      ks <- keys hash ;;
      for_each ks (item_step (nested_call n) hash) ;;;
      ret hash
    else ret hash.
Proof. destruct n; reflexivity. Qed.

Lemma conv_dict (l : loc) : conv (VDict l) = VDict l.
Proof. reflexivity. Qed.

Lemma conv_dict_inv (v : value) (l : loc) : conv v = VDict l -> v = VDict l.
Proof.
  unfold conv. destruct (bytes_decode v); [discriminate | auto].
Qed.

Lemma conv_idem (v : value) : conv (conv v) = conv v.
Proof.
  destruct v; try reflexivity.
  unfold conv, bytes_decode, decode_with.
  destruct (default_codec py bs) eqn:E; cbn; [reflexivity|].
  rewrite E. reflexivity.
Qed.

Lemma conv_not_bytes (v : value) :
  (forall bs, v <> VBytes bs) -> conv v = v.
Proof. destruct v; intros H; try reflexivity. destruct (H bs eq_refl). Qed.

Lemma dict_evolves_refl (d : gmap string value) : dict_evolves d d.
Proof. intros k. auto. Qed.

Lemma dict_evolves_trans (d1 d2 d3 : gmap string value) :
  dict_evolves d1 d2 -> dict_evolves d2 d3 -> dict_evolves d1 d3.
Proof.
  intros H12 H23 k. destruct (H12 k) as [E|E], (H23 k) as [E'|E'];
    rewrite E', E; auto.
  right. destruct (d1 !! k); cbn; [|reflexivity]. rewrite conv_idem. reflexivity.
Qed.

Lemma dict_evolves_edge (d d' : gmap string value) (k : string) (x : loc) :
  dict_evolves d d' -> d' !! k = Some (VDict x) <-> d !! k = Some (VDict x).
Proof.
  intros H. destruct (H k) as [E|E]; rewrite E; [tauto|].
  destruct (d !! k) as [v|]; cbn; [|tauto]. split.
  - intros [= Hv]. apply conv_dict_inv in Hv. congruence.
  - intros [= ->]. reflexivity.
Qed.

Lemma dict_evolves_is_Some (d d' : gmap string value) (k : string) :
  dict_evolves d d' -> is_Some (d !! k) -> is_Some (d' !! k).
Proof.
  intros H [v Hv]. destruct (H k) as [E|E]; rewrite E, Hv; cbn; eauto.
Qed.

Lemma evolves_refl (h : gmap loc (gmap string value)) : evolves h h.
Proof. intros l. destruct (h !! l); auto using dict_evolves_refl. Qed.

Lemma evolves_trans (h1 h2 h3 : gmap loc (gmap string value)) :
  evolves h1 h2 -> evolves h2 h3 -> evolves h1 h3.
Proof.
  intros H12 H23 l. specialize (H12 l). specialize (H23 l).
  destruct (h1 !! l), (h2 !! l), (h3 !! l); try tauto.
  eauto using dict_evolves_trans.
Qed.

Lemma evolves_lookup (h h' : gmap loc (gmap string value)) (l : loc)
    (d : gmap string value) :
  evolves h h' -> h !! l = Some d ->
  exists d', h' !! l = Some d' /\ dict_evolves d d'.
Proof.
  intros H Hl. specialize (H l). rewrite Hl in H.
  destruct (h' !! l); [eauto | tauto].
Qed.

Lemma evolves_lookup_rev (h h' : gmap loc (gmap string value)) (l : loc)
    (d' : gmap string value) :
  evolves h h' -> h' !! l = Some d' ->
  exists d, h !! l = Some d /\ dict_evolves d d'.
Proof.
  intros H Hl. specialize (H l). rewrite Hl in H.
  destruct (h !! l); [eauto | tauto].
Qed.

Lemma evolves_insert (h : gmap loc (gmap string value)) (l : loc)
    (d d' : gmap string value) :
  h !! l = Some d -> dict_evolves d d' -> evolves h (<[l := d']> h).
Proof.
  intros Hl Hd x. destruct (decide (l = x)) as [->|Hne].
  - rewrite lookup_insert_eq, Hl. done.
  - rewrite lookup_insert_ne by done. destruct (h !! x); auto using dict_evolves_refl.
Qed.

Lemma nested_within_evolves (h h' : gmap loc (gmap string value)) (n : nat)
    (l : loc) :
  evolves h h' -> nested_within h n l -> nested_within h' n l.
Proof.
  intros He. revert l. induction n as [|n IH]; intros l (d & Hl & Hd);
    destruct (evolves_lookup _ _ _ _ He Hl) as (d' & Hl' & Hdd');
    exists d'; (split; [done|]); intros k x Hk;
    apply (dict_evolves_edge _ _ _ _ Hdd') in Hk; cbn in *; eauto.
Qed.

Lemma dict_evolves_fixed (d d' : gmap string value) :
  (forall k v, d !! k = Some v -> conv v = v) ->
  dict_evolves d d' -> forall k, d' !! k = d !! k.
Proof.
  intros Hfix H k. destruct (H k) as [E|E]; rewrite E; [done|].
  destruct (d !! k) as [v|] eqn:Ek; cbn; [|done]. f_equal. eauto.
Qed.

Lemma settled_fixed (h : gmap loc (gmap string value)) (n : nat) (l : loc)
    (d : gmap string value) :
  settled h n l -> h !! l = Some d ->
  forall k v, d !! k = Some v -> conv v = v.
Proof.
  intros Hs Hl k v Hk.
  assert (exists d0, h !! l = Some d0 /\
            forall k v, d0 !! k = Some v ->
              match v with VDict _ => True | _ => conv v = v end)
    as (d0 & Hl0 & Hd0).
  { destruct n; destruct Hs as (d0 & Hl0 & Hd0); exists d0; (split; [done|]);
      intros k0 v0 Hk0; specialize (Hd0 k0 v0 Hk0); destruct v0; auto. }
  assert (d0 = d) as -> by congruence.
  specialize (Hd0 k v Hk). destruct v; auto.
Qed.

Lemma settled_evolves (h h' : gmap loc (gmap string value)) (n : nat)
    (l : loc) :
  evolves h h' -> settled h n l -> settled h' n l.
Proof.
  intros He. revert l. induction n as [|n IH]; intros l Hs.
  all: pose proof Hs as (d & Hl & Hd).
  all: destruct (evolves_lookup _ _ _ _ He Hl) as (d' & Hl' & Hdd').
  all: pose proof (dict_evolves_fixed _ _ (settled_fixed _ _ _ _ Hs Hl) Hdd') as Heq.
  all: exists d'; (split; [done|]); intros k v Hk; rewrite Heq in Hk.
  all: specialize (Hd k v Hk); destruct v; auto.
Qed.

Lemma value_settled_evolves (h h' : gmap loc (gmap string value)) (n : nat)
    (v : value) :
  evolves h h' -> value_settled h n v -> value_settled h' n v.
Proof.
  intros He. destruct v; cbn; auto. destruct n; [auto|].
  apply settled_evolves. done.
Qed.

Lemma cell_settled_evolves (h h' : gmap loc (gmap string value)) (n : nat)
    (l : loc) (k : string) :
  evolves h h' -> cell_settled h n l k -> cell_settled h' n l k.
Proof.
  intros He (d & v & Hl & Hk & Hv).
  destruct (evolves_lookup _ _ _ _ He Hl) as (d' & Hl' & Hdd').
  exists d', v. split; [done|]. split; [|eauto using value_settled_evolves].
  destruct (Hdd' k) as [E|E]; rewrite E, Hk; [done|]. cbn.
  destruct v; cbn in Hv |- *; congruence.
Qed.

Lemma reachable_trans (h : gmap loc (gmap string value)) (a b c : loc) :
  reachable h a b -> reachable h b c -> reachable h a c.
Proof. induction 1; eauto using reachable. Qed.

Lemma reachable_evolves (h h' : gmap loc (gmap string value)) (a b : loc) :
  evolves h h' -> reachable h a b <-> reachable h' a b.
Proof.
  intros He. split.
  - induction 1 as [|l l1 l2 d k Hl Hk _ IH]; [constructor|].
    destruct (evolves_lookup _ _ _ _ He Hl) as (d' & Hl' & Hdd').
    apply (dict_evolves_edge _ _ k l1 Hdd') in Hk. eauto using reachable.
  - induction 1 as [|l l1 l2 d' k Hl Hk _ IH]; [constructor|].
    destruct (evolves_lookup_rev _ _ _ _ He Hl) as (d & Hl' & Hdd').
    apply (dict_evolves_edge _ _ k l1 Hdd') in Hk. eauto using reachable.
Qed.

Lemma gentle_refl (l : loc) (s : state) : gentle l s s.
Proof. split; [done|]. split; [apply evolves_refl | done]. Qed.

Lemma gentle_trans (l : loc) (s1 s2 s3 : state) :
  gentle l s1 s2 -> gentle l s2 s3 -> gentle l s1 s3.
Proof.
  intros (Hp1 & He1 & Hf1) (Hp2 & He2 & Hf2).
  split; [congruence|]. split; [eauto using evolves_trans|].
  intros x Hx. rewrite Hf2, Hf1; [done..|].
  rewrite <- (reachable_evolves _ _ _ _ He1). done.
Qed.

Lemma gentle_nested (l l' : loc) (d : gmap string value) (k : string)
    (s s' : state) :
  heap s !! l = Some d -> d !! k = Some (VDict l') ->
  gentle l' s s' -> gentle l s s'.
Proof.
  intros Hl Hk (Hp & He & Hf). split; [done|]. split; [done|].
  intros x Hx. apply Hf. intros Hr. apply Hx. eauto using reachable.
Qed.

Lemma keys_elem (d : gmap string value) (k : string) :
  k ∈ (map_to_list d).*1 <-> is_Some (d !! k).
Proof.
  rewrite list_elem_of_fmap. split.
  - intros ([k' v] & -> & H). apply elem_of_map_to_list in H. eauto.
  - intros [v H]. exists (k, v). split; [done|]. by apply elem_of_map_to_list.
Qed.

Section Items.

Variables (n : nat) (call : value -> M unit) (l : loc).

Hypothesis call_ok :
  forall (l' : loc) (s : state),
    match n with O => False | S n' => nested_within (heap s) n' l' end ->
    exists s', call (VDict l') s = (Ok tt, s')
               /\ gentle l' s s'
               /\ value_settled (heap s') n (VDict l').

Lemma item_step_ok (s : state) (d : gmap string value) (k : string) (v : value) :
  nested_within (heap s) n l -> heap s !! l = Some d -> d !! k = Some v ->
  exists s', item_step call (VDict l) k s = (Ok tt, s')
             /\ gentle l s s'
             /\ cell_settled (heap s') n l k.
Proof.
  intros Hn Hl Hk. unfold item_step.
  rewrite (bind_ok _ _ _ _ _ (getitem_ok _ _ _ _ _ Hl Hk)).
  destruct (is_dict v) eqn:Hv; cbn [negb].
  - destruct v; try discriminate. rename l0 into l'.
    rewrite (bind_ok _ _ _ _ _ (getitem_ok _ _ _ _ _ Hl Hk)).
    assert (match n with O => False | S n' => nested_within (heap s) n' l' end)
      as Hl'.
    { destruct n; destruct Hn as (d0 & Hl0 & Hd0);
        assert (d0 = d) as -> by congruence; exact (Hd0 k l' Hk). }
    destruct (call_ok l' s Hl') as (s' & Hc & Hg & Hs).
    exists s'. split; [done|]. split; [eauto using gentle_nested|].
    destruct Hg as (_ & He & _).
    destruct (evolves_lookup _ _ _ _ He Hl) as (d' & Hd' & Hdd').
    exists d', (VDict l'). split; [done|]. split; [|done].
    by apply (dict_evolves_edge _ _ _ _ Hdd').
  - unfold try_except.
    rewrite (bind_ok _ _ _ _ _ (getitem_ok _ _ _ _ _ Hl Hk)).
    destruct (bytes_decode v) as [t|e] eqn:E.
    + rewrite (bind_ok _ _ _ _ _ (lift_ok _ _)).
      rewrite (setitem_ok _ _ _ _ _ Hl).
      eexists. split; [reflexivity|]. split.
      * split; [done|]. cbn [heap set_heap]. split.
        -- apply (evolves_insert _ _ d); [done|]. intros k'.
           destruct (decide (k = k')) as [<-|Hne].
           ++ right. rewrite lookup_insert_eq, Hk. cbn. unfold conv.
              rewrite E. done.
           ++ left. by rewrite lookup_insert_ne.
        -- intros x Hx. rewrite lookup_insert_ne; [done|].
           intros <-. apply Hx. constructor.
      * cbn [heap set_heap]. exists (<[k := VText t]> d), (VText t).
        rewrite !lookup_insert_eq. done.
    + rewrite (bind_err _ _ _ _ _ (lift_ok _ _)).
      exists s. split; [done|]. split; [apply gentle_refl|].
      exists d, v. split; [done|]. split; [done|].
      assert (conv v = v) as Hc by (unfold conv; rewrite E; done).
      destruct v; try done.
Qed.

Lemma for_each_item_step (ks : list string) (s : state) :
  nested_within (heap s) n l ->
  (forall k, k ∈ ks -> exists d, heap s !! l = Some d /\ is_Some (d !! k)) ->
  exists s', for_each ks (item_step call (VDict l)) s = (Ok tt, s')
             /\ gentle l s s'
             /\ forall k, k ∈ ks -> cell_settled (heap s') n l k.
Proof.
  revert s. induction ks as [|k ks IH]; intros s Hn Hks.
  - exists s. split; [done|]. split; [apply gentle_refl|].
    intros k Hk. by apply elem_of_nil in Hk.
  - destruct (Hks k) as (d & Hl & [v Hk]); [left|].
    destruct (item_step_ok s d k v Hn Hl Hk) as (s1 & Hrun1 & Hg1 & Hs1).
    pose proof Hg1 as (_ & He1 & _).
    destruct (IH s1) as (s2 & Hrun2 & Hg2 & Hs2).
    { eauto using nested_within_evolves. }
    { intros k' Hk'. destruct (Hks k') as (d0 & Hl0 & Hk0); [by right|].
      destruct (evolves_lookup _ _ _ _ He1 Hl0) as (d1 & Hl1 & Hdd1).
      eauto using dict_evolves_is_Some. }
    exists s2. cbn [for_each]. rewrite (bind_ok _ _ _ _ _ Hrun1).
    split; [done|]. split; [eauto using gentle_trans|].
    intros k' Hk'. apply elem_of_cons in Hk' as [->|Hk']; [|eauto].
    destruct Hg2 as (_ & He2 & _). eauto using cell_settled_evolves.
Qed.

End Items.

Lemma iter_bytes_to_string_at_ok (n : nat) (l : loc) (s : state) :
  nested_within (heap s) n l ->
  exists s', iter_bytes_to_string_at n (VDict l) s = (Ok (VDict l), s')
             /\ gentle l s s'
             /\ settled (heap s') n l.
Proof.
  revert l s. induction n as [|n IH]; intros l s Hn.
  all: rewrite iter_bytes_to_string_at_unfold; cbn [is_dict].
  all: pose proof Hn as (d & Hl & Hd).
  all: rewrite (bind_ok _ _ _ _ _ (keys_ok _ _ _ Hl)).
  all: match goal with
       | |- context [nested_call ?m] =>
         edestruct (for_each_item_step m (nested_call m) l) with (s := s)
           as (s' & Hrun & Hg & Hs); [| exact Hn | |]
       end.
  all: try (intros l' s0 H0; cbn in H0; try tauto;
            destruct (IH l' s0 H0) as (s1 & Hrun1 & Hg1 & Hs1);
            exists s1; cbn [nested_call];
            rewrite (bind_ok _ _ _ _ _ Hrun1); done).
  all: try (intros k Hk; apply keys_elem in Hk; eauto).
  all: exists s'; rewrite (bind_ok _ _ _ _ _ Hrun).
  all: split; [done|]; split; [done|].
  all: pose proof Hg as (_ & He & _).
  all: destruct (evolves_lookup _ _ _ _ He Hl) as (d' & Hl' & Hdd').
  all: exists d'; (split; [done|]); intros k v Hk.
  all: assert (k ∈ (map_to_list d).*1) as Hin
      by (apply keys_elem; destruct (Hdd' k) as [E|E]; rewrite Hk in E;
          destruct (d !! k); done).
  all: destruct (Hs k Hin) as (d0 & v0 & Hl0 & Hk0 & Hv0).
  all: assert (d0 = d') as -> by congruence.
  all: assert (v0 = v) as -> by congruence.
  all: exact Hv0.
Qed.

Lemma settled_reachable (h : gmap loc (gmap string value)) (n : nat)
    (l x : loc) :
  settled h n l -> reachable h l x -> exists m, settled h m x.
Proof.
  intros Hs Hr. revert n Hs.
  induction Hr as [l|l l1 l2 d k Hl Hk _ IH]; intros n Hs; [eauto|].
  destruct n; destruct Hs as (d0 & Hl0 & Hd0);
    assert (d0 = d) as -> by congruence; specialize (Hd0 k _ Hk);
    cbn in Hd0; [tauto | eauto].
Qed.

(** After the call, every mapping reachable from [l] holds the converted
    values of what it held, and every other object is as it was. *)
Lemma iter_bytes_to_string_at_exact (n : nat) (l : loc) (s : state) :
  nested_within (heap s) n l ->
  exists s', iter_bytes_to_string_at n (VDict l) s = (Ok (VDict l), s')
    /\ packet s' = packet s
    /\ (forall x d, reachable (heap s) l x -> heap s !! x = Some d ->
          heap s' !! x = Some (conv <$> d))
    /\ (forall x, ~ reachable (heap s) l x -> heap s' !! x = heap s !! x).
Proof.
  intros Hn.
  destruct (iter_bytes_to_string_at_ok n l s Hn) as (s' & Hrun & Hg & Hs).
  destruct Hg as (Hp & He & Hf).
  exists s'. split; [done|]. split; [done|]. split; [|done].
  intros x d Hr Hx.
  destruct (evolves_lookup _ _ _ _ He Hx) as (d' & Hx' & Hdd').
  rewrite Hx'. f_equal. apply map_eq. intros k. rewrite lookup_fmap.
  apply (reachable_evolves _ _ _ _ He) in Hr.
  destruct (settled_reachable _ _ _ _ Hs Hr) as (m & Hm).
  pose proof (settled_fixed _ _ _ _ Hm Hx') as Hfix.
  destruct (Hdd' k) as [E|E]; [|done].
  rewrite E. destruct (d !! k) as [v|] eqn:Ek; [|done]. cbn. f_equal.
  symmetry. apply (Hfix k). congruence.
Qed.

(** C10 (as amended).  [iter_bytes_to_string] does not raise on a value
    that is not a mapping, nor on a mapping whose nesting fits the
    interpreter's stack (which a mapping nested in itself does not; on
    deeper nesting the call raises [RecursionError]): the call returns
    the very value it was given, a reference to the same object.  The
    mapping and every mapping nested in it are changed in place: each
    holds, under the same keys, [conv] of what it held, that is the
    decoded text where [bytes.decode] returns and the unchanged value
    where [bytes.decode] raises.  The packet and every other object stay
    as they were. *)
Theorem iter_bytes_to_string_never_raises (hash : value) (s : state) :
  (forall l, hash = VDict l ->
             nested_within (heap s) (recursion_limit py) l) ->
  exists s', iter_bytes_to_string hash s = (Ok hash, s')
    /\ packet s' = packet s
    /\ (forall l x d, hash = VDict l -> reachable (heap s) l x ->
          heap s !! x = Some d -> heap s' !! x = Some (conv <$> d))
    /\ (forall x, (forall l, hash = VDict l -> ~ reachable (heap s) l x) ->
          heap s' !! x = heap s !! x).
Proof.
  intros Hn. unfold iter_bytes_to_string.
  destruct (is_dict hash) eqn:Hd.
  - destruct hash as [| | | | |l]; try discriminate.
    destruct (iter_bytes_to_string_at_exact _ l s (Hn l eq_refl))
      as (s' & Hrun & Hp & Hr & Hf).
    exists s'. split; [done|]. split; [done|]. split.
    + intros l0 x d [= <-]. apply Hr.
    + intros x Hx. apply Hf. by apply Hx.
  - exists s. rewrite iter_bytes_to_string_at_unfold, Hd.
    split; [done|]. split; [done|]. split; [|done].
    intros l x d ->. discriminate.
Qed.

Lemma state_eq (s s' : state) :
  packet s' = packet s -> heap s' = heap s -> s' = s.
Proof. destruct s, s'; cbn; congruence. Qed.

Lemma flat_reachable (h : gmap loc (gmap string value)) (l x : loc)
    (d : gmap string value) :
  h !! l = Some d -> flat d -> reachable h l x -> x = l.
Proof.
  intros Hl Hd Hr. destruct Hr as [|l l1 l2 d0 k Hl0 Hk _]; [done|].
  assert (d0 = d) as -> by congruence. by apply Hd in Hk.
Qed.

Lemma iter_bytes_to_string_flat (l : loc) (d : gmap string value) (s : state) :
  heap s !! l = Some d -> flat d ->
  iter_bytes_to_string (VDict l) s
  = (Ok (VDict l), set_heap (<[l := conv <$> d]> (heap s)) s).
Proof.
  intros Hl Hd. unfold iter_bytes_to_string.
  destruct (iter_bytes_to_string_at_exact (recursion_limit py) l s)
    as (s' & Hrun & Hp & Hr & Hf).
  { destruct (recursion_limit py); exists d; (split; [done|]);
      intros k l' Hk; by apply Hd in Hk. }
  rewrite Hrun. f_equal. apply state_eq; [done|]. cbn [heap set_heap].
  apply map_eq. intros x. destruct (decide (l = x)) as [<-|Hne].
  - rewrite lookup_insert_eq. apply Hr; [constructor | done].
  - rewrite lookup_insert_ne by done. apply Hf. intros Hx.
    apply (flat_reachable _ _ _ _ Hl Hd) in Hx. done.
Qed.

(** *** What construction yields *)

Lemma lift_inv {A} (r : result A) (s s' : state) (a : A) :
  lift r s = (Ok a, s') -> r = Ok a /\ s' = s.
Proof. unfold lift. intros [= -> ->]. auto. Qed.

Lemma ret_inv {A} (a b : A) (s s' : state) :
  ret a s = (Ok b, s') -> b = a /\ s' = s.
Proof. unfold ret. intros [= -> ->]. auto. Qed.

Lemma kwarg_inv (kw : gmap string value) (k : string) (v : value)
    (s s' : state) :
  kwarg kw k s = (Ok v, s') -> kw !! k = Some v /\ s' = s.
Proof.
  unfold kwarg. destruct (kw !! k); [|discriminate]. intros [= -> ->]. auto.
Qed.

Lemma new_dict_inv (s s' : state) (v : value) :
  new_dict s = (Ok v, s') ->
  v = VDict (fresh (dom (heap s)))
  /\ s' = set_heap (<[fresh (dom (heap s)) := ∅]> (heap s)) s.
Proof. rewrite new_dict_ok. intros [= <- <-]. auto. Qed.

Lemma byte2int_inv (bs : list byte) (z : Z) :
  byte2int bs = Ok z -> length bs = 1%nat /\ z = le_int bs /\ 0 <= z < 256.
Proof.
  destruct bs as [|b [|? ?]]; try discriminate. intros [= <-].
  cbn. destruct b; cbn; lia.
Qed.

Lemma same_header_refl (p : Packet.t) : same_header p p.
Proof. done. Qed.

Lemma same_header_consume (n : Z) (p p' : Packet.t) :
  same_header p p' -> same_header p (Packet.consume n p').
Proof. done. Qed.

(** The chain of binds of a constructor that returned is taken apart
    into the runs of its statements. *)
Ltac inv_run :=
  repeat match goal with
  | H : bind _ _ _ = (Ok _, _) |- _ => inv_bind H
  | H : read_uint32 _ = (Ok _, _) |- _ => unfold read_uint32 in H
  | H : read_uint16 _ = (Ok _, _) |- _ => unfold read_uint16 in H
  | H : read _ _ = (Ok _, _) |- _ =>
    apply read_inv in H as (? & ? & ?)
  | H : advance _ _ = (Ok _, _) |- _ =>
    apply advance_inv in H as (? & ?)
  | H : lift _ _ = (Ok _, _) |- _ => apply lift_inv in H as (? & ?)
  | H : ret _ _ = (Ok _, _) |- _ => apply ret_inv in H as (? & ?)
  | H : kwarg _ _ _ = (Ok _, _) |- _ => apply kwarg_inv in H as (? & ?)
  | H : new_dict _ = (Ok _, _) |- _ => apply new_dict_inv in H as (? & ?)
  | H : BinLogEvent_init _ _ _ _ _ _ = (Ok _, _) |- _ =>
    apply BinLogEvent_init_inv in H as (? & ? & ?)
  | H : unpack_Q _ = Ok _ |- _ => apply unpack_Q_inv in H as (? & ? & ?)
  | H : byte2int _ = Ok _ |- _ => apply byte2int_inv in H as (? & ? & ?)
  end.

Lemma fresh_insert_ne (h : gmap loc (gmap string value)) (l : loc)
    (d : gmap string value) :
  fresh (dom (<[l := d]> h)) <> l.
Proof.
  intros E. pose proof (fresh_heap (<[l := d]> h)) as H.
  rewrite E, lookup_insert_eq in H. discriminate.
Qed.

Lemma fresh_two (h : gmap loc (gmap string value)) :
  let lh := fresh (dom h) in
  let h1 := <[lh := ∅]> h in
  let lp := fresh (dom h1) in
  lp <> lh /\ <[lp := ∅]> h1 !! lh = Some ∅ /\ <[lp := ∅]> h1 !! lp = Some ∅.
Proof.
  cbn zeta. pose proof (fresh_insert_ne h (fresh (dom h)) ∅) as Hne.
  split; [done|]. split.
  - rewrite lookup_insert_ne by done. apply lookup_insert_eq.
  - apply lookup_insert_eq.
Qed.

Lemma new_decoded (c : class) (size : Z) (tm ctl : value)
    (kw : gmap string value) (s s' : state) (e : BinLogEvent) :
  new c size tm ctl kw s = (Ok e, s') ->
  decoded c e s' /\ event_size e = size
  /\ same_header (packet s) (packet s').
Proof.
  intros H. destruct c; cbn [new] in H.
  all: try unfold GtidEvent_init in H; try unfold RotateEvent_init in H;
    try unfold XidEvent_init in H; try unfold QueryEvent_init in H;
    try unfold NotImplementedEvent_init in H.
  all: inv_run; subst; cbn [heap set_heap set_packet packet] in *.
  all: try (destruct (fresh_two (heap s)) as (Hne & Hlh & Hlp)).
  all: split; [|split; [reflexivity | done]].
  all: split; [reflexivity|]; split; [reflexivity|]; split; [reflexivity|].
  all: eexists; split; [reflexivity|].
  all: cbn [body set_body cls].
  all: try (split; [by apply lookup_insert_eq | done]).
  all: split; [exact Hlh|].
  all: repeat split; try lia; try (rewrite length_take; lia).
  all: try (eexists; split; [reflexivity|]; split; [exact Hne | exact Hlp]).
  all: apply le_int_4; lia.
Qed.

(** *** Stores into a dict *)

Lemma setitem_set (l : loc) (d : gmap string value) (k : string) (v : value)
    (h : gmap loc (gmap string value)) (s : state) :
  setitem (VDict l) k v (set_heap (<[l := d]> h) s)
  = (Ok tt, set_heap (<[l := <[k := v]> d]> h) s).
Proof.
  rewrite (setitem_ok l d) by apply lookup_insert_eq.
  cbn [heap set_heap]. rewrite insert_insert_eq. reflexivity.
Qed.

Lemma get_packet_ok (s : state) : get_packet s = (Ok (packet s), s).
Proof. reflexivity. Qed.

Lemma set_hashes_id (e : BinLogEvent) : set_hashes (hashes e) e = e.
Proof. destruct e. reflexivity. Qed.

Lemma scalar_conv (v : value) : scalar v -> conv v = v.
Proof. destruct v; cbn; tauto. Qed.

Lemma scalar_not_dict (v : value) : scalar v -> is_dict v = false.
Proof. destruct v; cbn; tauto. Qed.




Lemma store_non_empty (items : list (string * value)) (d : gmap string value) :
  items <> [] -> store items d <> ∅.
Proof.
  revert d. induction items as [|[k v] items IH]; intros d H; [done|].
  cbn [store foldl fst snd]. destruct items as [|kv items].
  - cbn. apply insert_non_empty.
  - apply (IH (<[k:=v]> d)). done.
Qed.

Lemma store_scalar (items : list (string * value)) (d : gmap string value) :
  Forall (fun kv => scalar kv.2) items ->
  map_Forall (fun _ v => scalar v) d ->
  map_Forall (fun _ v => scalar v) (store items d).
Proof.
  intros Hi. revert d. induction Hi as [|[k v] items Hv _ IH]; intros d Hd.
  - done.
  - cbn [store foldl fst snd]. apply IH. apply map_Forall_insert_2; done.
Qed.


Lemma envelope_scalar (e : BinLogEvent) (p : Packet.t) (d : gmap string value) :
  map_Forall (fun _ v => scalar v) d ->
  map_Forall (fun _ v => scalar v) (envelope e p d).
Proof. intros H. unfold envelope. repeat apply map_Forall_insert_2; done. Qed.

Lemma union_scalar (a b : gmap string value) :
  map_Forall (fun _ v => scalar v) a ->
  map_Forall (fun _ v => scalar v) b ->
  map_Forall (fun _ v => scalar v) (a ∪ b).
Proof.
  intros Ha Hb k v Hk. apply lookup_union_Some_raw in Hk as [Hk|[_ Hk]].
  - by apply (Ha k).
  - by apply (Hb k).
Qed.

Lemma scalar_flat (d : gmap string value) :
  map_Forall (fun _ v => scalar v) d -> flat d.
Proof. intros H k v Hk. apply scalar_not_dict. by apply (H k). Qed.

Lemma scalar_fmap_conv (d : gmap string value) :
  map_Forall (fun _ v => scalar v) d -> conv <$> d = d.
Proof.
  intros H. apply map_eq. intros k. rewrite lookup_fmap.
  destruct (d !! k) as [v|] eqn:E; [|done]. cbn. f_equal.
  apply scalar_conv. by apply (H k).
Qed.

Lemma own_items_scalar (e : BinLogEvent) (items : list (string * value)) :
  own_items e = Ok items -> Forall (fun kv => scalar kv.2) items.
Proof.
  unfold own_items. destruct (cls e), (body e); try (intros [= <-]; done).
  - destruct (gtid sid gno); intros [= <-]. repeat constructor.
  - intros [= <-]. repeat constructor.
  - destruct (bytes_decode (VBytes schema)); intros [= <-]. repeat constructor.
Qed.

(** *** _dump and dump, statement by statement *)

Lemma _dump_none (e : BinLogEvent) (s : state) :
  own_items e = Ok [] -> _dump e s = (Ok VNone, s).
Proof.
  unfold own_items, _dump. destruct (cls e), (body e); try done.
  - destruct (gtid sid gno); discriminate.
  - destruct (bytes_decode (VBytes schema)); discriminate.
Qed.

Lemma _dump_own (e : BinLogEvent) (items : list (string * value)) (lp : loc)
    (dp : gmap string value) (s : state) :
  own_items e = Ok items -> items <> [] ->
  private e = Some (VDict lp) -> heap s !! lp = Some dp ->
  _dump e s = (Ok (VDict lp), set_heap (<[lp := store items dp]> (heap s)) s).
Proof.
  unfold own_items, _dump, private.
  destruct (cls e), (body e); try (intros [= <-]; done).
  - destruct (gtid sid gno) as [g|]; intros [= <-] _ [= ->] Hl.
    rewrite (bind_ok _ _ _ _ _ (setitem_ok _ _ _ _ _ Hl)).
    rewrite (bind_ok _ _ _ _ _ (lift_ok _ _)).
    rewrite (bind_ok _ _ _ _ _ (setitem_set _ _ _ _ _ _)). reflexivity.
  - intros [= <-] _ [= ->] Hl.
    rewrite (bind_ok _ _ _ _ _ (setitem_ok _ _ _ _ _ Hl)). reflexivity.
  - destruct (bytes_decode (VBytes schema)) as [t|]; intros [= <-] _ [= ->] Hl.
    rewrite (bind_ok _ _ _ _ _ (lift_ok _ _)).
    rewrite (bind_ok _ _ _ _ _ (setitem_ok _ _ _ _ _ Hl)).
    rewrite (bind_ok _ _ _ _ _ (setitem_set _ _ _ _ _ _)).
    rewrite (bind_ok _ _ _ _ _ (setitem_set _ _ _ _ _ _)). reflexivity.
Qed.

Lemma _dump_query_err (e : BinLogEvent) (x : exn) (s : state) :
  cls e = QueryEvent -> own_items e = Err x -> _dump e s = (Err x, s).
Proof.
  unfold own_items, _dump. intros ->. destruct (body e); try discriminate.
  destruct (bytes_decode (VBytes schema)); [discriminate|]. intros [= ->].
  reflexivity.
Qed.

Lemma BinLogEvent_dump_prefix (e : BinLogEvent) (lh : loc)
    (dh : gmap string value) (s : state) :
  hashes e = VDict lh -> heap s !! lh = Some dh ->
  BinLogEvent_dump e s
  = dump_rest e (set_heap (<[lh := envelope e (packet s) dh]> (heap s)) s).
Proof.
  intros Hh Hl. unfold BinLogEvent_dump. rewrite Hh.
  rewrite (bind_ok _ _ _ _ _ (setitem_ok _ _ _ _ _ Hl)).
  rewrite (bind_ok _ _ _ _ _ (setitem_set _ _ _ _ _ _)).
  rewrite (bind_ok _ _ _ _ _ (get_packet_ok _)).
  rewrite (bind_ok _ _ _ _ _ (setitem_set _ _ _ _ _ _)).
  rewrite (bind_ok _ _ _ _ _ (setitem_set _ _ _ _ _ _)).
  rewrite (bind_ok _ _ _ _ _ (get_packet_ok _)).
  rewrite (bind_ok _ _ _ _ _ (setitem_set _ _ _ _ _ _)).
  rewrite (bind_ok _ _ _ _ _ (get_packet_ok _)).
  rewrite (bind_ok _ _ _ _ _ (setitem_set _ _ _ _ _ _)).
  unfold dump_rest. rewrite Hh. reflexivity.
Qed.

Lemma BinLogEvent_dump_plain (e : BinLogEvent) (lh : loc)
    (dh : gmap string value) (s : state) :
  hashes e = VDict lh -> heap s !! lh = Some dh ->
  map_Forall (fun _ v => scalar v) dh ->
  own_items e = Ok [] ->
  BinLogEvent_dump e s
  = (Ok (VDict lh, e),
     set_heap (<[lh := envelope e (packet s) dh]> (heap s)) s).
Proof.
  intros Hh Hl Hd Hown.
  rewrite (BinLogEvent_dump_prefix e lh dh s Hh Hl). unfold dump_rest.
  rewrite (bind_ok _ _ _ _ _ (_dump_none _ _ Hown)).
  cbn [truthy]. rewrite bind_ret. cbv beta iota. rewrite bind_ret, Hh.
  pose proof (envelope_scalar e (packet s) dh Hd) as Hs.
  rewrite (bind_ok _ _ _ _ _
             (iter_bytes_to_string_flat lh (envelope e (packet s) dh) _
                (lookup_insert_eq _ _ _) (scalar_flat _ Hs))).
  cbn [heap set_heap ret]. rewrite insert_insert_eq, scalar_fmap_conv by done.
  rewrite <- Hh, set_hashes_id. reflexivity.
Qed.

Lemma BinLogEvent_dump_own (e : BinLogEvent) (items : list (string * value))
    (lh lp : loc) (dh dp : gmap string value) (s : state) :
  hashes e = VDict lh -> heap s !! lh = Some dh ->
  map_Forall (fun _ v => scalar v) dh ->
  own_items e = Ok items -> items <> [] ->
  private e = Some (VDict lp) -> lp <> lh -> heap s !! lp = Some dp ->
  map_Forall (fun _ v => scalar v) dp ->
  BinLogEvent_dump e s
  = (Ok (VDict lh, e),
     set_heap (<[lh := store items dp ∪ envelope e (packet s) dh]>
                 (<[lp := store items dp]> (heap s))) s).
Proof.
  intros Hh Hl Hd Hown Hne Hp Hll Hlp Hdp.
  rewrite (BinLogEvent_dump_prefix e lh dh s Hh Hl). unfold dump_rest.
  set (env := envelope e (packet s) dh).
  set (own := store items dp).
  assert (heap (set_heap (<[lh := env]> (heap s)) s) !! lp = Some dp) as H1.
  { cbn [heap set_heap]. by rewrite lookup_insert_ne. }
  rewrite (bind_ok _ _ _ _ _ (_dump_own e items lp dp _ Hown Hne Hp H1)).
  cbn [heap set_heap]. fold own.
  rewrite (bind_ok _ _ _ _ _ (truthy_dict lp own _ (lookup_insert_eq _ _ _))).
  assert (negb (Nat.eqb (size own) 0) = true) as ->.
  { apply negb_true_iff, Nat.eqb_neq, map_size_non_empty_iff.
    by apply store_non_empty. }
  rewrite Hh.
  assert (heap (set_heap (<[lp := own]> (<[lh := env]> (heap s)))
                  (set_heap (<[lh := env]> (heap s)) s)) !! lh = Some env)
    as H2.
  { cbn [heap set_heap]. rewrite lookup_insert_ne by done.
    apply lookup_insert_eq. }
  rewrite (bind_ok _ _ _ _ _
             (update_ok lh lp env own _ H2 (lookup_insert_eq _ _ _))).
  cbn [heap set_heap].
  assert (map_Forall (fun _ v => scalar v) (own ∪ env)) as Hs.
  { apply union_scalar; [|by apply envelope_scalar].
    apply store_scalar; [|done]. by apply (own_items_scalar e). }
  rewrite (bind_ok _ _ _ _ _
             (iter_bytes_to_string_flat lh _ _
                (lookup_insert_eq _ _ _) (scalar_flat _ Hs))).
  cbn [heap set_heap ret]. rewrite scalar_fmap_conv by done.
  rewrite insert_insert_eq.
  rewrite (insert_insert_ne _ lh lp) by done.
  rewrite insert_insert_eq.
  rewrite (insert_insert_ne _ lp lh) by done.
  rewrite <- Hh, set_hashes_id. reflexivity.
Qed.

Lemma BinLogEvent_dump_query_err (e : BinLogEvent) (x : exn) (lh : loc)
    (dh : gmap string value) (s : state) :
  hashes e = VDict lh -> heap s !! lh = Some dh ->
  cls e = QueryEvent -> own_items e = Err x ->
  BinLogEvent_dump e s
  = (Err x, set_heap (<[lh := envelope e (packet s) dh]> (heap s)) s).
Proof.
  intros Hh Hl Hc Hown.
  rewrite (BinLogEvent_dump_prefix e lh dh s Hh Hl). unfold dump_rest.
  rewrite (bind_err _ _ _ _ _ (_dump_query_err _ _ _ Hc Hown)). reflexivity.
Qed.

Lemma _dump_gtid_err (e : BinLogEvent) (commit_flag : bool) (sid : list byte)
    (gno : Z) (lp : loc) (dp : gmap string value) (x : exn) (s : state) :
  cls e = GtidEvent -> body e = GtidFields commit_flag sid gno (VDict lp) ->
  own_items e = Err x -> heap s !! lp = Some dp ->
  _dump e s
  = (Err x,
     set_heap (<[lp := <["commit_flag" := VBool commit_flag]> dp]> (heap s)) s).
Proof.
  unfold own_items, _dump. intros -> -> Hown Hl.
  destruct (gtid sid gno) as [g|y]; [discriminate|]. injection Hown as ->.
  rewrite (bind_ok _ _ _ _ _ (setitem_ok _ _ _ _ _ Hl)).
  rewrite (bind_err _ _ _ _ _ (lift_ok _ _)). reflexivity.
Qed.

Lemma BinLogEvent_dump_gtid_err (e : BinLogEvent) (commit_flag : bool)
    (sid : list byte) (gno : Z) (x : exn) (lh lp : loc)
    (dh dp : gmap string value) (s : state) :
  hashes e = VDict lh -> heap s !! lh = Some dh ->
  cls e = GtidEvent -> body e = GtidFields commit_flag sid gno (VDict lp) ->
  own_items e = Err x -> lp <> lh -> heap s !! lp = Some dp ->
  BinLogEvent_dump e s
  = (Err x,
     set_heap (<[lp := <["commit_flag" := VBool commit_flag]> dp]>
                 (<[lh := envelope e (packet s) dh]> (heap s))) s).
Proof.
  intros Hh Hl Hc Hb Hown Hne Hlp.
  rewrite (BinLogEvent_dump_prefix e lh dh s Hh Hl). unfold dump_rest.
  assert (heap (set_heap (<[lh := envelope e (packet s) dh]> (heap s)) s) !! lp
          = Some dp) as H1.
  { cbn [heap set_heap]. by rewrite lookup_insert_ne. }
  rewrite (bind_err _ _ _ _ _
             (_dump_gtid_err e commit_flag sid gno lp dp x _ Hc Hb Hown H1)).
  reflexivity.
Qed.

Lemma gtid_own_items (e : BinLogEvent) (commit_flag : bool) (sid : list byte)
    (gno : Z) (h : value) :
  cls e = GtidEvent -> body e = GtidFields commit_flag sid gno h ->
  own_items e
  = match gtid sid gno with
    | Ok g => Ok [("commit_flag", VBool commit_flag); ("gtid", VText g)]
    | Err x => Err x
    end.
Proof. intros Hc Hb. unfold own_items. rewrite Hc, Hb. reflexivity. Qed.

Lemma RotateEvent_dump_ok (e : BinLogEvent) (position : Z)
    (next_binlog : string) (lp : loc) (dp : gmap string value) (s : state) :
  body e = RotateFields position next_binlog (VDict lp) ->
  heap s !! lp = Some dp ->
  RotateEvent_dump e s
  = (Ok (VDict lp, e),
     set_heap (<[lp := rotate_items e position next_binlog dp]> (heap s)) s).
Proof.
  intros Hb Hl. unfold RotateEvent_dump. rewrite Hb.
  rewrite (bind_ok _ _ _ _ _ (setitem_ok _ _ _ _ _ Hl)).
  rewrite (bind_ok _ _ _ _ _ (setitem_set _ _ _ _ _ _)).
  rewrite (bind_ok _ _ _ _ _ (setitem_set _ _ _ _ _ _)).
  rewrite (bind_ok _ _ _ _ _ (setitem_set _ _ _ _ _ _)). reflexivity.
Qed.

(** *** The dump of a decoded event *)

Lemma scalar_empty :
  map_Forall (fun (_ : string) v => scalar v) (∅ : gmap string value).
Proof. apply map_Forall_empty. Qed.

Lemma dump_decoded (c : class) (e : BinLogEvent) (s : state) :
  c <> RotateEvent -> decoded c e s ->
  exists lh, hashes e = VDict lh /\ heap s !! lh = Some ∅
    /\ match own_items e with
       | Ok [] =>
         dump e s
         = (Ok (VDict lh, e),
            set_heap (<[lh := envelope e (packet s) ∅]> (heap s)) s)
       | Ok items =>
         exists lp, private e = Some (VDict lp) /\ lp <> lh
           /\ heap s !! lp = Some ∅
           /\ dump e s
              = (Ok (VDict lh, e),
                 set_heap (<[lh := store items ∅ ∪ envelope e (packet s) ∅]>
                             (<[lp := store items ∅]> (heap s))) s)
       | Err x =>
         (c = QueryEvent
          /\ dump e s
             = (Err x,
                set_heap (<[lh := envelope e (packet s) ∅]> (heap s)) s))
         \/ (c = GtidEvent
             /\ exists lp commit_flag sid gno,
                  body e = GtidFields commit_flag sid gno (VDict lp)
                  /\ lp <> lh /\ heap s !! lp = Some ∅
                  /\ dump e s
                     = (Err x,
                        set_heap
                          (<[lp := <["commit_flag" := VBool commit_flag]> ∅]>
                             (<[lh := envelope e (packet s) ∅]> (heap s))) s))
       end.
Proof.
  intros Hc (Hcls & _ & _ & lh & Hh & Hl & Hb).
  exists lh. split; [done|]. split; [done|].
  assert (dump e s = BinLogEvent_dump e s) as ->.
  { unfold dump. rewrite Hcls. destruct c; done. }
  destruct c; try done; destruct (body e) eqn:Eb; try done.
  - destruct Hb as (Hsid & _ & lp & -> & Hne & Hlp).
    pose proof (gtid_own_items e _ _ _ _ Hcls Eb) as Hown.
    destruct (gtid sid gno) as [g|x]; rewrite Hown.
    + exists lp. unfold private. rewrite Eb.
      repeat (split; [done|]).
      apply BinLogEvent_dump_own; try done; try apply scalar_empty.
      unfold private. rewrite Eb. done.
    + right. split; [done|]. exists lp, commit_flag, sid, gno.
      repeat (split; [done|]).
      by apply (BinLogEvent_dump_gtid_err e commit_flag sid gno).
  - assert (own_items e = Ok []) as Hown
      by (unfold own_items; rewrite Hcls, ?Eb; done).
    rewrite Hown. apply BinLogEvent_dump_plain; try done; apply scalar_empty.
  - assert (own_items e = Ok []) as Hown
      by (unfold own_items; rewrite Hcls, ?Eb; done).
    rewrite Hown. apply BinLogEvent_dump_plain; try done; apply scalar_empty.
  - destruct Hb as (_ & lp & -> & Hne & Hlp).
    assert (own_items e = Ok [("xid", VInt xid)]) as Hown
      by (unfold own_items; rewrite Hcls, ?Eb; done).
    rewrite Hown. exists lp. unfold private. rewrite Eb.
    repeat (split; [done|]).
    apply BinLogEvent_dump_own; try done; try apply scalar_empty.
    unfold private. rewrite Eb. done.
  - destruct Hb as (_ & lp & -> & Hne & Hlp).
    destruct (own_items e) as [items|x] eqn:Hown.
    + assert (items <> []) as Hitems.
      { unfold own_items in Hown. rewrite Hcls, Eb in Hown.
        destruct (bytes_decode (VBytes schema)); [|discriminate].
        injection Hown as <-. done. }
      destruct items as [|kv items]; [done|].
      exists lp. unfold private. rewrite Eb. repeat (split; [done|]).
      apply BinLogEvent_dump_own; try done; try apply scalar_empty.
      unfold private. rewrite Eb. done.
    + left. split; [done|]. by apply BinLogEvent_dump_query_err.
  - assert (own_items e = Ok []) as Hown
      by (unfold own_items; rewrite Hcls, ?Eb; done).
    rewrite Hown. apply BinLogEvent_dump_plain; try done; apply scalar_empty.
Qed.

Lemma dump_decoded_rotate (e : BinLogEvent) (s : state) :
  decoded RotateEvent e s ->
  exists position next_binlog lp,
    body e = RotateFields position next_binlog (VDict lp)
    /\ 0 <= position < 2 ^ 64
    /\ heap s !! lp = Some ∅
    /\ dump e s
       = (Ok (VDict lp, e),
          set_heap (<[lp := rotate_items e position next_binlog ∅]> (heap s)) s).
Proof.
  intros (Hcls & _ & _ & lh & Hh & Hl & Hb).
  destruct (body e) eqn:Eb; try done.
  destruct Hb as (Hpos & lp & -> & Hne & Hlp).
  exists position, next_binlog, lp. repeat (split; [done|]).
  unfold dump. rewrite Hcls. by apply RotateEvent_dump_ok.
Qed.



Lemma own_items_cases (e : BinLogEvent) (items : list (string * value)) :
  own_items e = Ok items ->
  items = []
  \/ (exists cf g, items = [("commit_flag", VBool cf); ("gtid", VText g)])
  \/ (exists xid, items = [("xid", VInt xid)])
  \/ (exists sc t q, items = [("schema", VText sc);
                              ("execution_time", VInt t);
                              ("query", VText q)]).
Proof.
  unfold own_items. destruct (cls e), (body e); try (intros [= <-]; auto).
  - destruct (gtid sid gno); intros [= <-]. eauto 6.
  - eauto 6.
  - destruct (bytes_decode (VBytes schema)); intros [= <-]. eauto 8.
Qed.






Lemma set_heap_id (h : gmap loc (gmap string value)) (s : state) :
  set_heap h (set_heap h s) = set_heap h s.
Proof. reflexivity. Qed.

(** *** The claims about dump *)

Lemma dump_returns_merged (c : class) (e : BinLogEvent) (s : state) :
  c <> RotateEvent -> decoded c e s ->
  match own_items e with
  | Ok items =>
    exists lh s',
      dump e s = (Ok (VDict lh, e), s')
      /\ heap s' !! lh = Some (store items ∅ ∪ envelope e (packet s) ∅)
  | Err x =>
    (c = QueryEvent \/ c = GtidEvent) /\ exists s', dump e s = (Err x, s')
  end.
Proof.
  intros Hc Hdec.
  destruct (dump_decoded c e s Hc Hdec) as (lh & Hh & Hl & Hd).
  destruct (own_items e) as [items|x] eqn:Hown.
  2: { destruct Hd as [(-> & Hd)|(-> & lp & cf & sid & gno & _ & _ & _ & Hd)];
         eauto. }
  exists lh. destruct items as [|kv items].
  - eexists. split; [exact Hd|]. cbn [heap set_heap store foldl].
    rewrite lookup_insert_eq, (left_id_L ∅ (∪)). done.
  - destruct Hd as (lp & _ & _ & _ & Hd). eexists. split; [exact Hd|].
    cbn [heap set_heap]. apply lookup_insert_eq.
Qed.

Lemma _dump_decoded (c : class) (e : BinLogEvent) (s : state) :
  decoded c e s ->
  match own_items e with
  | Ok items => exists h s1, _dump e s = (Ok h, s1)
  | Err x => exists s1, _dump e s = (Err x, s1)
  end.
Proof.
  intros (Hcls & _ & _ & lh & Hh & Hl & Hb).
  destruct c; try done; destruct (body e) eqn:Eb; try done.
  all: try (assert (own_items e = Ok []) as Hown
              by (unfold own_items; rewrite Hcls, ?Eb; done);
            rewrite Hown; eexists _, _; by apply _dump_none).
  - destruct Hb as (_ & _ & lp & -> & Hne & Hlp).
    pose proof (gtid_own_items e _ _ _ _ Hcls Eb) as Hown.
    destruct (gtid sid gno) as [g|x]; rewrite Hown.
    + eexists _, _.
      apply (_dump_own e [("commit_flag", VBool commit_flag);
                          ("gtid", VText g)] lp ∅); try done.
      unfold private. by rewrite Eb.
    + eexists. by apply (_dump_gtid_err e commit_flag sid gno lp ∅).
  - destruct Hb as (_ & lp & -> & Hne & Hlp).
    destruct (own_items e) as [items|x] eqn:Hown.
    + eexists _, _. apply (_dump_own e items lp ∅); try done.
      * unfold own_items in Hown. rewrite Hcls, Eb in Hown. by injection Hown as <-.
      * unfold private. by rewrite Eb.
    + unfold own_items in Hown. rewrite Hcls, Eb in Hown. discriminate.
  - destruct Hb as (_ & lp & -> & Hne & Hlp).
    destruct (own_items e) as [items|x] eqn:Hown.
    + eexists _, _. apply (_dump_own e items lp ∅); try done.
      * unfold own_items in Hown. rewrite Hcls, Eb in Hown.
        destruct (bytes_decode (VBytes schema)); [|discriminate].
        by injection Hown as <-.
      * unfold private. by rewrite Eb.
    + eexists. by apply _dump_query_err.
Qed.

(** C4 (as amended).  For every decoded event of a class other than
    [RotateEvent] whose own [_dump] returns, [dump] returns the mapping
    that holds the class name, [timestamp], [log_pos], [event_size],
    [read_bytes] and [flags], with the items of [_dump] merged in.  The
    own [_dump] returns exactly when [own_items] yields its items, which
    it does for every [FormatDescriptionEvent], [StopEvent], [XidEvent]
    and [NotImplementedEvent]. *)
Theorem dump_envelope_and_own_fields (c : class) (size : Z) (tm ctl : value)
    (kw : gmap string value) (s0 s : state) (e : BinLogEvent) :
  new c size tm ctl kw s0 = (Ok e, s) -> c <> RotateEvent ->
  (forall items, own_items e = Ok items ->
     exists lh m s',
       dump e s = (Ok (VDict lh, e), s') /\ heap s' !! lh = Some m
       /\ m = store items ∅ ∪ envelope e (packet s) ∅
       /\ m !! "class" = Some (VText (class_name c))
       /\ m !! "timestamp" = Some (VInt (Packet.timestamp (packet s)))
       /\ m !! "log_pos" = Some (VInt (Packet.log_pos (packet s)))
       /\ m !! "event_size" = Some (VInt size)
       /\ m !! "read_bytes" = Some (VInt (Packet.read_bytes (packet s)))
       /\ m !! "flags" = Some (VInt (Packet.flags (packet s)))
       /\ Forall (fun kv => m !! kv.1 = Some kv.2) items)
  /\ ((exists items, own_items e = Ok items)
      <-> (exists h s1, _dump e s = (Ok h, s1)))
  /\ (c = FormatDescriptionEvent \/ c = StopEvent \/ c = XidEvent
      \/ c = NotImplementedEvent ->
      exists items, own_items e = Ok items).
Proof.
  intros Hnew Hc.
  destruct (new_decoded _ _ _ _ _ _ _ _ Hnew) as (Hdec & Hsize & _).
  pose proof Hdec as (Hcls & Hts & _ & lh0 & _ & _ & Hb).
  split; [|split].
  - intros items Hown.
    pose proof (dump_returns_merged c e s Hc Hdec) as Hd.
    rewrite Hown in Hd. destruct Hd as (lh & s' & Hrun & Hm).
    eexists lh, _, s'. split; [exact Hrun|]. split; [exact Hm|].
    split; [reflexivity|].
    rewrite <- Hcls, <- Hts, <- Hsize.
    destruct (own_items_cases e items Hown)
      as [->|[(cf & g & ->)|[(xid & ->)|(sc & t & q & ->)]]];
      repeat split; try reflexivity; repeat constructor.
  - pose proof (_dump_decoded c e s Hdec) as Hd.
    destruct (own_items e) as [items|x]; split; eauto.
    + intros (items & Hx). discriminate Hx.
    + intros (h & s1 & Hrun). destruct Hd as (s2 & Hd).
      rewrite Hd in Hrun. discriminate.
  - intros Hcase. unfold own_items. rewrite Hcls.
    destruct Hcase as [-> | [-> | [-> | ->]]]; destruct (body e); eauto; done.
Qed.




(** C8.  The mapping [dump] returns for a decoded [RotateEvent] holds the
    class name, [position], [next_binlog] and [timestamp], and nothing
    else: no [read_bytes], [flags], [log_pos] or [event_size].  The
    mapping [dump] returns for a decoded event of any other class holds
    [read_bytes] and [flags]. *)
Theorem RotateEvent_dump_shape :
  (forall (size : Z) (tm ctl : value) (kw : gmap string value)
          (s0 s : state) (e : BinLogEvent),
     new RotateEvent size tm ctl kw s0 = (Ok e, s) ->
     exists position next_binlog lp m s',
       body e = RotateFields position next_binlog (VDict lp)
       /\ dump e s = (Ok (VDict lp, e), s')
       /\ heap s' !! lp = Some m
       /\ m = {[ "class" := VText "RotateEvent";
                 "position" := VInt position;
                 "next_binlog" := VText next_binlog;
                 "timestamp" := VInt (Packet.timestamp (packet s)) ]}
       /\ dom m = {[ "class"; "position"; "next_binlog"; "timestamp" ]}
       /\ m !! "read_bytes" = None /\ m !! "flags" = None
       /\ m !! "log_pos" = None /\ m !! "event_size" = None)
  /\ (forall (c : class) (size : Z) (tm ctl : value) (kw : gmap string value)
             (s0 s s' : state) (e e' : BinLogEvent) (r : value),
        c <> RotateEvent ->
        new c size tm ctl kw s0 = (Ok e, s) ->
        dump e s = (Ok (r, e'), s') ->
        exists l m, r = VDict l /\ heap s' !! l = Some m
          /\ m !! "read_bytes" = Some (VInt (Packet.read_bytes (packet s)))
          /\ m !! "flags" = Some (VInt (Packet.flags (packet s)))).
Proof.
  split.
  - intros size tm ctl kw s0 s e Hnew.
    destruct (new_decoded _ _ _ _ _ _ _ _ Hnew) as (Hdec & Hsize & _).
    pose proof Hdec as (Hcls & Hts & _).
    destruct (dump_decoded_rotate e s Hdec)
      as (pos & name & lp & Hb & Hpos & Hl & Hd).
    eexists pos, name, lp, _, _. split; [exact Hb|]. split; [exact Hd|].
    cbn [heap set_heap]. split; [apply lookup_insert_eq|].
    unfold rotate_items. rewrite Hcls, Hts. cbn [class_name].
    repeat split; reflexivity.
  - intros c size tm ctl kw s0 s s' e e' r Hc Hnew Hrun.
    destruct (new_decoded _ _ _ _ _ _ _ _ Hnew) as (Hdec & _ & _).
    pose proof (dump_returns_merged c e s Hc Hdec) as H.
    destruct (own_items e) as [items|x] eqn:Hown.
    + destruct H as (lh & s1 & Hd & Hm).
      rewrite Hd in Hrun. injection Hrun as <- <- <-.
      eexists lh, _. split; [reflexivity|]. split; [exact Hm|].
      destruct (own_items_cases e items Hown)
        as [->|[(cf & g & ->)|[(xid & ->)|(sc & t & q & ->)]]];
        split; reflexivity.
    + destruct H as (_ & s1 & Hd). rewrite Hd in Hrun. discriminate.
Qed.

(** C7.  Constructing a [NotImplementedEvent] succeeds exactly when the
    keywords are admissible and the packet holds [event_size] more
    bytes.  It then advances the cursor by exactly [event_size] bytes,
    none of which it looks at, and gives the event no field of its own:
    [_dump] yields nothing, and the mapping [dump] returns holds the six
    shared items only. *)
Theorem NotImplementedEvent_skips (size : Z) (tm ctl : value)
    (kw : gmap string value) (s : state) :
  (forall e s',
     NotImplementedEvent_init size tm ctl kw s = (Ok e, s') ->
     dom kw ⊆ init_keywords
     /\ 0 <= size <= Z.of_nat (length (Packet.data (packet s))))
  /\ (dom kw ⊆ init_keywords ->
      0 <= size <= Z.of_nat (length (Packet.data (packet s))) ->
      exists e s' lh m s'',
        NotImplementedEvent_init size tm ctl kw s = (Ok e, s')
        /\ Packet.read_bytes (packet s')
           = Packet.read_bytes (packet s) + size
        /\ Packet.data (packet s')
           = drop (Z.to_nat size) (Packet.data (packet s))
        /\ body e = NoFields
        /\ own_items e = Ok []
        /\ dump e s' = (Ok (VDict lh, e), s'')
        /\ heap s'' !! lh = Some m
        /\ m = {[ "class" := VText "NotImplementedEvent";
                  "timestamp" := VInt (Packet.timestamp (packet s));
                  "log_pos" := VInt (Packet.log_pos (packet s));
                  "event_size" := VInt size;
                  "read_bytes" := VInt (Packet.read_bytes (packet s) + size);
                  "flags" := VInt (Packet.flags (packet s)) ]}
        /\ dom m = {[ "class"; "timestamp"; "log_pos"; "event_size";
                      "read_bytes"; "flags" ]}).
Proof.
  split.
  - intros e s' H. unfold NotImplementedEvent_init in H. inv_run. subst.
    cbn [packet set_heap] in *. done.
  - intros Hkw Hsize.
    assert (NotImplementedEvent_init size tm ctl kw s
            = new NotImplementedEvent size tm ctl kw s) as Hn by done.
    unfold NotImplementedEvent_init in Hn at 1.
    rewrite (bind_ok _ _ _ _ _ (BinLogEvent_init_ok _ _ _ _ _ _ Hkw)) in Hn.
    rewrite (bind_ok _ _ _ _ _ (advance_ok size (set_heap _ s) Hsize)) in Hn.
    cbn [ret packet set_heap set_packet heap] in Hn. symmetry in Hn.
    destruct (new_decoded _ _ _ _ _ _ _ _ Hn) as (Hdec & _ & _).
    assert (NotImplementedEvent <> RotateEvent) as Hc by done.
    destruct (dump_decoded _ _ _ Hc Hdec) as (lh & Hh & Hl & Hd).
    cbn [own_items cls body] in Hd.
    eexists _, _, lh, _, _. split; [exact Hn|].
    cbn [packet Packet.read_bytes Packet.data Packet.consume].
    split; [reflexivity|]. split; [reflexivity|]. split; [reflexivity|].
    split; [reflexivity|]. split; [exact Hd|].
    cbn [heap set_heap]. split; [apply lookup_insert_eq|].
    unfold envelope.
    cbn [cls timestamp event_size class_name packet Packet.log_pos
           Packet.read_bytes Packet.flags Packet.consume].
    split; reflexivity.
Qed.

(** C3.  A [RotateEvent] that is decoded has read eight bytes, whose
    little-endian value is its [position], and then exactly
    [event_size - 8] bytes, whose decoding is its [next_binlog]; so
    [8 + len(next_binlog_bytes) = event_size].  Decoding succeeds when
    the keywords are admissible, the packet holds [event_size >= 8] more
    bytes and the name decodes. *)
Theorem RotateEvent_init_layout (size : Z) (tm ctl : value)
    (kw : gmap string value) (s : state) :
  (forall e s',
     RotateEvent_init size tm ctl kw s = (Ok e, s') ->
     exists position_bytes next_binlog_bytes next_binlog h,
       Packet.data (packet s)
       = position_bytes ++ next_binlog_bytes ++ Packet.data (packet s')
       /\ length position_bytes = 8%nat
       /\ body e = RotateFields (le_int position_bytes) next_binlog h
       /\ 0 <= le_int position_bytes < 2 ^ 64
       /\ Z.of_nat (length next_binlog_bytes) = size - 8
       /\ decode_with (default_codec py) next_binlog_bytes = Ok next_binlog
       /\ 8 + Z.of_nat (length next_binlog_bytes) = size)
  /\ (forall t,
        dom kw ⊆ init_keywords ->
        8 <= size <= Z.of_nat (length (Packet.data (packet s))) ->
        default_codec py
          (take (Z.to_nat (size - 8)) (drop 8 (Packet.data (packet s))))
        = Some t ->
        exists e s', RotateEvent_init size tm ctl kw s = (Ok e, s')).
Proof.
  split.
  - intros e s' H. unfold RotateEvent_init in H. inv_run. subst.
    cbn [packet set_heap set_packet Packet.data Packet.consume] in *.
    set (d := Packet.data (packet s)) in *.
    exists (take (Z.to_nat 8) d),
      (take (Z.to_nat (size - 8)) (drop (Z.to_nat 8) d)).
    eexists _, _.
    rewrite !take_drop. repeat split; try done; try lia.
    all: rewrite length_read by done; lia.
  - intros t Hkw Hsize Ht. unfold RotateEvent_init.
    rewrite (bind_ok _ _ _ _ _ (BinLogEvent_init_ok _ _ _ _ _ _ Hkw)).
    set (s1 := set_heap _ s).
    assert (0 <= 8 <= Z.of_nat (length (Packet.data (packet s1)))) as H1
      by (cbn; lia).
    rewrite (bind_ok _ _ _ _ _ (read_ok 8 s1 H1)).
    rewrite unpack_Q_ok by (cbn; rewrite length_take; lia).
    rewrite (bind_ok _ _ _ _ _ (lift_ok _ _)).
    set (s2 := set_packet _ s1).
    assert (0 <= size - 8 <= Z.of_nat (length (Packet.data (packet s2))))
      as H2 by (cbn; rewrite length_drop; lia).
    rewrite (bind_ok _ _ _ _ _ (read_ok (size - 8) s2 H2)).
    cbn [packet s2 s1 set_heap set_packet Packet.data Packet.consume].
    change (Z.to_nat 8) with 8%nat. unfold decode_with. rewrite Ht.
    rewrite (bind_ok _ _ _ _ _ (lift_ok _ _)).
    rewrite (bind_ok _ _ _ _ _ (new_dict_ok _)). eauto.
Qed.

(** *** The claims about construction *)


Lemma bind_err_inv {A B} (m : M A) (f : A -> M B) (s s' : state) (x : exn) :
  bind m f s = (Err x, s') ->
  m s = (Err x, s') \/ exists a s1, m s = (Ok a, s1) /\ f a s1 = (Err x, s').
Proof.
  unfold bind. destruct (m s) as [[a|e] s1]; [eauto|].
  intros [= -> ->]. auto.
Qed.

Lemma read_err_inv (n : Z) (s s' : state) (x : exn) :
  read n s = (Err x, s') -> x = PacketError /\ s' = s.
Proof. unfold read. case_decide; [discriminate|]. intros [= <- <-]. auto. Qed.

Lemma advance_err_inv (n : Z) (s s' : state) (x : exn) :
  advance n s = (Err x, s') -> x = PacketError /\ s' = s.
Proof.
  unfold advance. case_decide; [discriminate|]. intros [= <- <-]. auto.
Qed.

Lemma kwarg_err_inv (kw : gmap string value) (k : string) (s s' : state)
    (x : exn) :
  kwarg kw k s = (Err x, s') -> x = KeyError /\ s' = s /\ kw !! k = None.
Proof.
  unfold kwarg. destruct (kw !! k); [discriminate|]. intros [= <- <-]. auto.
Qed.

Lemma BinLogEvent_init_err_inv (c : class) (size : Z) (tm ctl : value)
    (kw : gmap string value) (s s' : state) (x : exn) :
  BinLogEvent_init c size tm ctl kw s = (Err x, s') ->
  x = TypeError /\ s' = s.
Proof.
  destruct (decide (dom kw ⊆ init_keywords)) as [H|H].
  - rewrite BinLogEvent_init_ok by done. discriminate.
  - rewrite BinLogEvent_init_err by done. intros [= <- <-]. auto.
Qed.

Lemma byte2int_read (bs : list byte) :
  length bs = 1%nat -> byte2int bs = Ok (le_int bs).
Proof.
  destruct bs as [|b [|? ?]]; try discriminate. intros _. cbn.
  f_equal. lia.
Qed.

(** The chain of binds of a constructor that raised is taken apart: one
    case for each statement that can have raised. *)
Ltac inv_raise :=
  repeat match goal with
  | H : bind _ _ _ = (Err _, _) |- _ =>
    apply bind_err_inv in H as [H | (? & ? & ? & H)]
  | H : read_uint32 _ = _ |- _ => unfold read_uint32 in H
  | H : read_uint16 _ = _ |- _ => unfold read_uint16 in H
  | H : ret _ _ = (Err _, _) |- _ => discriminate H
  | H : new_dict _ = (Err _, _) |- _ => discriminate H
  end.

(** The payload bytes a [QueryEvent] reads, once the reads up to the
    query text have returned. *)
Lemma QueryEvent_reads_inconsistent (size : Z) (d : list byte)
    (sl svl : Z) :
  13 + declared_status_vars_length d + declared_schema_length d + 1 > size ->
  sl = le_int (take (Z.to_nat 1) (drop (Z.to_nat 4) (drop (Z.to_nat 4) d))) ->
  svl = le_int (take (Z.to_nat 2)
                  (drop (Z.to_nat 2)
                     (drop (Z.to_nat 1)
                        (drop (Z.to_nat 4) (drop (Z.to_nat 4) d))))) ->
  ~ 0 <= size - 13 - svl - sl - 1.
Proof.
  unfold declared_status_vars_length, declared_schema_length.
  rewrite !drop_drop. intros H -> ->.
  change (Z.to_nat 4 + Z.to_nat 4)%nat with 8%nat.
  change (8 + (Z.to_nat 1 + Z.to_nat 2))%nat with 11%nat.
  change (Z.to_nat 1) with 1%nat. change (Z.to_nat 2) with 2%nat. lia.
Qed.

(** C1 (as amended).  For every QueryEvent payload whose declared lengths
    are inconsistent, [13 + L_status + L_schema + 1 > event_size],
    decoding fails.  The decoder checks no length itself and raises no
    [MalformedPayload]: the failure is that of the cursor, which refuses
    a read it cannot meet (or that of the call, for a keyword that is
    unknown or missing). *)
Theorem QueryEvent_inconsistent_lengths (size : Z) (tm ctl : value)
    (kw : gmap string value) (s : state) :
  13 + declared_status_vars_length (Packet.data (packet s))
     + declared_schema_length (Packet.data (packet s)) + 1 > size ->
  exists x s',
    QueryEvent_init size tm ctl kw s = (Err x, s')
    /\ is_malformed_payload x = false
    /\ (x = PacketError
        \/ (x = KeyError /\ kw !! "only_schemas" = None)
        \/ (x = TypeError /\ ~ dom kw ⊆ init_keywords)).
Proof.
  intros Hinc.
  destruct (QueryEvent_init size tm ctl kw s) as [[e|x] s'] eqn:H.
  - exfalso. unfold QueryEvent_init in H. inv_run. subst.
    cbn [packet set_packet set_heap heap Packet.data Packet.consume] in *.
    eapply QueryEvent_reads_inconsistent;
      [exact Hinc | reflexivity | reflexivity | lia].
  - exists x, s'. split; [done|].
    assert (x = PacketError
            \/ (x = KeyError /\ kw !! "only_schemas" = None)
            \/ (x = TypeError /\ ~ dom kw ⊆ init_keywords)) as Hx.
    { unfold QueryEvent_init in H. inv_raise; inv_run; subst.
      all: cbn [packet set_packet set_heap heap Packet.data Packet.consume]
             in *.
      all: try match goal with
           | H : read _ _ = (Err _, _) |- _ =>
             apply read_err_inv in H as (-> & _); auto
           | H : advance _ _ = (Err _, _) |- _ =>
             apply advance_err_inv in H as (-> & _); auto
           | H : kwarg _ _ _ = (Err _, _) |- _ =>
             apply kwarg_err_inv in H as (-> & _ & ?); auto
           | H : BinLogEvent_init _ _ _ _ _ _ = (Err _, _) |- _ =>
             right; right;
             destruct (decide (dom kw ⊆ init_keywords));
             [rewrite BinLogEvent_init_ok in H by done; discriminate H|];
             apply BinLogEvent_init_err_inv in H as (-> & _); auto
           end.
      all: unfold lift in *.
      all: try match goal with
           | H : (byte2int ?bs, _) = (Err _, _) |- _ =>
             rewrite (byte2int_read bs) in H
               by (rewrite length_take; lia);
             discriminate H
           end.
      all: exfalso; eapply QueryEvent_reads_inconsistent;
        [exact Hinc | reflexivity | reflexivity | lia]. }
    split; [|exact Hx].
    destruct Hx as [->|[[-> _]|[-> _]]]; reflexivity.
Qed.

(** C9.  An [XidEvent], and likewise a [QueryEvent], cannot be
    constructed without the keyword [only_schemas]: the call raises
    ([KeyError], or [TypeError] for an unknown keyword) and leaves the
    packet as it was, so no payload byte has been read.  With the
    keyword supplied its value is inert: two calls that differ in that
    value only end in the same state with the same outcome, the same
    event but for the attribute that keeps the value. *)
Theorem only_schemas_required_and_inert (size : Z) (tm ctl : value)
    (kw : gmap string value) (s : state) :
  (kw !! "only_schemas" = None ->
   (exists x s',
      XidEvent_init size tm ctl kw s = (Err x, s')
      /\ (x = KeyError \/ x = TypeError) /\ packet s' = packet s)
   /\ (exists x s',
         QueryEvent_init size tm ctl kw s = (Err x, s')
         /\ (x = KeyError \/ x = TypeError) /\ packet s' = packet s))
  /\ (forall v1 v2 : value,
        but_only_schemas
          (XidEvent_init size tm ctl (<["only_schemas" := v1]> kw) s)
        = but_only_schemas
            (XidEvent_init size tm ctl (<["only_schemas" := v2]> kw) s)
        /\ but_only_schemas
             (QueryEvent_init size tm ctl (<["only_schemas" := v1]> kw) s)
           = but_only_schemas
               (QueryEvent_init size tm ctl (<["only_schemas" := v2]> kw) s)).
Proof.
  split.
  - intros Hkw. unfold XidEvent_init, QueryEvent_init.
    destruct (decide (dom kw ⊆ init_keywords)) as [H|H].
    + rewrite !(bind_ok _ _ _ _ _ (BinLogEvent_init_ok _ _ _ _ _ _ H)).
      unfold kwarg. rewrite Hkw. split; eexists _, _; (split; [reflexivity|]);
        auto.
    + rewrite !(bind_err _ _ _ _ _ (BinLogEvent_init_err _ _ _ _ _ _ H)).
      split; eexists _, _; (split; [reflexivity|]); auto.
  - intros v1 v2.
    unfold XidEvent_init, QueryEvent_init, BinLogEvent_init, kwarg.
    rewrite !dom_insert_L, !lookup_insert_eq.
    destruct (decide ({["only_schemas"]} ∪ dom kw ⊆ init_keywords));
      [|done].
    unfold but_only_schemas, read_uint32, read_uint16, bind, lift, ret,
      get_packet, new_dict.
    split; repeat case_match; simplify_eq; reflexivity.
Qed.

Lemma nested_within_flat (h : gmap loc (gmap string value)) (n : nat)
    (l : loc) (d : gmap string value) :
  h !! l = Some d -> flat d -> nested_within h n l.
Proof.
  intros Hl Hd. destruct n; exists d; (split; [done|]);
    intros k l' Hk; by apply Hd in Hk.
Qed.

(** *** Further properties: reading the table id *)

Lemma le_int_app (a b : list byte) :
  le_int (a ++ b) = le_int a + 256 ^ Z.of_nat (length a) * le_int b.
Proof.
  induction a as [|x a IH]; [cbn [app length le_int]; lia|].
  cbn [app length le_int]. rewrite IH, Nat2Z.inj_succ, Z.pow_succ_r by lia.
  lia.
Qed.

(** X1.  [_read_table_id] returns when six bytes are left, and only
    then: it consumes exactly these six bytes and returns their
    little-endian value, which the two padding bytes leave below 2^48.
    With fewer than six bytes it fails in the cursor and consumes
    nothing. *)
Theorem _read_table_id_value (s : state) :
  ((6 <= length (Packet.data (packet s)))%nat ->
   _read_table_id s
   = (Ok (le_int (take 6 (Packet.data (packet s)))),
      set_packet (Packet.consume 6 (packet s)) s)
   /\ 0 <= le_int (take 6 (Packet.data (packet s))) < 2 ^ 48)
  /\ ((length (Packet.data (packet s)) < 6)%nat ->
      _read_table_id s = (Err PacketError, s)).
Proof.
  split.
  - intros Hlen. unfold _read_table_id.
    assert (0 <= 6 <= Z.of_nat (length (Packet.data (packet s)))) as H6 by lia.
    rewrite (bind_ok _ _ _ _ _ (read_ok 6 s H6)).
    change (int2byte 0) with (Ok [x00] : result (list byte)).
    rewrite !(bind_ok _ _ _ _ _ (lift_ok _ _)).
    change (Z.to_nat 6) with 6%nat.
    set (b := take 6 (Packet.data (packet s))).
    assert (length b = 6%nat) as Hb by (subst b; rewrite length_take; lia).
    rewrite unpack_Q_ok by (rewrite !length_app, Hb; reflexivity).
    rewrite le_int_app. cbn [app le_int]. rewrite Z.mul_0_r, Z.add_0_r.
    split; [reflexivity|].
    pose proof (le_int_bound b) as Hbound. rewrite Hb in Hbound.
    change (256 ^ Z.of_nat 6) with (2 ^ 48) in Hbound. exact Hbound.
  - intros Hlen. unfold _read_table_id.
    rewrite (bind_err _ _ _ _ _ (read_err 6 s ltac:(lia))). reflexivity.
Qed.

(** *** Further properties: the GTID event *)

(** X3.  The commit flag of a decoded [GtidEvent] is true exactly when
    the first byte of the payload is 1; any other byte, zero or not,
    gives false. *)
Theorem GtidEvent_commit_flag (size : Z) (tm ctl : value)
    (kw : gmap string value) (s s' : state) (e : BinLogEvent) :
  GtidEvent_init size tm ctl kw s = (Ok e, s') ->
  exists b rest commit_flag sid gno h,
    Packet.data (packet s) = b :: rest
    /\ body e = GtidFields commit_flag sid gno h
    /\ (commit_flag = true <-> b = x01).
Proof.
  intros H. unfold GtidEvent_init in H. inv_run. subst.
  cbn [packet set_packet set_heap heap Packet.data Packet.consume] in *.
  destruct (Packet.data (packet s)) as [|b rest] eqn:Ed; [cbn in *; lia|].
  eexists b, rest, _, _, _, _. split; [reflexivity|].
  cbn [body set_body]. split; [reflexivity|].
  change (take (Z.to_nat 1) (b :: rest)) with [b]. cbn [le_int].
  destruct b; cbn; split; (reflexivity || discriminate).
Qed.

(** *** Further properties: XID and query events *)

(** X4.  A decoded [XidEvent] keeps the [only_schemas] value it was
    given, has for [xid] the little-endian value of the first eight
    bytes of the payload, whatever [event_size] says, and reports that
    value under ["xid"] in its dump. *)
Theorem XidEvent_xid (size : Z) (tm ctl : value)
    (kw : gmap string value) (s s' : state) (e : BinLogEvent) :
  XidEvent_init size tm ctl kw s = (Ok e, s') ->
  exists only_schemas h lh m s'',
    kw !! "only_schemas" = Some only_schemas
    /\ (8 <= length (Packet.data (packet s)))%nat
    /\ body e
       = XidFields only_schemas (le_int (take 8 (Packet.data (packet s)))) h
    /\ 0 <= le_int (take 8 (Packet.data (packet s))) < 2 ^ 64
    /\ dump e s' = (Ok (VDict lh, e), s'')
    /\ heap s'' !! lh = Some m
    /\ m !! "xid" = Some (VInt (le_int (take 8 (Packet.data (packet s))))).
Proof.
  intros H.
  assert (new XidEvent size tm ctl kw s = (Ok e, s')) as Hnew by exact H.
  destruct (new_decoded _ _ _ _ _ _ _ _ Hnew) as (Hdec & _ & _).
  assert (XidEvent <> RotateEvent) as Hc by done.
  pose proof (dump_returns_merged XidEvent e s' Hc Hdec) as Hd.
  unfold XidEvent_init in H. inv_run. subst.
  cbn [packet set_packet set_heap heap Packet.data Packet.consume] in *.
  cbn [own_items cls body set_body] in Hd.
  destruct Hd as (lh & s'' & Hrun & Hm).
  eexists _, _, lh, _, s''. split; [eassumption|].
  split; [lia|]. split; [reflexivity|]. split; [assumption|].
  split; [exact Hrun|]. split; [exact Hm|]. reflexivity.
Qed.

Lemma drop_post_header (d : list byte) :
  drop 4 (drop 4 d) = drop 8 d
  /\ drop 1 (drop 8 d) = drop 9 d
  /\ drop 2 (drop 9 d) = drop 11 d
  /\ drop 2 (drop 11 d) = drop 13 d.
Proof. rewrite !drop_drop. repeat split; reflexivity. Qed.

(** X5.  A decoded [QueryEvent] has consumed exactly [event_size] bytes:
    thirteen bytes of post-header, then the status variables and the
    schema at the lengths the post-header declares, one padding byte of
    any value, and the query text, which is the UTF-8 decoding of all
    the bytes left of the event. *)
Theorem QueryEvent_init_layout (size : Z) (tm ctl : value)
    (kw : gmap string value) (s s' : state) (e : BinLogEvent) :
  QueryEvent_init size tm ctl kw s = (Ok e, s') ->
  exists only_schemas post_header status_vars schema pad query_bytes query h,
    Packet.data (packet s)
    = post_header ++ status_vars ++ schema ++ [pad] ++ query_bytes
      ++ Packet.data (packet s')
    /\ length post_header = 13%nat
    /\ Z.of_nat (length status_vars)
       = declared_status_vars_length (Packet.data (packet s))
    /\ Z.of_nat (length schema)
       = declared_schema_length (Packet.data (packet s))
    /\ 13 + Z.of_nat (length status_vars) + Z.of_nat (length schema) + 1
       + Z.of_nat (length query_bytes) = size
    /\ utf8_codec py query_bytes = Some query
    /\ body e
       = QueryFields only_schemas
           (le_int (take 4 (Packet.data (packet s))))
           (le_int (take 4 (drop 4 (Packet.data (packet s)))))
           (declared_schema_length (Packet.data (packet s)))
           (le_int (take 2 (drop 9 (Packet.data (packet s)))))
           (declared_status_vars_length (Packet.data (packet s)))
           status_vars schema query h
    /\ Packet.read_bytes (packet s') = Packet.read_bytes (packet s) + size.
Proof.
  intros H. unfold QueryEvent_init in H. inv_run. subst.
  cbn [packet set_packet set_heap heap Packet.data Packet.consume
         Packet.read_bytes] in *.
  change (Z.to_nat 1) with 1%nat in *. change (Z.to_nat 2) with 2%nat in *.
  change (Z.to_nat 4) with 4%nat in *.
  set (d := Packet.data (packet s)) in *.
  destruct (drop_post_header d) as (E8 & E9 & E11 & E13).
  rewrite E8 in *. rewrite E9 in *. rewrite E11 in *. rewrite E13 in *.
  fold (declared_schema_length d) in *.
  fold (declared_status_vars_length d) in *.
  set (svl := declared_status_vars_length d) in *.
  set (sl := declared_schema_length d) in *.
  set (d6 := drop (Z.to_nat svl) (drop 13 d)) in *.
  remember (drop (Z.to_nat sl) d6) as d7 eqn:E7.
  destruct d7 as [|pad d8]; [cbn in *; lia|].
  cbn [drop] in *.
  match goal with
  | H : decode_with _ _ = Ok ?t |- _ =>
    unfold decode_with in H;
    destruct (utf8_codec py _) as [t'|] eqn:Hq; [|discriminate H];
    injection H as <-
  end.
  eexists _, (take 13 d), (take (Z.to_nat svl) (drop 13 d)),
    (take (Z.to_nat sl) d6), pad, _, _, _.
  split.
  { rewrite (take_drop _ d8). change ([pad] ++ d8) with (pad :: d8).
    rewrite E7, (take_drop _ d6). unfold d6.
    rewrite (take_drop _ (drop 13 d)), (take_drop 13 d). reflexivity. }
  split; [rewrite length_take; rewrite length_drop in *; lia|].
  split; [apply length_read; assumption|].
  split; [apply length_read; assumption|].
  split; [rewrite !length_read by assumption; lia|].
  split; [exact Hq|].
  split; [reflexivity|]. lia.
Qed.

(** *** Further properties: what a constructor consumes *)

Lemma consume_0 (p : Packet.t) : Packet.consume 0 p = p.
Proof.
  destruct p. unfold Packet.consume. cbn. f_equal. lia.
Qed.

Lemma consume_consume (a b : Z) (p : Packet.t) :
  0 <= a -> 0 <= b ->
  Packet.consume b (Packet.consume a p) = Packet.consume (a + b) p.
Proof.
  intros Ha Hb. unfold Packet.consume. cbn. f_equal; [lia|].
  rewrite drop_drop, Z2Nat.inj_add by lia. reflexivity.
Qed.

(** X6.  A constructor that returns has moved the cursor by
    [payload_read]: 25 bytes for a [GtidEvent] and 8 for an [XidEvent]
    whatever [event_size] says, none for a [FormatDescriptionEvent] or a
    [StopEvent], whose payload is left unread, and [event_size] bytes
    for the other classes.  The bytes were there to read. *)
Theorem new_consumes_payload (c : class) (size : Z) (tm ctl : value)
    (kw : gmap string value) (s s' : state) (e : BinLogEvent) :
  new c size tm ctl kw s = (Ok e, s') ->
  packet s' = Packet.consume (payload_read c size) (packet s)
  /\ 0 <= payload_read c size <= Z.of_nat (length (Packet.data (packet s))).
Proof.
  intros H. destruct c; cbn [new payload_read] in *.
  all: try unfold GtidEvent_init in H; try unfold RotateEvent_init in H;
    try unfold XidEvent_init in H; try unfold QueryEvent_init in H;
    try unfold NotImplementedEvent_init in H.
  all: inv_run; subst.
  all: cbn [packet set_packet set_heap heap] in *.
  all: repeat match goal with
       | H : context [Packet.data (Packet.consume _ _)] |- _ =>
         cbn [Packet.data Packet.consume] in H; rewrite ?length_drop in H
       end.
  all: cbn [Packet.consume Packet.read_bytes Packet.data] in *.
  all: repeat rewrite consume_consume by lia.
  all: rewrite ?consume_0.
  all: split; [f_equal; lia | lia].
Qed.

(** *** Further properties: how a constructor fails *)

Lemma decode_with_err (codec : list byte -> option string) (bs : list byte)
    (x : exn) :
  decode_with codec bs = Err x -> x = UnicodeDecodeError /\ codec bs = None.
Proof.
  unfold decode_with. destruct (codec bs); [discriminate|].
  intros [= <-]. auto.
Qed.

Lemma lift_err_inv {A} (r : result A) (s s' : state) (x : exn) :
  lift r s = (Err x, s') -> r = Err x /\ s' = s.
Proof. unfold lift. intros [= -> ->]. auto. Qed.

(** X7.  A constructor raises in one of four ways.  [TypeError]: a
    keyword is not one the base class declares, and nothing has been
    done.  [KeyError]: an [XidEvent] or a [QueryEvent] lacks
    [only_schemas], and no byte has been read.  [PacketError]: the
    cursor refused a read; [FormatDescriptionEvent] and [StopEvent]
    read nothing and cannot fail so.  [UnicodeDecodeError]: the name of
    a [RotateEvent] or the text of a [QueryEvent] does not decode.
    [struct.error] is never raised: what is unpacked has the width that
    was read.  A failed construction has changed no existing dict and
    no header field of the packet, but the cursor stays where the
    failure left it. *)
Theorem new_raises (c : class) (size : Z) (tm ctl : value)
    (kw : gmap string value) (s s' : state) (x : exn) :
  new c size tm ctl kw s = (Err x, s') ->
  (x = TypeError /\ ~ dom kw ⊆ init_keywords /\ s' = s)
  \/ (dom kw ⊆ init_keywords
      /\ (forall l, is_Some (heap s !! l) -> heap s' !! l = heap s !! l)
      /\ same_header (packet s) (packet s')
      /\ ((x = KeyError /\ (c = XidEvent \/ c = QueryEvent)
           /\ kw !! "only_schemas" = None /\ packet s' = packet s)
          \/ (x = PacketError
              /\ c <> FormatDescriptionEvent /\ c <> StopEvent)
          \/ (x = UnicodeDecodeError
              /\ (c = RotateEvent \/ c = QueryEvent)))).
Proof.
  intros H.
  destruct (decide (dom kw ⊆ init_keywords)) as [Hkw|Hkw].
  2: { left. destruct c; cbn [new] in H.
       all: try unfold GtidEvent_init in H; try unfold RotateEvent_init in H;
         try unfold XidEvent_init in H; try unfold QueryEvent_init in H;
         try unfold NotImplementedEvent_init in H.
       all: rewrite ?(bind_err _ _ _ _ _ (BinLogEvent_init_err _ _ _ _ _ _ Hkw))
              in H.
       all: rewrite ?BinLogEvent_init_err in H by done.
       all: injection H as <- <-; done. }
  right. split; [done|].
  assert (forall h : gmap loc (gmap string value),
            forall l, is_Some (h !! l) ->
                      <[fresh (dom h) := ∅]> h !! l = h !! l) as Hframe.
  { intros h l [d Hl]. apply lookup_insert_ne. intros <-.
    rewrite fresh_heap in Hl. discriminate. }
  destruct c; cbn [new] in H.
  all: try unfold GtidEvent_init in H; try unfold RotateEvent_init in H;
    try unfold XidEvent_init in H; try unfold QueryEvent_init in H;
    try unfold NotImplementedEvent_init in H.
  all: try (rewrite BinLogEvent_init_ok in H by done; discriminate H).
  all: rewrite (bind_ok _ _ _ _ _ (BinLogEvent_init_ok _ _ _ _ _ _ Hkw)) in H.
  all: inv_raise; inv_run; subst.
  all: repeat match goal with
       | H : read _ _ = (Err _, _) |- _ =>
         apply read_err_inv in H as (-> & ->)
       | H : advance _ _ = (Err _, _) |- _ =>
         apply advance_err_inv in H as (-> & ->)
       | H : kwarg _ _ _ = (Err _, _) |- _ =>
         apply kwarg_err_inv in H as (-> & -> & ?)
       | H : lift _ _ = (Err _, _) |- _ =>
         apply lift_err_inv in H as (? & ->)
       | H : decode_with _ _ = Err _ |- _ =>
         apply decode_with_err in H as (-> & _)
       end.
  all: cbn [packet set_packet set_heap heap Packet.data Packet.consume] in *.
  all: try match goal with
       | H : byte2int ?bs = Err _ |- _ =>
         rewrite (byte2int_read bs) in H by (rewrite length_take; lia);
         discriminate H
       | H : unpack_Q ?bs = Err _ |- _ =>
         rewrite (unpack_Q_ok bs) in H by (rewrite length_take; lia);
         discriminate H
       end.
  all: split; [apply Hframe|].
  all: split; [done|].
  all: try (left; split; [reflexivity|]; split; [auto|]; split; done).
  all: try (right; left; split; [reflexivity|]; split; discriminate).
  all: right; right; split; [reflexivity|]; auto.
Qed.

(** *** Further properties: the dicts a constructor creates *)

Lemma fresh_two_new (h : gmap loc (gmap string value)) :
  h !! fresh (dom h) = None
  /\ h !! fresh (dom (<[fresh (dom h) := ∅]> h)) = None.
Proof.
  split; [apply fresh_heap|].
  pose proof (fresh_heap (<[fresh (dom h) := ∅]> h)) as H.
  rewrite lookup_insert_ne in H; [done|].
  intros E. symmetry in E. by apply fresh_insert_ne in E.
Qed.

(** X8.  The dicts of a constructed event are new objects: distinct
    from one another, absent from the heap before the call, hence the
    dict of no event built earlier, and empty after it.  Every object
    that existed before the call is left as it was. *)
Theorem new_allocates_fresh (c : class) (size : Z) (tm ctl : value)
    (kw : gmap string value) (s s' : state) (e : BinLogEvent) :
  new c size tm ctl kw s = (Ok e, s') ->
  NoDup (dicts e)
  /\ (forall v, v ∈ dicts e ->
        exists l, v = VDict l /\ heap s !! l = None /\ heap s' !! l = Some ∅)
  /\ (forall l, is_Some (heap s !! l) -> heap s' !! l = heap s !! l).
Proof.
  intros H.
  destruct (fresh_two (heap s)) as (Hne & Hlh & Hlp).
  destruct (fresh_two_new (heap s)) as (Hnh & Hnp).
  destruct c; cbn [new] in H.
  all: try unfold GtidEvent_init in H; try unfold RotateEvent_init in H;
    try unfold XidEvent_init in H; try unfold QueryEvent_init in H;
    try unfold NotImplementedEvent_init in H.
  all: inv_run; subst.
  all: unfold dicts, private.
  all: cbn [packet set_packet set_heap heap body set_body hashes] in *.
  all: split;
    [repeat (apply NoDup_cons; split); try apply NoDup_nil_2;
     try apply not_elem_of_nil;
     try (intros Hin; apply elem_of_cons in Hin as [Hin|Hin];
          [congruence | by apply elem_of_nil in Hin])|].
  all: split.
  all: try (intros l [d Hl]; rewrite ?lookup_insert_ne; [done|..];
            intros <-; congruence).
  all: intros v Hv; repeat (apply elem_of_cons in Hv as [->|Hv]);
    try (by apply elem_of_nil in Hv); eexists; (split; [reflexivity|]);
    (split; [assumption|]); try assumption; apply lookup_insert_eq.
Qed.

(** *** Further properties: the filter keywords *)

Lemma BinLogEvent_init_insert (c : class) (size : Z) (tm ctl : value)
    (kw : gmap string value) (k : string) (v : value) :
  k ∈ init_keywords ->
  BinLogEvent_init c size tm ctl (<[k := v]> kw)
  = BinLogEvent_init c size tm ctl kw.
Proof.
  intros Hk. unfold BinLogEvent_init. rewrite dom_insert_L.
  assert ({[k]} ∪ dom kw ⊆ init_keywords <-> dom kw ⊆ init_keywords) as Hiff.
  { rewrite union_subseteq, <- elem_of_subseteq_singleton. tauto. }
  destruct (decide (dom kw ⊆ init_keywords)) as [H|H].
  - rewrite decide_True by (by apply Hiff). reflexivity.
  - rewrite decide_False by (by rewrite Hiff). reflexivity.
Qed.

Lemma new_insert (c : class) (size : Z) (tm ctl : value)
    (kw : gmap string value) (k : string) (v : value) :
  k ∈ init_keywords ->
  k <> "only_schemas" \/ (c <> XidEvent /\ c <> QueryEvent) ->
  new c size tm ctl (<[k := v]> kw) = new c size tm ctl kw.
Proof.
  intros Hk Hc. destruct c; cbn [new].
  all: unfold GtidEvent_init, RotateEvent_init, XidEvent_init, QueryEvent_init,
         NotImplementedEvent_init.
  all: rewrite BinLogEvent_init_insert by done.
  all: try reflexivity.
  all: destruct Hc as [Hc|[? ?]]; [|done].
  all: unfold kwarg; rewrite lookup_insert_ne by done; reflexivity.
Qed.

(** X9.  The keywords [only_tables] and [freeze_schema] change nothing:
    a constructor called with either, whatever its value, does what it
    does without it, for every class and every packet.  The same holds
    of [only_schemas] for the classes other than [XidEvent] and
    [QueryEvent], which do not look at it. *)
Theorem filter_keywords_inert (c : class) (size : Z) (tm ctl : value)
    (kw : gmap string value) (v : value) :
  new c size tm ctl (<["only_tables" := v]> kw) = new c size tm ctl kw
  /\ new c size tm ctl (<["freeze_schema" := v]> kw) = new c size tm ctl kw
  /\ (c <> XidEvent -> c <> QueryEvent ->
      new c size tm ctl (<["only_schemas" := v]> kw) = new c size tm ctl kw).
Proof.
  assert (forall k : string,
            k = "only_tables" \/ k = "only_schemas" \/ k = "freeze_schema" ->
            k ∈ init_keywords) as Hin.
  { intros k Hk. unfold init_keywords.
    rewrite !elem_of_union, !elem_of_singleton. tauto. }
  split; [|split].
  - apply new_insert; [apply Hin; auto | left; discriminate].
  - apply new_insert; [apply Hin; auto | left; discriminate].
  - intros H1 H2. apply new_insert; [apply Hin; auto | right; done].
Qed.

(** *** Further properties: iter_bytes_to_string run again *)

Lemma for_each_fixed {A} (xs : list A) (body : A -> M unit) (s : state) :
  (forall x, x ∈ xs -> body x s = (Ok tt, s)) ->
  for_each xs body s = (Ok tt, s).
Proof.
  induction xs as [|x xs IH]; intros H; [reflexivity|].
  cbn [for_each]. rewrite (bind_ok _ _ _ _ _ (H x ltac:(left))).
  apply IH. intros y Hy. apply H. by right.
Qed.

Lemma item_step_settled (call : value -> M unit) (n : nat) (l : loc)
    (s : state) (d : gmap string value) (k : string) (v : value) :
  heap s !! l = Some d -> d !! k = Some v -> value_settled (heap s) n v ->
  (forall l', value_settled (heap s) n (VDict l') ->
              call (VDict l') s = (Ok tt, s)) ->
  item_step call (VDict l) k s = (Ok tt, s).
Proof.
  intros Hl Hk Hv Hcall. unfold item_step.
  rewrite (bind_ok _ _ _ _ _ (getitem_ok _ _ _ _ _ Hl Hk)).
  destruct (is_dict v) eqn:Ev; cbn [negb].
  - destruct v; try discriminate.
    rewrite (bind_ok _ _ _ _ _ (getitem_ok _ _ _ _ _ Hl Hk)). by apply Hcall.
  - unfold try_except.
    rewrite (bind_ok _ _ _ _ _ (getitem_ok _ _ _ _ _ Hl Hk)).
    destruct (bytes_decode v) as [t|x] eqn:E.
    + exfalso. assert (conv v = v) as Hc by (destruct v; done).
      unfold conv in Hc. rewrite E in Hc. subst v. discriminate E.
    + rewrite (bind_err _ _ _ _ _ (lift_ok _ _)). reflexivity.
Qed.

(** A mapping in which nothing is left to convert is left as it is. *)
Lemma iter_bytes_to_string_at_settled (n : nat) (l : loc) (s : state) :
  settled (heap s) n l ->
  iter_bytes_to_string_at n (VDict l) s = (Ok (VDict l), s).
Proof.
  revert l. induction n as [|n IH]; intros l Hs.
  all: rewrite iter_bytes_to_string_at_unfold; cbn [is_dict].
  all: pose proof Hs as (d & Hl & Hd).
  all: rewrite (bind_ok _ _ _ _ _ (keys_ok _ _ _ Hl)).
  all: match goal with
       | |- context [for_each ?ks (item_step (nested_call ?m) _)] =>
         assert (for_each ks (item_step (nested_call m) (VDict l)) s
                 = (Ok tt, s)) as Hf;
         [apply for_each_fixed; intros k Hk;
          apply keys_elem in Hk as [v Hv];
          apply (item_step_settled _ m _ _ d k v Hl Hv);
          [exact (Hd k v Hv)|];
          intros l' Hl'; cbn in Hl'; try tauto;
          cbn [nested_call];
          rewrite (bind_ok _ _ _ _ _ (IH l' Hl')); reflexivity
         | rewrite (bind_ok _ _ _ _ _ Hf)]
       end.
  all: reflexivity.
Qed.

(** X10.  [iter_bytes_to_string] is idempotent: a second call on the
    mapping the first call returned returns it again and changes
    nothing, in the mapping or elsewhere. *)
Theorem iter_bytes_to_string_idempotent (hash : value) (s : state) :
  (forall l, hash = VDict l ->
             nested_within (heap s) (recursion_limit py) l) ->
  exists s',
    iter_bytes_to_string hash s = (Ok hash, s')
    /\ iter_bytes_to_string hash s' = (Ok hash, s').
Proof.
  intros Hn. unfold iter_bytes_to_string.
  destruct (is_dict hash) eqn:Hd.
  - destruct hash as [| | | | |l]; try discriminate.
    destruct (iter_bytes_to_string_at_ok _ l s (Hn l eq_refl))
      as (s' & Hrun & _ & Hs).
    exists s'. split; [exact Hrun|].
    by apply iter_bytes_to_string_at_settled.
  - exists s. rewrite iter_bytes_to_string_at_unfold, Hd. done.
Qed.

(** *** Further properties: nesting beyond the stack *)

Lemma closed_evolves (h h' : gmap loc (gmap string value)) :
  evolves h h' -> closed h -> closed h'.
Proof.
  intros He Hc l d' k l' Hl Hk.
  destruct (evolves_lookup_rev _ _ _ _ He Hl) as (d & Hl0 & Hdd').
  apply (dict_evolves_edge _ _ _ _ Hdd') in Hk.
  destruct (Hc l d k l' Hl0 Hk) as [d1 Hl1].
  destruct (evolves_lookup _ _ _ _ He Hl1) as (d1' & Hl1' & _). eauto.
Qed.

Lemma too_deep_evolves (h h' : gmap loc (gmap string value)) (n : nat)
    (l : loc) :
  evolves h h' -> too_deep h n l -> too_deep h' n l.
Proof.
  intros He. revert l.
  induction n as [|n IH]; intros l (d & k & l' & Hl & Hk & Hn);
    destruct (evolves_lookup _ _ _ _ He Hl) as (d' & Hl' & Hdd');
    apply (dict_evolves_edge _ _ _ _ Hdd') in Hk;
    exists d', k, l'; cbn in *; eauto.
Qed.

Lemma too_deep_not_nested (h : gmap loc (gmap string value)) (n : nat)
    (l : loc) :
  too_deep h n l -> ~ nested_within h n l.
Proof.
  revert l. induction n as [|n IH];
    intros l (d & k & l' & Hl & Hk & Hn) (d0 & Hl0 & Hd0);
    assert (d0 = d) as -> by congruence; specialize (Hd0 k l' Hk);
    cbn in *; [done | by eapply IH].
Qed.

Lemma self_nested_too_deep (h : gmap loc (gmap string value)) (n : nat)
    (l : loc) (d : gmap string value) (k : string) :
  h !! l = Some d -> d !! k = Some (VDict l) -> too_deep h n l.
Proof.
  intros Hl Hk. induction n as [|n IH]; exists d, k, l; cbn; auto.
Qed.

(** The loop body on an item that is no mapping: it returns, and at most
    converts the item. *)
Lemma item_step_scalar (call : value -> M unit) (l : loc) (s : state)
    (d : gmap string value) (k : string) (v : value) :
  heap s !! l = Some d -> d !! k = Some v -> is_dict v = false ->
  exists s', item_step call (VDict l) k s = (Ok tt, s') /\ gentle l s s'.
Proof.
  intros Hl Hk Hv. unfold item_step.
  rewrite (bind_ok _ _ _ _ _ (getitem_ok _ _ _ _ _ Hl Hk)).
  rewrite Hv. cbn [negb]. unfold try_except.
  rewrite (bind_ok _ _ _ _ _ (getitem_ok _ _ _ _ _ Hl Hk)).
  destruct (bytes_decode v) as [t|e] eqn:E.
  - rewrite (bind_ok _ _ _ _ _ (lift_ok _ _)).
    rewrite (setitem_ok _ _ _ _ _ Hl).
    eexists. split; [reflexivity|].
    split; [done|]. cbn [heap set_heap]. split.
    + apply (evolves_insert _ _ d); [done|]. intros k'.
      destruct (decide (k = k')) as [<-|Hne].
      * right. rewrite lookup_insert_eq, Hk. cbn. unfold conv.
        rewrite E. done.
      * left. by rewrite lookup_insert_ne.
    + intros x Hx. rewrite lookup_insert_ne; [done|].
      intros <-. apply Hx. constructor.
  - rewrite (bind_err _ _ _ _ _ (lift_ok _ _)).
    exists s. split; [done|]. apply gentle_refl.
Qed.

Section Outcome.

Variables (call : value -> M unit) (l : loc).

Hypothesis call_outcome :
  forall (l' : loc) (s : state),
    closed (heap s) -> is_Some (heap s !! l') ->
    exists r s', call (VDict l') s = (r, s') /\ gentle l' s s'
                 /\ (r = Ok tt \/ r = Err RecursionError).

Lemma item_step_outcome (s : state) (d : gmap string value) (k : string)
    (v : value) :
  closed (heap s) -> heap s !! l = Some d -> d !! k = Some v ->
  exists r s', item_step call (VDict l) k s = (r, s') /\ gentle l s s'
               /\ (r = Ok tt \/ r = Err RecursionError).
Proof.
  intros Hc Hl Hk. destruct (is_dict v) eqn:Hv.
  - destruct v; try discriminate. rename l0 into l'.
    destruct (call_outcome l' s Hc (Hc _ _ _ _ Hl Hk))
      as (r & s' & Hrun & Hg & Hr).
    exists r, s'. split; [|eauto using gentle_nested].
    unfold item_step.
    rewrite (bind_ok _ _ _ _ _ (getitem_ok _ _ _ _ _ Hl Hk)). cbn [is_dict negb].
    rewrite (bind_ok _ _ _ _ _ (getitem_ok _ _ _ _ _ Hl Hk)). exact Hrun.
  - destruct (item_step_scalar call l s d k v Hl Hk Hv) as (s' & Hrun & Hg).
    exists (Ok tt), s'. auto.
Qed.

Lemma for_each_outcome (ks : list string) (s : state) :
  closed (heap s) ->
  (forall k, k ∈ ks -> exists d, heap s !! l = Some d /\ is_Some (d !! k)) ->
  exists r s', for_each ks (item_step call (VDict l)) s = (r, s')
               /\ gentle l s s'
               /\ (r = Ok tt \/ r = Err RecursionError).
Proof.
  revert s. induction ks as [|k ks IH]; intros s Hc Hks.
  - exists (Ok tt), s. split; [done|]. split; [apply gentle_refl | auto].
  - destruct (Hks k) as (d & Hl & [v Hk]); [left|].
    destruct (item_step_outcome s d k v Hc Hl Hk)
      as (r1 & s1 & Hrun1 & Hg1 & [->| ->]).
    + pose proof Hg1 as (_ & He1 & _).
      destruct (IH s1) as (r2 & s2 & Hrun2 & Hg2 & Hr2).
      { eauto using closed_evolves. }
      { intros k' Hk'. destruct (Hks k') as (d0 & Hl0 & Hk0); [by right|].
        destruct (evolves_lookup _ _ _ _ He1 Hl0) as (d1 & Hl1 & Hdd1).
        eauto using dict_evolves_is_Some. }
      exists r2, s2. cbn [for_each]. rewrite (bind_ok _ _ _ _ _ Hrun1).
      eauto using gentle_trans.
    + exists (Err RecursionError), s1. cbn [for_each].
      rewrite (bind_err _ _ _ _ _ Hrun1). auto.
Qed.

Lemma for_each_raises (ks : list string) (s : state)
    (d : gmap string value) (k : string) (l' : loc) :
  k ∈ ks -> closed (heap s) ->
  (forall k, k ∈ ks -> exists d, heap s !! l = Some d /\ is_Some (d !! k)) ->
  heap s !! l = Some d -> d !! k = Some (VDict l') ->
  (forall s1, evolves (heap s) (heap s1) ->
     exists s2, call (VDict l') s1 = (Err RecursionError, s2)
                /\ gentle l' s1 s2) ->
  exists s', for_each ks (item_step call (VDict l)) s
             = (Err RecursionError, s')
             /\ gentle l s s'.
Proof.
  revert s d. induction ks as [|k0 ks IH]; intros s d Hin Hc Hks Hl Hk Hcall.
  { by apply elem_of_nil in Hin. }
  cbn [for_each]. destruct (decide (k0 = k)) as [->|Hne].
  - destruct (Hcall s (evolves_refl _)) as (s2 & Hrun & Hg).
    exists s2. split; [|eauto using gentle_nested].
    apply bind_err. unfold item_step.
    rewrite (bind_ok _ _ _ _ _ (getitem_ok _ _ _ _ _ Hl Hk)). cbn [is_dict negb].
    rewrite (bind_ok _ _ _ _ _ (getitem_ok _ _ _ _ _ Hl Hk)). exact Hrun.
  - apply elem_of_cons in Hin as [Hin|Hin]; [congruence|].
    destruct (Hks k0) as (d0 & Hl0 & [v0 Hk0]); [left|].
    destruct (item_step_outcome s d0 k0 v0 Hc Hl0 Hk0)
      as (r1 & s1 & Hrun1 & Hg1 & [->| ->]).
    + pose proof Hg1 as (_ & He1 & _).
      destruct (evolves_lookup _ _ _ _ He1 Hl) as (d1 & Hl1 & Hdd1).
      destruct (IH s1 d1) as (s2 & Hrun2 & Hg2); try done.
      { eauto using closed_evolves. }
      { intros k' Hk'. destruct (Hks k') as (d2 & Hl2 & Hk2); [by right|].
        assert (d2 = d) as -> by congruence.
        eauto using dict_evolves_is_Some. }
      { by apply (dict_evolves_edge _ _ _ _ Hdd1). }
      { intros s3 He3. apply Hcall. eauto using evolves_trans. }
      exists s2. rewrite (bind_ok _ _ _ _ _ Hrun1).
      eauto using gentle_trans.
    + exists s1. rewrite (bind_err _ _ _ _ _ Hrun1). auto.
Qed.

End Outcome.

Lemma iter_bytes_to_string_at_outcome (n : nat) (l : loc) (s : state) :
  closed (heap s) -> is_Some (heap s !! l) ->
  exists r s', iter_bytes_to_string_at n (VDict l) s = (r, s')
               /\ gentle l s s'
               /\ (r = Ok (VDict l) \/ r = Err RecursionError).
Proof.
  revert l s. induction n as [|n IH]; intros l s Hc [d Hl].
  all: rewrite iter_bytes_to_string_at_unfold; cbn [is_dict].
  all: rewrite (bind_ok _ _ _ _ _ (keys_ok _ _ _ Hl)).
  all: match goal with
       | |- context [nested_call ?m] =>
         destruct (for_each_outcome (nested_call m) l) with (s := s)
                    (ks := (map_to_list d).*1)
           as (r & s' & Hrun & Hg & [->| ->]);
         [| exact Hc | intros k Hk; apply keys_elem in Hk; eauto | |]
       end.
  all: try (intros l' s0 Hc0 H0; cbn [nested_call]).
  all: try (eexists _, s0; split; [reflexivity|];
            split; [apply gentle_refl | auto]).
  all: try (destruct (IH l' s0 Hc0 H0) as (r1 & s1 & Hrun1 & Hg1 & [->| ->]);
            [exists (Ok tt), s1; rewrite (bind_ok _ _ _ _ _ Hrun1); auto
            |exists (Err RecursionError), s1;
             rewrite (bind_err _ _ _ _ _ Hrun1); auto]).
  all: try (exists (Ok (VDict l)), s'; rewrite (bind_ok _ _ _ _ _ Hrun);
            auto).
  all: exists (Err RecursionError), s'; rewrite (bind_err _ _ _ _ _ Hrun);
    auto.
Qed.

Lemma iter_bytes_to_string_at_too_deep (n : nat) (l : loc) (s : state) :
  closed (heap s) -> too_deep (heap s) n l ->
  exists s', iter_bytes_to_string_at n (VDict l) s = (Err RecursionError, s')
             /\ gentle l s s'.
Proof.
  revert l s. induction n as [|n IH];
    intros l s Hc (d & k & l' & Hl & Hk & Hn).
  all: rewrite iter_bytes_to_string_at_unfold; cbn [is_dict].
  all: rewrite (bind_ok _ _ _ _ _ (keys_ok _ _ _ Hl)).
  all: match goal with
       | |- context [nested_call ?m] =>
         destruct (for_each_raises (nested_call m) l) with (s := s)
                    (ks := (map_to_list d).*1) (d := d) (k := k) (l' := l')
           as (s' & Hrun & Hg);
         [| apply keys_elem; eauto | exact Hc
          | intros k0 Hk0; apply keys_elem in Hk0; eauto
          | exact Hl | exact Hk | |]
       end.
  all: try (intros l0 s0 Hc0 H0; cbn [nested_call]).
  all: try (eexists _, s0; split; [reflexivity|];
            split; [apply gentle_refl | auto]).
  all: try (destruct (iter_bytes_to_string_at_outcome n l0 s0 Hc0 H0)
              as (r1 & s1 & Hrun1 & Hg1 & [->| ->]);
            [exists (Ok tt), s1; rewrite (bind_ok _ _ _ _ _ Hrun1); auto
            |exists (Err RecursionError), s1;
             rewrite (bind_err _ _ _ _ _ Hrun1); auto]).
  all: try (intros s1 He1; cbn [nested_call]).
  all: try (exists s1; split; [reflexivity | apply gentle_refl]).
  all: try (destruct (IH l' s1) as (s2 & Hrun2 & Hg2);
            [eauto using closed_evolves | eauto using too_deep_evolves|];
            exists s2; rewrite (bind_err _ _ _ _ _ Hrun2); auto).
  all: exists s'; rewrite (bind_err _ _ _ _ _ Hrun); auto.
Qed.

(** X11.  Where C10 stops: on a mapping whose nesting does not fit the
    interpreter's stack, a mapping nested in itself among them,
    [iter_bytes_to_string] raises [RecursionError].  The call is not
    undone: the items it converted before the error stay converted;
    nothing else is changed. *)
Theorem iter_bytes_to_string_too_deep (l : loc) (s : state) :
  closed (heap s) -> too_deep (heap s) (recursion_limit py) l ->
  ~ nested_within (heap s) (recursion_limit py) l
  /\ exists s',
       iter_bytes_to_string (VDict l) s = (Err RecursionError, s')
       /\ packet s' = packet s
       /\ evolves (heap s) (heap s')
       /\ (forall x, ~ reachable (heap s) l x -> heap s' !! x = heap s !! x).
Proof.
  intros Hc Hd. split; [by apply too_deep_not_nested|].
  destruct (iter_bytes_to_string_at_too_deep _ l s Hc Hd)
    as (s' & Hrun & Hp & He & Hf).
  exists s'. auto.
Qed.

(** *** Further properties: what dump reads and what it touches *)

Lemma decoded_same_header (c : class) (e : BinLogEvent) (s : state)
    (p : Packet.t) :
  same_header (packet s) p -> decoded c e s -> decoded c e (set_packet p s).
Proof.
  intros (_ & Ht & Hp & _) (Hcls & Hts & Hlp & H).
  split; [done|]. cbn [packet set_packet heap].
  split; [congruence|]. split; [congruence | exact H].
Qed.

(** X12.  [dump] reads the cursor when it is called, not when the event
    was built: after the packet has been read further, the dump of an
    event of a class other than [RotateEvent] reports under
    ["read_bytes"] the bytes consumed up to the call of [dump]. *)
Theorem dump_reads_cursor_late (c : class) (size : Z) (tm ctl : value)
    (kw : gmap string value) (s0 s : state) (e : BinLogEvent)
    (p : Packet.t) :
  new c size tm ctl kw s0 = (Ok e, s) -> c <> RotateEvent ->
  same_header (packet s) p ->
  match own_items e with
  | Ok items =>
    exists lh m s',
      dump e (set_packet p s) = (Ok (VDict lh, e), s')
      /\ heap s' !! lh = Some m
      /\ m !! "read_bytes" = Some (VInt (Packet.read_bytes p))
      /\ m !! "timestamp" = Some (VInt (Packet.timestamp (packet s0)))
  | Err x => exists s', dump e (set_packet p s) = (Err x, s')
  end.
Proof.
  intros Hnew Hc Hp.
  destruct (new_decoded _ _ _ _ _ _ _ _ Hnew) as (Hdec & _ & (_ & Hts0 & _)).
  pose proof Hdec as (_ & Hts & _).
  apply (decoded_same_header _ _ _ p Hp) in Hdec.
  pose proof (dump_returns_merged c e _ Hc Hdec) as H.
  destruct (own_items e) as [items|x] eqn:Hown; [|destruct H; done].
  destruct H as (lh & s' & Hd & Hm).
  eexists lh, _, s'. split; [exact Hd|]. split; [exact Hm|].
  cbn [packet set_packet]. rewrite <- Hts0, <- Hts.
  destruct (own_items_cases e items Hown)
    as [->|[(cf & g & ->)|[(xid & ->)|(sc & t & q & ->)]]];
    split; reflexivity.
Qed.

(** X13.  Whatever its outcome, [dump] on a decoded event leaves the
    packet as it is and changes no object but the event's own dicts.
    The [dump] of a [RotateEvent] does not touch [hashes], which stays
    empty. *)
Theorem dump_frame (c : class) (size : Z) (tm ctl : value)
    (kw : gmap string value) (s0 s s' : state) (e : BinLogEvent)
    (r : result (value * BinLogEvent)) :
  new c size tm ctl kw s0 = (Ok e, s) ->
  dump e s = (r, s') ->
  packet s' = packet s
  /\ (forall x, VDict x ∉ dicts e -> heap s' !! x = heap s !! x)
  /\ (c = RotateEvent ->
      exists lh, hashes e = VDict lh /\ heap s' !! lh = Some ∅).
Proof.
  intros Hnew Hrun.
  destruct (new_decoded _ _ _ _ _ _ _ _ Hnew) as (Hdec & _ & _).
  destruct (decide (c = RotateEvent)) as [->|Hc].
  - destruct (dump_decoded_rotate e s Hdec)
      as (pos & name & lp & Hb & Hpos & Hl & Hd).
    rewrite Hd in Hrun. injection Hrun as <- <-.
    split; [reflexivity|]. cbn [heap set_heap]. split.
    + intros x Hx. apply lookup_insert_ne. intros <-. apply Hx.
      unfold dicts, private. rewrite Hb. right. left.
    + intros _. destruct Hdec as (_ & _ & _ & lh & Hh & Hlh & Hbody).
      rewrite Hb in Hbody. destruct Hbody as (_ & lp' & [= <-] & Hne & _).
      exists lh. split; [done|]. by rewrite lookup_insert_ne.
  - destruct (dump_decoded c e s Hc Hdec) as (lh & Hh & Hl & Hd).
    split; [|split; [|done]].
    + destruct (own_items e) as [[|kv items]|x].
      * rewrite Hd in Hrun. by injection Hrun as <- <-.
      * destruct Hd as (lp & _ & _ & _ & Hd).
        rewrite Hd in Hrun. by injection Hrun as <- <-.
      * destruct Hd as [(_ & Hd)|(_ & lp & cf & sid & gno & _ & _ & _ & Hd)];
          rewrite Hd in Hrun; by injection Hrun as <- <-.
    + intros x Hx.
      assert (x <> lh) as Hxh.
      { intros ->. apply Hx. unfold dicts. rewrite Hh. left. }
      destruct (own_items e) as [[|kv items]|y].
      * rewrite Hd in Hrun. injection Hrun as <- <-. cbn [heap set_heap].
        by rewrite lookup_insert_ne.
      * destruct Hd as (lp & Hp & _ & _ & Hd).
        rewrite Hd in Hrun. injection Hrun as <- <-. cbn [heap set_heap].
        rewrite !lookup_insert_ne; [done| |done].
        intros ->. apply Hx. unfold dicts. rewrite Hp. right. left.
      * destruct Hd as [(_ & Hd)|(_ & lp & cf & sid & gno & Hb & _ & _ & Hd)];
          rewrite Hd in Hrun; injection Hrun as <- <-; cbn [heap set_heap].
        -- by rewrite lookup_insert_ne.
        -- rewrite !lookup_insert_ne; [done|..]; try done.
           intros ->. apply Hx. unfold dicts, private. rewrite Hb. right. left.
Qed.

(** X14.  The dump of a decoded [QueryEvent] turns on its schema alone.
    When the schema decodes, the dump returns and holds the decoded
    schema, the execution time and the query text.  When it does not,
    [dump] raises [UnicodeDecodeError] after it has stored the six
    shared items into [hashes], which keeps them; the private dict is
    still empty. *)
Theorem QueryEvent_dump_outcome (size : Z) (tm ctl : value)
    (kw : gmap string value) (s0 s : state) (e : BinLogEvent) :
  new QueryEvent size tm ctl kw s0 = (Ok e, s) ->
  exists only_schemas slave_proxy_id execution_time schema_length error_code
         status_vars_length status_vars schema query lh lp,
    body e = QueryFields only_schemas slave_proxy_id execution_time
               schema_length error_code status_vars_length status_vars
               schema query (VDict lp)
    /\ hashes e = VDict lh
    /\ match default_codec py schema with
       | Some t =>
         exists m s',
           dump e s = (Ok (VDict lh, e), s') /\ heap s' !! lh = Some m
           /\ m !! "schema" = Some (VText t)
           /\ m !! "execution_time" = Some (VInt execution_time)
           /\ m !! "query" = Some (VText query)
       | None =>
         exists s',
           dump e s = (Err UnicodeDecodeError, s')
           /\ heap s' !! lh = Some (envelope e (packet s) ∅)
           /\ heap s' !! lp = Some ∅
       end.
Proof.
  intros Hnew.
  destruct (new_decoded _ _ _ _ _ _ _ _ Hnew) as (Hdec & _ & _).
  assert (QueryEvent <> RotateEvent) as Hc by done.
  destruct (dump_decoded _ e s Hc Hdec) as (lh & Hh & Hl & Hd).
  destruct Hdec as (Hcls & _ & _ & lh' & Hh' & _ & Hb).
  assert (lh' = lh) as -> by congruence.
  destruct (body e) eqn:Eb; try done.
  destruct Hb as (_ & lp & -> & Hne & Hlp).
  eexists _, _, _, _, _, _, _, _, _, lh, lp.
  split; [reflexivity|]. split; [exact Hh|].
  unfold own_items in Hd. rewrite Hcls, Eb in Hd.
  cbn [bytes_decode] in Hd. unfold decode_with in Hd.
  destruct (default_codec py schema) as [t|].
  - destruct Hd as (lp' & _ & _ & _ & Hd).
    eexists _, _. split; [exact Hd|]. cbn [heap set_heap].
    split; [apply lookup_insert_eq|]. repeat split; reflexivity.
  - destruct Hd as [(_ & Hd)|(Hq & _)]; [|discriminate Hq].
    eexists. split; [exact Hd|].
    cbn [heap set_heap]. split; [apply lookup_insert_eq|].
    by rewrite lookup_insert_ne.
Qed.

(** *** Further properties: the GTID of a decoded event, end to end *)

(** X15.  What a decoded [GtidEvent] shows of its GTID turns on the
    interpreter.  Where a loop over a byte string yields strings of one
    character, the [gtid] property returns the text of C2, [__repr__]
    shows it between [<GtidEvent "] and [">], and [dump] returns it
    under ["gtid"], with the commit flag under ["commit_flag"].  Where
    the loop yields integers (Python 3), all three raise [TypeError];
    [dump] has by then stored the six shared items into [hashes] and the
    commit flag into the private dict, and leaves them there. *)
Theorem GtidEvent_gtid_shown (size : Z) (tm ctl : value)
    (kw : gmap string value) (s0 s : state) (e : BinLogEvent) :
  new GtidEvent size tm ctl kw s0 = (Ok e, s) ->
  exists commit_flag sid gno lp lh,
    body e = GtidFields commit_flag sid gno (VDict lp)
    /\ hashes e = VDict lh
    /\ if bytes_iter_ints py then
         gtid sid gno = Err TypeError
         /\ GtidEvent_repr e = Err TypeError
         /\ exists s',
              dump e s = (Err TypeError, s')
              /\ heap s' !! lh = Some (envelope e (packet s) ∅)
              /\ heap s' !! lp
                 = Some (<["commit_flag" := VBool commit_flag]> ∅)
       else
         gtid sid gno = Ok (gtid_text sid gno)
         /\ matches_gtid_pattern (gtid_text sid gno) = true
         /\ GtidEvent_repr e
            = Ok ("<GtidEvent " +:+ dquote +:+ gtid_text sid gno
                  +:+ dquote +:+ ">")
         /\ exists m s',
              dump e s = (Ok (VDict lh, e), s') /\ heap s' !! lh = Some m
              /\ m !! "gtid" = Some (VText (gtid_text sid gno))
              /\ m !! "commit_flag" = Some (VBool commit_flag).
Proof.
  intros Hnew.
  destruct (new_decoded _ _ _ _ _ _ _ _ Hnew) as (Hdec & _ & _).
  assert (GtidEvent <> RotateEvent) as Hc by done.
  destruct (dump_decoded _ e s Hc Hdec) as (lh & Hh & Hl & Hd).
  destruct Hdec as (Hcls & _ & _ & lh' & Hh' & _ & Hb).
  assert (lh' = lh) as -> by congruence.
  destruct (body e) eqn:Eb; try done.
  destruct Hb as (Hsid & Hgno & lp & -> & Hne & Hlp).
  pose proof (gtid_own_items e _ _ _ _ Hcls Eb) as Hown.
  exists commit_flag, sid, gno, lp, lh.
  split; [reflexivity|]. split; [exact Hh|].
  destruct (bytes_iter_ints py) eqn:Hpy.
  - pose proof (gtid_on_ints sid gno Hpy) as Hg.
    rewrite Hg in Hown. rewrite Hown in Hd.
    split; [exact Hg|].
    split; [unfold GtidEvent_repr; rewrite Eb, Hg; reflexivity|].
    destruct Hd as [(Hq & _)|(_ & lp' & cf & sid' & gno' & Hb' & _ & _ & Hd)];
      [discriminate Hq|].
    injection Hb' as <- <- <- <-.
    eexists. split; [exact Hd|]. cbn [heap set_heap].
    split; [|apply lookup_insert_eq].
    rewrite lookup_insert_ne by done. apply lookup_insert_eq.
  - pose proof (gtid_of_sid sid gno Hpy Hsid) as Hg.
    rewrite Hg in Hown. rewrite Hown in Hd.
    split; [exact Hg|].
    split; [apply gtid_text_matches; [done | lia]|].
    split; [unfold GtidEvent_repr; rewrite Eb, Hg; reflexivity|].
    destruct Hd as (lp' & _ & _ & _ & Hd).
    eexists _, _. split; [exact Hd|]. cbn [heap set_heap].
    split; [apply lookup_insert_eq|]. split; reflexivity.
Qed.

(** *** Further properties: the packets a constructor accepts *)

Lemma read_err_bound (n : Z) (s s' : state) (x : exn) :
  read n s = (Err x, s') ->
  ~ 0 <= n <= Z.of_nat (length (Packet.data (packet s))).
Proof. unfold read. case_decide; [discriminate | done]. Qed.

Lemma advance_err_bound (n : Z) (s s' : state) (x : exn) :
  advance n s = (Err x, s') ->
  ~ 0 <= n <= Z.of_nat (length (Packet.data (packet s))).
Proof. unfold advance. case_decide; [discriminate | done]. Qed.

Lemma decode_with_ok (codec : list byte -> option string) (bs : list byte)
    (t : string) :
  decode_with codec bs = Ok t -> codec bs = Some t.
Proof. unfold decode_with. destruct (codec bs); [congruence | discriminate]. Qed.

(** The failure of one statement of a constructor is turned into what
    it says of the keywords and of the packet. *)
Ltac inv_failure :=
  repeat match goal with
  | H : read _ _ = (Err _, _) |- _ => apply read_err_bound in H
  | H : advance _ _ = (Err _, _) |- _ => apply advance_err_bound in H
  | H : kwarg _ _ _ = (Err _, _) |- _ =>
    apply kwarg_err_inv in H as (_ & _ & H)
  | H : lift _ _ = (Err _, _) |- _ => apply lift_err_inv in H as (H & _)
  | H : decode_with _ _ = Err _ |- _ => apply decode_with_err in H as (_ & H)
  | H : decode_with _ _ = Ok _ |- _ => apply decode_with_ok in H
  end.

Lemma QueryEvent_init_succeeds_iff (size : Z) (tm ctl : value)
    (kw : gmap string value) (s : state) :
  (exists e s', QueryEvent_init size tm ctl kw s = (Ok e, s'))
  <-> decodable QueryEvent size kw (Packet.data (packet s)).
Proof.
  unfold decodable, query_text_bytes.
  pose proof (le_int_bound (take 2 (drop 11 (Packet.data (packet s)))))
    as Hsv.
  pose proof (le_int_bound (take 1 (drop 8 (Packet.data (packet s)))))
    as Hsl.
  fold (declared_status_vars_length (Packet.data (packet s))) in Hsv.
  fold (declared_schema_length (Packet.data (packet s))) in Hsl.
  destruct (drop_post_header (Packet.data (packet s)))
    as (E8 & E9 & E11 & E13).
  split.
  - intros (e & s' & H). unfold QueryEvent_init in H. inv_run. subst.
    inv_failure.
    cbn [packet set_packet set_heap heap Packet.data Packet.consume] in *.
    change (Z.to_nat 1) with 1%nat in *. change (Z.to_nat 2) with 2%nat in *.
    change (Z.to_nat 4) with 4%nat in *.
    rewrite E8 in *. rewrite E9 in *. rewrite E11 in *. rewrite E13 in *.
    fold (declared_schema_length (Packet.data (packet s))) in *.
    fold (declared_status_vars_length (Packet.data (packet s))) in *.
    rewrite !length_drop in *.
    split; [done|]. split; [eauto|]. split; [lia | eauto].
  - intros (Hkw & [v Hv] & Hsize & [t Ht]).
    destruct (QueryEvent_init size tm ctl kw s) as [[e|x] s'] eqn:H;
      [eauto|exfalso].
    unfold QueryEvent_init in H.
    rewrite (bind_ok _ _ _ _ _ (BinLogEvent_init_ok _ _ _ _ _ _ Hkw)) in H.
    inv_raise; inv_run; subst; inv_failure.
    all: cbn [packet set_packet set_heap heap Packet.data Packet.consume] in *.
    all: change (Z.to_nat 1) with 1%nat in *.
    all: change (Z.to_nat 2) with 2%nat in *.
    all: change (Z.to_nat 4) with 4%nat in *.
    all: rewrite ?E8 in *; rewrite ?E9 in *; rewrite ?E11 in *;
      rewrite ?E13 in *.
    all: fold (declared_schema_length (Packet.data (packet s))) in *.
    all: fold (declared_status_vars_length (Packet.data (packet s))) in *.
    all: rewrite ?length_drop in *.
    all: try congruence.
    all: try match goal with
         | H : byte2int ?bs = Err _ |- _ =>
           rewrite (byte2int_read bs) in H
             by (rewrite length_take, ?length_drop; lia);
           discriminate H
         end.
    all: lia.
Qed.

(** X16.  A constructor returns exactly on the packets [decodable]
    describes: with keywords the base class declares ([only_schemas]
    among them for [XidEvent] and [QueryEvent]), 25 bytes for a
    [GtidEvent], 8 for an [XidEvent], [event_size] bytes for the classes
    that read by it, with [event_size] no smaller than the fields read
    before the text, and a name or a query text that decodes.  A
    [FormatDescriptionEvent] and a [StopEvent] are built from any
    packet. *)
Theorem new_succeeds_iff (c : class) (size : Z) (tm ctl : value)
    (kw : gmap string value) (s : state) :
  (exists e s', new c size tm ctl kw s = (Ok e, s'))
  <-> decodable c size kw (Packet.data (packet s)).
Proof.
  destruct (decide (c = QueryEvent)) as [->|Hq];
    [apply QueryEvent_init_succeeds_iff|].
  unfold decodable. split.
  - intros (e & s' & H). destruct c; cbn [new] in H; try done.
    all: try unfold GtidEvent_init in H; try unfold RotateEvent_init in H;
      try unfold XidEvent_init in H; try unfold NotImplementedEvent_init in H.
    all: inv_run; subst; inv_failure.
    all: cbn [packet set_packet set_heap heap Packet.data Packet.consume] in *.
    all: rewrite ?length_drop in *.
    all: split; [done|].
    all: try change (Z.to_nat 8) with 8%nat in *.
    all: try done.
    all: try lia.
    all: split; [first [lia | eauto]|]; first [lia | eauto].
  - intros (Hkw & Hc).
    destruct (new c size tm ctl kw s) as [[e|x] s'] eqn:H; [eauto|exfalso].
    destruct c; cbn [new] in H; try done.
    all: try unfold GtidEvent_init in H; try unfold RotateEvent_init in H;
      try unfold XidEvent_init in H; try unfold NotImplementedEvent_init in H.
    all: try (rewrite BinLogEvent_init_ok in H by done; discriminate H).
    all: rewrite (bind_ok _ _ _ _ _ (BinLogEvent_init_ok _ _ _ _ _ _ Hkw)) in H.
    all: inv_raise; inv_run; subst; inv_failure.
    all: cbn [packet set_packet set_heap heap Packet.data Packet.consume] in *.
    all: rewrite ?length_drop in *.
    all: try change (Z.to_nat 8) with 8%nat in *.
    all: try match goal with
         | H : byte2int ?bs = Err _ |- _ =>
           rewrite (byte2int_read bs) in H
             by (rewrite length_take, ?length_drop; lia);
           discriminate H
         | H : unpack_Q ?bs = Err _ |- _ =>
           rewrite (unpack_Q_ok bs) in H
             by (rewrite length_take, ?length_drop; lia);
           discriminate H
         end.
    all: try (destruct Hc as (Hc1 & [t Ht]); first [lia | congruence]).
    all: try (destruct Hc as ([v Hv] & Hc2); first [lia | congruence]).
    all: lia.
Qed.

End Events.


(** ** The properties at concrete packets *)

(** *** What the constructors yield *)

Lemma gtid_decodes :
  new python3 GtidEvent 25 VNone VNone ∅ (start 33 gtid_payload)
  = (Ok decoded_gtid, example_state 33 gtid_payload 25 two_dicts).
Proof. vm_compute. reflexivity. Qed.

Lemma rotate_decodes :
  new python3 RotateEvent 24 VNone VNone ∅ (start 4 rotate_payload)
  = (Ok decoded_rotate, example_state 4 rotate_payload 24 two_dicts).
Proof. vm_compute. reflexivity. Qed.

Lemma xid_decodes :
  new python3 XidEvent 8 VNone VNone {[ "only_schemas" := VNone ]}
    (start 16 xid_payload)
  = (Ok decoded_xid, example_state 16 xid_payload 8 two_dicts).
Proof. vm_compute. reflexivity. Qed.

Lemma query_decodes :
  new python3 QueryEvent 30 VNone VNone {[ "only_schemas" := VNone ]}
    (start 2 query_payload)
  = (Ok decoded_query, example_state 2 query_payload 30 two_dicts).
Proof. vm_compute. reflexivity. Qed.

Lemma xid_dumps :
  dump python3 decoded_xid (example_state 16 xid_payload 8 two_dicts)
  = (Ok (VDict 1%positive, decoded_xid), xid_dumped).
Proof. vm_compute. reflexivity. Qed.

Lemma query_dumps :
  dumped (dump python3 decoded_query
            (example_state 2 query_payload 30 two_dicts))
  = Some {[ "class" := VText "QueryEvent";
            "timestamp" := VInt 1700000000;
            "log_pos" := VInt 120;
            "event_size" := VInt 30;
            "read_bytes" := VInt 49;
            "flags" := VInt 0;
            "schema" := VText "test";
            "execution_time" := VInt 2;
            "query" := VText "DROP TABLE t" ]}.
Proof. vm_compute. reflexivity. Qed.

Lemma gtid_dumps :
  dumped (dump python2 decoded_gtid
            (example_state 33 gtid_payload 25 two_dicts))
  = Some {[ "class" := VText "GtidEvent";
            "timestamp" := VInt 1700000000;
            "log_pos" := VInt 120;
            "event_size" := VInt 25;
            "read_bytes" := VInt 44;
            "flags" := VInt 0;
            "commit_flag" := VBool true;
            "gtid" := VText "3e11fa47-71ca-11e1-9e33-c80aa9429562:23" ]}.
Proof. vm_compute. reflexivity. Qed.

Lemma gtid_dump_raises :
  dump python3 decoded_gtid (example_state 33 gtid_payload 25 two_dicts)
  = (Err TypeError,
     example_state 33 gtid_payload 25
       {[ 1%positive := gtid_envelope;
          2%positive := {[ "commit_flag" := VBool true ]} ]}).
Proof. vm_compute. reflexivity. Qed.

Lemma bad_query_decodes :
  new python3 QueryEvent 23 VNone VNone {[ "only_schemas" := VNone ]}
    (start 2 bad_schema_payload)
  = (Ok decoded_bad_query, example_state 2 bad_schema_payload 23 two_dicts).
Proof. vm_compute. reflexivity. Qed.

Lemma bad_query_dump_raises :
  dump python3 decoded_bad_query
    (example_state 2 bad_schema_payload 23 two_dicts)
  = (Err UnicodeDecodeError,
     example_state 2 bad_schema_payload 23
       {[ 1%positive := bad_query_envelope; 2%positive := ∅ ]}).
Proof. vm_compute. reflexivity. Qed.

(** The example mapping after [iter_bytes_to_string]: the bytes that
    decode are text, in the nested mapping too; the bytes that do not
    decode, the text and the integer are as they were. *)
Lemma example_heap_converted :
  iter_bytes_to_string python3 (VDict 1%positive)
    {| packet := example_packet 0 []; heap := example_heap |}
  = (Ok (VDict 1%positive),
     {| packet := example_packet 0 [];
        heap :=
          {[ 1%positive := {[ "name" := VText "binlog";
                              "raw" := VBytes [xff; xfe];
                              "text" := VText "kept";
                              "count" := VInt 7;
                              "inner" := VDict 2%positive ]};
             2%positive := {[ "schema" := VText "test" ]} ]} |}).
Proof. vm_compute. reflexivity. Qed.

Lemma example_heap_nested :
  nested_within example_heap (recursion_limit python3) 1%positive.
Proof.
  change (recursion_limit python3) with (S 996).
  eexists. split; [reflexivity|]. intros k l' Hk.
  repeat (rewrite lookup_insert in Hk; case_decide; simplify_eq).
  rewrite lookup_singleton in Hk. case_decide; simplify_eq.
  apply (nested_within_flat _ _ _ {[ "schema" := VBytes (list_byte_of_string "test") ]});
    [reflexivity|].
  intros k' v Hk'. rewrite lookup_singleton in Hk'.
  case_decide; simplify_eq. reflexivity.
Qed.

(** *** The claims at these packets *)

(** The payload declares [L_status = 5] and [L_schema = 0] with
    [event_size = 13]: decoding fails in the cursor, with
    [PacketError], which is no [MalformedPayload]. *)
Lemma QueryEvent_short_packet_error :
  declared_status_vars_length short_query_payload = 5
  /\ declared_schema_length short_query_payload = 0
  /\ 13 + 5 + 0 + 1 > 13
  /\ (QueryEvent_init python3 13 VNone VNone {[ "only_schemas" := VNone ]}
        (start 2 short_query_payload)).1 = Err PacketError
  /\ is_malformed_payload PacketError = false.
Proof. repeat split; vm_compute; reflexivity. Qed.

Lemma QueryEvent_inconsistent_lengths_witness :
  exists x s',
    QueryEvent_init python3 13 VNone VNone {[ "only_schemas" := VNone ]}
      (start 2 short_query_payload) = (Err x, s')
    /\ is_malformed_payload x = false
    /\ (x = PacketError
        \/ (x = KeyError
            /\ ({[ "only_schemas" := VNone ]} : gmap string value)
               !! "only_schemas" = None)
        \/ (x = TypeError
            /\ ~ dom ({[ "only_schemas" := VNone ]} : gmap string value)
                 ⊆ init_keywords)).
Proof.
  apply (QueryEvent_inconsistent_lengths python3). vm_compute. reflexivity.
Defined.



(** Position 4 and the name [mysql-bin.000002], [event_size = 24]. *)
Lemma RotateEvent_init_layout_witness :
  exists position_bytes next_binlog_bytes next_binlog h,
    rotate_payload = position_bytes ++ next_binlog_bytes ++ []
    /\ length position_bytes = 8%nat
    /\ body decoded_rotate
       = RotateFields (le_int position_bytes) next_binlog h
    /\ 0 <= le_int position_bytes < 2 ^ 64
    /\ Z.of_nat (length next_binlog_bytes) = 24 - 8
    /\ decode_with utf8_decode next_binlog_bytes = Ok next_binlog
    /\ 8 + Z.of_nat (length next_binlog_bytes) = 24.
Proof.
  apply (proj1 (RotateEvent_init_layout python3 24 VNone VNone ∅
                  (start 4 rotate_payload))
           decoded_rotate (example_state 4 rotate_payload 24 two_dicts)).
  exact rotate_decodes.
Defined.

(** The dump of a decoded [RotateEvent] has four items, none of them
    [log_pos], [event_size], [read_bytes] or [flags]; and the dump of a
    decoded [QueryEvent] whose schema does not decode is no mapping:
    [dump] raises. *)
Lemma RotateEvent_dump_lacks_envelope :
  (dumped (bind (new python3 RotateEvent 24 VNone VNone ∅) (dump python3)
             (start 4 rotate_payload))
   = Some {[ "class" := VText "RotateEvent";
             "position" := VInt 4;
             "next_binlog" := VText "mysql-bin.000002";
             "timestamp" := VInt 1700000000 ]}
   /\ ({[ "class" := VText "RotateEvent";
          "position" := VInt 4;
          "next_binlog" := VText "mysql-bin.000002";
          "timestamp" := VInt 1700000000 ]} : gmap string value)
      !! "log_pos" = None)
  /\ (new python3 QueryEvent 23 VNone VNone {[ "only_schemas" := VNone ]}
        (start 2 bad_schema_payload)
      = (Ok decoded_bad_query,
         example_state 2 bad_schema_payload 23 two_dicts)
      /\ (dump python3 decoded_bad_query
            (example_state 2 bad_schema_payload 23 two_dicts)).1
         = Err UnicodeDecodeError).
Proof. repeat split; vm_compute; reflexivity. Qed.

(** An [XidEvent] with transaction identifier 42. *)
Lemma dump_envelope_and_own_fields_witness :
  (forall items,
     own_items python3 decoded_xid = Ok items ->
     exists lh m s',
       dump python3 decoded_xid (example_state 16 xid_payload 8 two_dicts)
       = (Ok (VDict lh, decoded_xid), s')
       /\ heap s' !! lh = Some m
       /\ m = store items ∅
              ∪ envelope decoded_xid
                  (packet (example_state 16 xid_payload 8 two_dicts)) ∅
       /\ m !! "class" = Some (VText (class_name XidEvent))
       /\ m !! "timestamp"
          = Some (VInt (Packet.timestamp
                          (packet (example_state 16 xid_payload 8 two_dicts))))
       /\ m !! "log_pos"
          = Some (VInt (Packet.log_pos
                          (packet (example_state 16 xid_payload 8 two_dicts))))
       /\ m !! "event_size" = Some (VInt 8)
       /\ m !! "read_bytes"
          = Some (VInt (Packet.read_bytes
                          (packet (example_state 16 xid_payload 8 two_dicts))))
       /\ m !! "flags"
          = Some (VInt (Packet.flags
                          (packet (example_state 16 xid_payload 8 two_dicts))))
       /\ Forall (fun kv => m !! kv.1 = Some kv.2) items)
  /\ ((exists items, own_items python3 decoded_xid = Ok items)
      <-> (exists h s1,
             _dump python3 decoded_xid
               (example_state 16 xid_payload 8 two_dicts) = (Ok h, s1)))
  /\ (XidEvent = FormatDescriptionEvent \/ XidEvent = StopEvent
      \/ XidEvent = XidEvent \/ XidEvent = NotImplementedEvent ->
      exists items, own_items python3 decoded_xid = Ok items).
Proof.
  apply (dump_envelope_and_own_fields python3 XidEvent 8 VNone VNone
           {[ "only_schemas" := VNone ]} (start 16 xid_payload)
           (example_state 16 xid_payload 8 two_dicts) decoded_xid).
  - exact xid_decodes.
  - discriminate.
Defined.




(** A type code that names no class, [event_size = 10]: the event is
    constructed, ten bytes are consumed, and the dump has the six shared
    items. *)
Lemma NotImplementedEvent_skips_witness :
  exists e s' lh m s'',
    NotImplementedEvent_init 10 VNone VNone ∅ (start 200 unknown_payload)
    = (Ok e, s')
    /\ Packet.read_bytes (packet s') = 19 + 10
    /\ Packet.data (packet s') = drop 10 unknown_payload
    /\ body e = NoFields
    /\ own_items python3 e = Ok []
    /\ dump python3 e s' = (Ok (VDict lh, e), s'')
    /\ heap s'' !! lh = Some m
    /\ m = {[ "class" := VText "NotImplementedEvent";
              "timestamp" := VInt 1700000000;
              "log_pos" := VInt 120;
              "event_size" := VInt 10;
              "read_bytes" := VInt (19 + 10);
              "flags" := VInt 0 ]}
    /\ dom m = {[ "class"; "timestamp"; "log_pos"; "event_size";
                  "read_bytes"; "flags" ]}.
Proof.
  apply (proj2 (NotImplementedEvent_skips python3 10 VNone VNone ∅
                  (start 200 unknown_payload))); [done | cbn; lia].
Defined.

(** The dump of the decoded rotate event, and that of the decoded XID
    event, which has [read_bytes] and [flags]. *)
Lemma RotateEvent_dump_shape_witness :
  (exists position next_binlog lp m s',
     body decoded_rotate = RotateFields position next_binlog (VDict lp)
     /\ dump python3 decoded_rotate
          (example_state 4 rotate_payload 24 two_dicts)
        = (Ok (VDict lp, decoded_rotate), s')
     /\ heap s' !! lp = Some m
     /\ m = {[ "class" := VText "RotateEvent";
               "position" := VInt position;
               "next_binlog" := VText next_binlog;
               "timestamp" := VInt 1700000000 ]}
     /\ dom m = {[ "class"; "position"; "next_binlog"; "timestamp" ]}
     /\ m !! "read_bytes" = None /\ m !! "flags" = None
     /\ m !! "log_pos" = None /\ m !! "event_size" = None)
  /\ (exists l m,
        VDict 1%positive = VDict l /\ heap xid_dumped !! l = Some m
        /\ m !! "read_bytes" = Some (VInt 27)
        /\ m !! "flags" = Some (VInt 0)).
Proof.
  split.
  - apply (proj1 (RotateEvent_dump_shape python3) 24 VNone VNone ∅
             (start 4 rotate_payload)).
    exact rotate_decodes.
  - apply (proj2 (RotateEvent_dump_shape python3) XidEvent 8 VNone VNone
             {[ "only_schemas" := VNone ]} (start 16 xid_payload)
             (example_state 16 xid_payload 8 two_dicts) xid_dumped
             decoded_xid decoded_xid (VDict 1%positive)).
    + discriminate.
    + exact xid_decodes.
    + exact xid_dumps.
Defined.

(** Without the keyword both constructors raise [KeyError] and read
    nothing; with it, [VNone] and a text value give the same events. *)
Lemma only_schemas_required_and_inert_witness :
  ((exists x s',
      XidEvent_init 8 VNone VNone ∅ (start 16 xid_payload) = (Err x, s')
      /\ (x = KeyError \/ x = TypeError)
      /\ packet s' = packet (start 16 xid_payload))
   /\ (exists x s',
         QueryEvent_init python3 30 VNone VNone ∅ (start 2 query_payload)
         = (Err x, s')
         /\ (x = KeyError \/ x = TypeError)
         /\ packet s' = packet (start 2 query_payload)))
  /\ but_only_schemas
       (XidEvent_init 8 VNone VNone {[ "only_schemas" := VNone ]}
          (start 16 xid_payload))
     = but_only_schemas
         (XidEvent_init 8 VNone VNone {[ "only_schemas" := VText "test" ]}
            (start 16 xid_payload)).
Proof.
  split.
  - split.
    + exact (proj1 (proj1 (only_schemas_required_and_inert python3 8 VNone
                             VNone ∅ (start 16 xid_payload))
                      (lookup_empty _))).
    + exact (proj2 (proj1 (only_schemas_required_and_inert python3 30 VNone
                             VNone ∅ (start 2 query_payload))
                      (lookup_empty _))).
  - exact (proj1 (proj2 (only_schemas_required_and_inert python3 8 VNone
                           VNone ∅ (start 16 xid_payload))
                    VNone (VText "test"))).
Defined.

(** A mapping that holds itself: the call raises [RecursionError]. *)
Lemma iter_bytes_to_string_raises_on_self_nested :
  self_heap !! 1%positive = Some {[ "self" := VDict 1%positive ]}
  /\ iter_bytes_to_string python3 (VDict 1%positive)
       {| packet := example_packet 0 []; heap := self_heap |}
     = (Err RecursionError,
        {| packet := example_packet 0 []; heap := self_heap |}).
Proof. split; vm_compute; reflexivity. Qed.

(** The example mapping, whose nesting is two deep. *)
Lemma iter_bytes_to_string_never_raises_witness :
  exists s',
    iter_bytes_to_string python3 (VDict 1%positive)
      {| packet := example_packet 0 []; heap := example_heap |}
    = (Ok (VDict 1%positive), s')
    /\ packet s' = example_packet 0 []
    /\ (forall l x d,
          VDict 1%positive = VDict l -> reachable example_heap l x ->
          example_heap !! x = Some d ->
          heap s' !! x = Some (conv python3 <$> d))
    /\ (forall x,
          (forall l, VDict 1%positive = VDict l ->
                     ~ reachable example_heap l x) ->
          heap s' !! x = example_heap !! x).
Proof.
  apply (iter_bytes_to_string_never_raises python3 (VDict 1%positive)
           {| packet := example_packet 0 []; heap := example_heap |}).
  intros l [= <-]. exact example_heap_nested.
Defined.

(** *** The further properties at these packets *)

Lemma short_query_fails :
  new python3 QueryEvent 13 VNone VNone {[ "only_schemas" := VNone ]}
    (start 2 short_query_payload)
  = (Err PacketError, short_query_failed).
Proof. vm_compute. reflexivity. Qed.

Lemma rotate_dumps :
  dump python3 decoded_rotate (example_state 4 rotate_payload 24 two_dicts)
  = (Ok (VDict 2%positive, decoded_rotate), rotate_dumped).
Proof. vm_compute. reflexivity. Qed.

Lemma self_heap_closed : closed self_heap.
Proof.
  intros l d k l' Hl Hk. unfold self_heap in *.
  rewrite lookup_singleton in Hl. case_decide; simplify_eq.
  rewrite lookup_singleton in Hk. case_decide; simplify_eq.
  rewrite lookup_singleton, decide_True by done. eauto.
Qed.

(** The first byte of [gtid_payload] is 1, and the commit flag true. *)
Lemma GtidEvent_commit_flag_witness :
  exists b rest commit_flag sid gno h,
    Packet.data (packet (start 33 gtid_payload)) = b :: rest
    /\ body decoded_gtid = GtidFields commit_flag sid gno h
    /\ (commit_flag = true <-> b = x01).
Proof.
  apply (GtidEvent_commit_flag 25 VNone VNone ∅ (start 33 gtid_payload)
           (example_state 33 gtid_payload 25 two_dicts) decoded_gtid).
  exact gtid_decodes.
Defined.

(** Transaction identifier 42, kept and dumped. *)
Lemma XidEvent_xid_witness :
  exists only_schemas h lh m s'',
    ({[ "only_schemas" := VNone ]} : gmap string value) !! "only_schemas"
    = Some only_schemas
    /\ (8 <= length (Packet.data (packet (start 16 xid_payload))))%nat
    /\ body decoded_xid
       = XidFields only_schemas
           (le_int (take 8 (Packet.data (packet (start 16 xid_payload))))) h
    /\ 0 <= le_int (take 8 (Packet.data (packet (start 16 xid_payload))))
       < 2 ^ 64
    /\ dump python3 decoded_xid (example_state 16 xid_payload 8 two_dicts)
       = (Ok (VDict lh, decoded_xid), s'')
    /\ heap s'' !! lh = Some m
    /\ m !! "xid"
       = Some (VInt (le_int (take 8 (Packet.data
                                       (packet (start 16 xid_payload)))))).
Proof.
  apply (XidEvent_xid python3 8 VNone VNone {[ "only_schemas" := VNone ]}
           (start 16 xid_payload) (example_state 16 xid_payload 8 two_dicts)
           decoded_xid).
  exact xid_decodes.
Defined.

(** The query [DROP TABLE t] on schema [test]: 13 + 0 + 4 + 1 + 12
    bytes. *)
Lemma QueryEvent_init_layout_witness :
  exists only_schemas post_header status_vars schema pad query_bytes query h,
    Packet.data (packet (start 2 query_payload))
    = post_header ++ status_vars ++ schema ++ [pad] ++ query_bytes
      ++ Packet.data (packet (example_state 2 query_payload 30 two_dicts))
    /\ length post_header = 13%nat
    /\ Z.of_nat (length status_vars)
       = declared_status_vars_length
           (Packet.data (packet (start 2 query_payload)))
    /\ Z.of_nat (length schema)
       = declared_schema_length (Packet.data (packet (start 2 query_payload)))
    /\ 13 + Z.of_nat (length status_vars) + Z.of_nat (length schema) + 1
       + Z.of_nat (length query_bytes) = 30
    /\ utf8_codec python3 query_bytes = Some query
    /\ body decoded_query
       = QueryFields only_schemas
           (le_int (take 4 (Packet.data (packet (start 2 query_payload)))))
           (le_int (take 4 (drop 4 (Packet.data
                                      (packet (start 2 query_payload))))))
           (declared_schema_length
              (Packet.data (packet (start 2 query_payload))))
           (le_int (take 2 (drop 9 (Packet.data
                                      (packet (start 2 query_payload))))))
           (declared_status_vars_length
              (Packet.data (packet (start 2 query_payload))))
           status_vars schema query h
    /\ Packet.read_bytes (packet (example_state 2 query_payload 30 two_dicts))
       = Packet.read_bytes (packet (start 2 query_payload)) + 30.
Proof.
  apply (QueryEvent_init_layout python3 30 VNone VNone
           {[ "only_schemas" := VNone ]} (start 2 query_payload)
           (example_state 2 query_payload 30 two_dicts) decoded_query).
  exact query_decodes.
Defined.

(** The GTID event has consumed its 25 bytes. *)
Lemma new_consumes_payload_witness :
  packet (example_state 33 gtid_payload 25 two_dicts)
  = Packet.consume (payload_read GtidEvent 25)
      (packet (start 33 gtid_payload))
  /\ 0 <= payload_read GtidEvent 25
     <= Z.of_nat (length (Packet.data (packet (start 33 gtid_payload)))).
Proof.
  apply (new_consumes_payload python3 GtidEvent 25 VNone VNone ∅
           (start 33 gtid_payload)
           (example_state 33 gtid_payload 25 two_dicts) decoded_gtid).
  exact gtid_decodes.
Defined.

(** The short query packet: [PacketError], after the post-header has
    been consumed. *)
Lemma new_raises_witness :
  (PacketError = TypeError
   /\ ~ dom ({[ "only_schemas" := VNone ]} : gmap string value)
        ⊆ init_keywords
   /\ short_query_failed = start 2 short_query_payload)
  \/ (dom ({[ "only_schemas" := VNone ]} : gmap string value) ⊆ init_keywords
      /\ (forall l, is_Some (heap (start 2 short_query_payload) !! l) ->
            heap short_query_failed !! l
            = heap (start 2 short_query_payload) !! l)
      /\ same_header (packet (start 2 short_query_payload))
           (packet short_query_failed)
      /\ ((PacketError = KeyError
           /\ (QueryEvent = XidEvent \/ QueryEvent = QueryEvent)
           /\ ({[ "only_schemas" := VNone ]} : gmap string value)
              !! "only_schemas" = None
           /\ packet short_query_failed
              = packet (start 2 short_query_payload))
          \/ (PacketError = PacketError
              /\ QueryEvent <> FormatDescriptionEvent
              /\ QueryEvent <> StopEvent)
          \/ (PacketError = UnicodeDecodeError
              /\ (QueryEvent = RotateEvent \/ QueryEvent = QueryEvent)))).
Proof.
  apply (new_raises python3 QueryEvent 13 VNone VNone
           {[ "only_schemas" := VNone ]} (start 2 short_query_payload)
           short_query_failed PacketError).
  exact short_query_fails.
Defined.

(** The two dicts of the GTID event. *)
Lemma new_allocates_fresh_witness :
  NoDup (dicts decoded_gtid)
  /\ (forall v, v ∈ dicts decoded_gtid ->
        exists l, v = VDict l /\ heap (start 33 gtid_payload) !! l = None
                  /\ heap (example_state 33 gtid_payload 25 two_dicts) !! l
                     = Some ∅)
  /\ (forall l, is_Some (heap (start 33 gtid_payload) !! l) ->
        heap (example_state 33 gtid_payload 25 two_dicts) !! l
        = heap (start 33 gtid_payload) !! l).
Proof.
  apply (new_allocates_fresh python3 GtidEvent 25 VNone VNone ∅
           (start 33 gtid_payload)
           (example_state 33 gtid_payload 25 two_dicts) decoded_gtid).
  exact gtid_decodes.
Defined.

(** The example mapping, converted once and for all. *)
Lemma iter_bytes_to_string_idempotent_witness :
  exists s',
    iter_bytes_to_string python3 (VDict 1%positive)
      {| packet := example_packet 0 []; heap := example_heap |}
    = (Ok (VDict 1%positive), s')
    /\ iter_bytes_to_string python3 (VDict 1%positive) s'
       = (Ok (VDict 1%positive), s').
Proof.
  apply (iter_bytes_to_string_idempotent python3 (VDict 1%positive)
           {| packet := example_packet 0 []; heap := example_heap |}).
  intros l [= <-]. exact example_heap_nested.
Defined.

(** The mapping that holds itself. *)
Lemma iter_bytes_to_string_too_deep_witness :
  ~ nested_within self_heap (recursion_limit python3) 1%positive
  /\ exists s',
       iter_bytes_to_string python3 (VDict 1%positive)
         {| packet := example_packet 0 []; heap := self_heap |}
       = (Err RecursionError, s')
       /\ packet s' = example_packet 0 []
       /\ evolves python3 self_heap (heap s')
       /\ (forall x, ~ reachable self_heap 1%positive x ->
             heap s' !! x = self_heap !! x).
Proof.
  apply (iter_bytes_to_string_too_deep python3 1%positive
           {| packet := example_packet 0 []; heap := self_heap |}).
  - exact self_heap_closed.
  - apply (self_nested_too_deep self_heap _ 1%positive
             {[ "self" := VDict 1%positive ]} "self"); reflexivity.
Defined.

(** The XID event dumped after four more bytes were consumed:
    [read_bytes] is 19 + 8 + 4. *)
Lemma dump_reads_cursor_late_witness :
  match own_items python3 decoded_xid with
  | Ok items =>
    exists lh m s',
      dump python3 decoded_xid
        (set_packet xid_packet_later
           (example_state 16 xid_payload 8 two_dicts))
      = (Ok (VDict lh, decoded_xid), s')
      /\ heap s' !! lh = Some m
      /\ m !! "read_bytes" = Some (VInt (Packet.read_bytes xid_packet_later))
      /\ m !! "timestamp"
         = Some (VInt (Packet.timestamp (packet (start 16 xid_payload))))
  | Err x =>
    exists s',
      dump python3 decoded_xid
        (set_packet xid_packet_later
           (example_state 16 xid_payload 8 two_dicts))
      = (Err x, s')
  end.
Proof.
  apply (dump_reads_cursor_late python3 XidEvent 8 VNone VNone
           {[ "only_schemas" := VNone ]} (start 16 xid_payload)
           (example_state 16 xid_payload 8 two_dicts) decoded_xid
           xid_packet_later).
  - exact xid_decodes.
  - discriminate.
  - repeat split; reflexivity.
Defined.

(** The dump of the rotate event: the packet is as it was, and [hashes]
    is still empty. *)
Lemma dump_frame_witness :
  packet rotate_dumped = packet (example_state 4 rotate_payload 24 two_dicts)
  /\ (forall x, VDict x ∉ dicts decoded_rotate ->
        heap rotate_dumped !! x
        = heap (example_state 4 rotate_payload 24 two_dicts) !! x)
  /\ (RotateEvent = RotateEvent ->
      exists lh, hashes decoded_rotate = VDict lh
                 /\ heap rotate_dumped !! lh = Some ∅).
Proof.
  apply (dump_frame python3 RotateEvent 24 VNone VNone ∅
           (start 4 rotate_payload)
           (example_state 4 rotate_payload 24 two_dicts) rotate_dumped
           decoded_rotate (Ok (VDict 2%positive, decoded_rotate))).
  - exact rotate_decodes.
  - exact rotate_dumps.
Defined.

(** The query on schema [test], whose schema decodes. *)
Lemma QueryEvent_dump_outcome_witness :
  exists only_schemas slave_proxy_id execution_time schema_length error_code
         status_vars_length status_vars schema query lh lp,
    body decoded_query
    = QueryFields only_schemas slave_proxy_id execution_time
        schema_length error_code status_vars_length status_vars
        schema query (VDict lp)
    /\ hashes decoded_query = VDict lh
    /\ match default_codec python3 schema with
       | Some t =>
         exists m s',
           dump python3 decoded_query
             (example_state 2 query_payload 30 two_dicts)
           = (Ok (VDict lh, decoded_query), s')
           /\ heap s' !! lh = Some m
           /\ m !! "schema" = Some (VText t)
           /\ m !! "execution_time" = Some (VInt execution_time)
           /\ m !! "query" = Some (VText query)
       | None =>
         exists s',
           dump python3 decoded_query
             (example_state 2 query_payload 30 two_dicts)
           = (Err UnicodeDecodeError, s')
           /\ heap s' !! lh
              = Some (envelope decoded_query
                        (packet (example_state 2 query_payload 30 two_dicts))
                        ∅)
           /\ heap s' !! lp = Some ∅
       end.
Proof.
  apply (QueryEvent_dump_outcome python3 30 VNone VNone
           {[ "only_schemas" := VNone ]} (start 2 query_payload)
           (example_state 2 query_payload 30 two_dicts) decoded_query).
  exact query_decodes.
Defined.

(** The decoded GTID event on Python 3: no text, in [gtid], in
    [__repr__] or in the dump. *)
Lemma GtidEvent_gtid_shown_witness :
  exists commit_flag sid gno lp lh,
    body decoded_gtid = GtidFields commit_flag sid gno (VDict lp)
    /\ hashes decoded_gtid = VDict lh
    /\ if bytes_iter_ints python3 then
         gtid python3 sid gno = Err TypeError
         /\ GtidEvent_repr python3 decoded_gtid = Err TypeError
         /\ exists s',
              dump python3 decoded_gtid
                (example_state 33 gtid_payload 25 two_dicts)
              = (Err TypeError, s')
              /\ heap s' !! lh
                 = Some (envelope decoded_gtid
                           (packet (example_state 33 gtid_payload 25
                                      two_dicts)) ∅)
              /\ heap s' !! lp
                 = Some (<["commit_flag" := VBool commit_flag]> ∅)
       else
         gtid python3 sid gno = Ok (gtid_text sid gno)
         /\ matches_gtid_pattern (gtid_text sid gno) = true
         /\ GtidEvent_repr python3 decoded_gtid
            = Ok ("<GtidEvent " +:+ dquote +:+ gtid_text sid gno
                  +:+ dquote +:+ ">")
         /\ exists m s',
              dump python3 decoded_gtid
                (example_state 33 gtid_payload 25 two_dicts)
              = (Ok (VDict lh, decoded_gtid), s')
              /\ heap s' !! lh = Some m
              /\ m !! "gtid" = Some (VText (gtid_text sid gno))
              /\ m !! "commit_flag" = Some (VBool commit_flag).
Proof.
  apply (GtidEvent_gtid_shown python3 25 VNone VNone ∅
           (start 33 gtid_payload)
           (example_state 33 gtid_payload 25 two_dicts) decoded_gtid).
  exact gtid_decodes.
Defined.
